(** * BigEarthNet dataset adapter: a shallow embedding and its properties

    Source: [src/inference/datasets/bigearthnet.py] (class [BigEarthNet]).

    The embedding follows the Python text:
    - [str] values are Rocq [string]s, read as sequences of code points
      below 256; [str.strip], [str.splitlines], [str.split(",")] and
      [os.path.join] are written out on that representation;
    - the class attribute [class_sets] is shared by all instances and is
      mutated by [__init__]; it lives in the state threaded through the
      monad [M], while [class2idx] is a per-instance snapshot;
    - the file system, the raster decoder, the JSON reader and the helpers
      imported from [src.inference.datasets.utils] are not part of the file
      and are the fields of the class [Externals];
    - exceptions are values of [PyError]; every external call is logged in
      a trace so that "before any I/O" can be stated.

    Layout: the Python primitives, the class attributes, the methods of
    the class, the notions the statements use, a concrete world; then the
    lemmas on computations and on construction, and the properties of the
    class, each followed by its instance on the concrete world. *)

From stdpp Require Import base tactics option list sorting strings gmap.
From stdpp Require Import pretty.
From Stdlib Require Import ZArith Ascii.

Local Open Scope Z_scope.

(** ** Python strings *)

Module PyStr.

Definition ord (c : ascii) : nat := nat_of_ascii c.

Definition in_range (lo hi : nat) (c : ascii) : bool :=
  (Nat.leb lo (ord c)) && (Nat.leb (ord c) hi).

(** [str.isspace] on one code point below 256:
    U+0009..U+000D, U+001C..U+0020, U+0085, U+00A0. *)
Definition isspace (c : ascii) : bool :=
  in_range 9 13 c || in_range 28 32 c || Nat.eqb (ord c) 133
  || Nat.eqb (ord c) 160.

(** The line boundaries of [str.splitlines] below 256:
    LF, VT, FF, CR, FS, GS, RS and NEL. *)
Definition is_linebreak (c : ascii) : bool :=
  in_range 10 13 c || in_range 28 30 c || Nat.eqb (ord c) 133.

Fixpoint lstrip (s : string) : string :=
  match s with
  | String c s' => if isspace c then lstrip s' else s
  | EmptyString => EmptyString
  end.

Definition rstrip (s : string) : string :=
  String.rev (lstrip (String.rev s)).

(** [s.strip()] with no argument. *)
Definition strip (s : string) : string := rstrip (lstrip s).

(** [s.splitlines()]: [cur] is the current line, reversed.  A line is
    emitted at every boundary ("\r\n" counts as one) and at the end of
    the text when characters are pending. *)
Fixpoint splitlines_go (cur : string) (s : string) : list string :=
  match s with
  | EmptyString =>
      match cur with
      | EmptyString => []
      | _ => [String.rev cur]
      end
  | String c s' =>
      if is_linebreak c then
        String.rev cur ::
          (if Nat.eqb (ord c) 13 then
             match s' with
             | String c' s'' =>
                 if Nat.eqb (ord c') 10 then splitlines_go EmptyString s''
                 else splitlines_go EmptyString s'
             | EmptyString => splitlines_go EmptyString s'
             end
           else splitlines_go EmptyString s')
      else splitlines_go (String c cur) s'
  end.

Definition splitlines (s : string) : list string :=
  splitlines_go EmptyString s.

(** [s.split(sep)] for a one-character separator: never empty. *)
Fixpoint split_go (sep : ascii) (cur : string) (s : string) : list string :=
  match s with
  | EmptyString => [String.rev cur]
  | String c s' =>
      if Ascii.eqb c sep then String.rev cur :: split_go sep EmptyString s'
      else split_go sep (String c cur) s'
  end.

Definition split (sep : ascii) (s : string) : list string :=
  split_go sep EmptyString s.

Definition startswith (p s : string) : bool := String.prefix p s.

Definition endswith (p s : string) : bool :=
  String.prefix (String.rev p) (String.rev s).

(** [posixpath.join(a, *p)]. *)
Definition join2 (path b : string) : string :=
  if startswith "/" b then b
  else if String.eqb path "" || endswith "/" path then path +:+ b
  else path +:+ "/" +:+ b.

Definition join (a : string) (p : list string) : string :=
  foldl join2 a p.

(** [a < b] on [str]: lexicographic on code points. *)
Definition lt (a b : string) : bool := String.ltb a b.

End PyStr.

(** ** Python lists and dicts *)

Module Py.

(** [l[i]] for a Python [int] index: negative indices count from the
    end, anything else out of range raises [IndexError] ([None] here). *)
Definition getitem {A} (l : list A) (i : Z) : option A :=
  let n := Z.of_nat (length l) in
  if (0 <=? i) && (i <? n) then l !! Z.to_nat i
  else if (- n <=? i) && (i <? 0) then l !! Z.to_nat (n + i)
  else None.

(** [sorted(l, key=key)].  Python's sort is stable and only uses [<] on
    the keys; for such a sort the result is determined, and it is the one
    computed by this stable insertion sort. *)
Fixpoint insert_by {A} (lt : A → A → bool) (x : A) (l : list A) : list A :=
  match l with
  | [] => [x]
  | y :: l' => if lt y x then y :: insert_by lt x l' else x :: y :: l'
  end.

Definition sorted {A K} (ltK : K → K → bool) (key : A → K) (l : list A)
  : list A :=
  foldr (insert_by (λ a b, ltK (key a) (key b))) [] l.

(** [enumerate(l)] with the index second, as the comprehension of
    [class2idx] uses it. *)
Definition enumerate {A} (l : list A) : list (A * nat) :=
  imap (λ i c, (c, i)) l.

(** A dict built by inserting the pairs in order: a later pair with the
    same key overrides an earlier one. *)
Definition dict `{Countable K} {V} (kvs : list (K * V)) : gmap K V :=
  foldl (λ m kv, <[kv.1 := kv.2]> m) ∅ kvs.

(** [all(l)] on booleans. *)
Definition all (l : list bool) : bool := forallb id l.

End Py.

Arguments Py.dict : simpl never.

(** ** Exceptions, tensors, I/O events *)

Inductive PyError : Type :=
| AssertionError
| KeyError (key : string)
| IndexError
| ValueError
| RuntimeError (msg : string)
| ExternalError (msg : string).

Definition Result (A : Type) : Type := PyError + A.

(** A tensor is its shape and its elements in row-major order. *)
Record Tensor (A : Type) : Type := mkTensor { shape : list nat; data : list A }.
Arguments mkTensor {A} _ _.
Arguments shape {A} _.
Arguments data {A} _.

(** [t.squeeze(dim)] for a dimension the tensor has: the dimension is
    removed when its size is 1, the tensor is returned as it is
    otherwise. *)
Definition squeeze {A} (dim : nat) (t : Tensor A) : Tensor A :=
  match shape t !! dim with
  | Some 1%nat => mkTensor (delete dim (shape t)) (data t)
  | _ => t
  end.

(** [torch.zeros(n, dtype=torch.long)]. *)
Definition zeros (n : Z) : Tensor Z :=
  mkTensor [Z.to_nat n] (replicate (Z.to_nat n) 0).

(** [t[indices] = v] on a one-dimensional tensor, for non-negative
    indices: an index past the end raises [IndexError]. *)
Fixpoint index_put (d : list Z) (indices : list nat) (v : Z) : Result (list Z) :=
  match indices with
  | [] => inr d
  | i :: rest =>
      if decide (i < length d)%nat then index_put (<[i := v]> d) rest v
      else inl IndexError
  end.

Inductive Event : Type :=
| EvExists (path : string)
| EvOpen (path : string)
| EvGlob (pattern : string)
| EvRasterOpen (path : string)
| EvExtract (filepath : string)
| EvDownload (url rootdir filename : string) (md5 : option string).

(** What the module imports and calls but does not define: the file
    system ([os.path.exists], [open], [glob.glob]), [json.load],
    [rasterio], the float conversion of [torch], and [download_url],
    [extract_archive], [sort_sentinel2_bands] of
    [src.inference.datasets.utils]. *)
Class Externals : Type := {
  World : Type;
  os_path_exists : World → string → bool;
  read_text : World → string → Result string;
  glob_glob : World → string → list string;
  json_load_labels : World → string → Result (list string);
  rasterio_read : World → string → nat * nat → Result (list Z);
  extract_archive : string → World → option PyError * World;
  download_url :
    string → string → string → option string → World → option PyError * World;
  sort_sentinel2_bands : string → string;
  float32 : Type;
  to_float : Z → float32;
}.

(** ** Class attributes *)

(** [class_sets]: a dict with the two keys 19 and 43, each holding a list
    object.  The keys never change, the two lists do ([__init__] appends to
    them), so the attribute is the pair of the two lists. *)
Record ClassSets : Type := mkClassSets {
  cs19 : list string;
  cs43 : list string;
}.

Definition class_sets_19 : list string := [
  "Urban fabric";
  "Industrial or commercial units";
  "Arable land";
  "Permanent crops";
  "Pastures";
  "Complex cultivation patterns";
  "Land principally occupied by agriculture, with significant areas of"
    +:+ " natural vegetation";
  "Agro-forestry areas";
  "Broad-leaved forest";
  "Coniferous forest";
  "Mixed forest";
  "Natural grassland and sparsely vegetated areas";
  "Moors, heathland and sclerophyllous vegetation";
  "Transitional woodland, shrub";
  "Beaches, dunes, sands";
  "Inland wetlands";
  "Coastal wetlands";
  "Inland waters";
  "Marine waters"
].

Definition class_sets_43 : list string := [
  "Continuous urban fabric";
  "Discontinuous urban fabric";
  "Industrial or commercial units";
  "Road and rail networks and associated land";
  "Port areas";
  "Airports";
  "Mineral extraction sites";
  "Dump sites";
  "Construction sites";
  "Green urban areas";
  "Sport and leisure facilities";
  "Non-irrigated arable land";
  "Permanently irrigated land";
  "Rice fields";
  "Vineyards";
  "Fruit trees and berry plantations";
  "Olive groves";
  "Pastures";
  "Annual crops associated with permanent crops";
  "Complex cultivation patterns";
  "Land principally occupied by agriculture, with significant areas of"
    +:+ " natural vegetation";
  "Agro-forestry areas";
  "Broad-leaved forest";
  "Coniferous forest";
  "Mixed forest";
  "Natural grassland";
  "Moors and heathland";
  "Sclerophyllous vegetation";
  "Transitional woodland/shrub";
  "Beaches, dunes, sands";
  "Bare rock";
  "Sparsely vegetated areas";
  "Burnt areas";
  "Inland marshes";
  "Peatbogs";
  "Salt marshes";
  "Salines";
  "Intertidal flats";
  "Water courses";
  "Water bodies";
  "Coastal lagoons";
  "Estuaries";
  "Sea and ocean"
].

(** The value of [class_sets] when the module is loaded. *)
Definition class_sets_init : ClassSets := mkClassSets class_sets_19 class_sets_43.

Definition label_converter : gmap nat nat := Py.dict [
  (0, 0); (1, 0); (2, 1); (11, 2); (12, 2); (13, 2); (14, 3); (15, 3);
  (16, 3); (18, 3); (17, 4); (19, 5); (20, 6); (21, 7); (22, 8); (23, 9);
  (24, 10); (25, 11); (31, 11); (26, 12); (27, 12); (28, 13); (29, 14);
  (33, 15); (34, 15); (35, 16); (36, 16); (38, 17); (39, 17); (40, 18);
  (41, 18); (42, 18)
]%nat.

Record Meta : Type := mkMeta {
  url : string;
  md5 : string;
  filename : string;
  directory : string;
}.

(** [splits_metadata], in insertion order (the order in which [_verify]
    iterates over it); the entries have no ["directory"]. *)
Definition splits_metadata : list (string * Meta) := [
  ("train",
   mkMeta "https://git.tu-berlin.de/rsim/BigEarthNet-MM_19-classes_models/-/raw/9a5be07346ab0884b2d9517475c27ef9db9b5104/splits/train.csv?inline=false"
          "623e501b38ab7b12fe44f0083c00986d" "bigearthnet-train.csv" "");
  ("val",
   mkMeta "https://git.tu-berlin.de/rsim/BigEarthNet-MM_19-classes_models/-/raw/9a5be07346ab0884b2d9517475c27ef9db9b5104/splits/val.csv?inline=false"
          "22efe8ed9cbd71fa10742ff7df2b7978" "bigearthnet-val.csv" "");
  ("test",
   mkMeta "https://git.tu-berlin.de/rsim/BigEarthNet-MM_19-classes_models/-/raw/9a5be07346ab0884b2d9517475c27ef9db9b5104/splits/test.csv?inline=false"
          "697fb90677e30571b9ac7699b7e5b432" "bigearthnet-test.csv" "")
].

Definition metadata : list (string * Meta) := [
  ("s1",
   mkMeta "https://bigearth.net/downloads/BigEarthNet-S1-v1.0.tar.gz"
          "94ced73440dea8c7b9645ee738c5a172" "BigEarthNet-S1-v1.0.tar.gz"
          "sentinel-1");
  ("s2",
   mkMeta "https://bigearth.net/downloads/BigEarthNet-S2-v1.0.tar.gz"
          "5a64e9ce38deb036a435a7b59494924c" "BigEarthNet-S2-v1.0.tar.gz"
          "sentinel-2")
].

Definition image_size : nat * nat := (120, 120)%nat.

(** [d[k]] on one of the two tables above. *)
Fixpoint table_get (d : list (string * Meta)) (k : string) : Result Meta :=
  match d with
  | [] => inl (KeyError k)
  | (k', v) :: d' => if String.eqb k k' then inr v else table_get d' k
  end.

(** [k in d]. *)
Definition table_mem (d : list (string * Meta)) (k : string) : bool :=
  bool_decide (k ∈ d.*1).

(** ** The dataset class *)

Section BigEarthNet.
Context `{Ext : Externals}.

(** The state a call runs in: the outside world, the log of external
    calls made so far (oldest first) and the class attribute
    [class_sets]. *)
Record State : Type := mkState {
  world : World;
  trace : list Event;
  class_sets : ClassSets;
}.

(** A computation returns a value or raises, and leaves a state either
    way (what was done before an exception stays done). *)
Definition M (A : Type) : Type := State → Result A * State.

Definition ret {A} (a : A) : M A := λ st, (inr a, st).
Definition raise {A} (e : PyError) : M A := λ st, (inl e, st).
Definition bind {A B} (m : M A) (k : A → M B) : M B :=
  λ st, match m st with
        | (inl e, st') => (inl e, st')
        | (inr a, st') => k a st'
        end.
Definition lift {A} (r : Result A) : M A := λ st, (r, st).

Notation "'do' x <- m ; k" := (bind m (λ x, k))
  (at level 10, x name, m at level 100, k at level 200,
   format "'[v' 'do'  x  <-  m ; '/' k ']'").
Notation "'run' m ; k" := (bind m (λ _, k))
  (at level 10, m at level 100, k at level 200,
   format "'[v' 'run'  m ; '/' k ']'").

Definition assert (b : bool) : M unit :=
  if b then ret tt else raise AssertionError.

Fixpoint mapM {A B} (f : A → M B) (l : list A) : M (list B) :=
  match l with
  | [] => ret []
  | x :: l' => do y <- f x; do ys <- mapM f l'; ret (y :: ys)
  end.

Fixpoint forM_ {A} (l : list A) (f : A → M unit) : M unit :=
  match l with
  | [] => ret tt
  | x :: l' => run f x; forM_ l' f
  end.

(** *** External calls, logged *)

Definition log (ev : Event) (st : State) : State :=
  mkState (world st) (trace st ++ [ev]) (class_sets st).

Definition io_exists (path : string) : M bool :=
  λ st, (inr (os_path_exists (world st) path), log (EvExists path) st).

Definition io_glob (pattern : string) : M (list string) :=
  λ st, (inr (glob_glob (world st) pattern), log (EvGlob pattern) st).

(** [with open(path) as f: f.read()] *)
Definition io_read_text (path : string) : M string :=
  λ st, (read_text (world st) path, log (EvOpen path) st).

(** [with open(path) as f: json.load(f)["labels"]] *)
Definition io_json_labels (path : string) : M (list string) :=
  λ st, (json_load_labels (world st) path, log (EvOpen path) st).

(** [with rasterio.open(path) as dataset: dataset.read(indexes=1,
    out_shape=..., out_dtype="int32", resampling=Resampling.bilinear)] *)
Definition io_raster_read (path : string) (out_shape : nat * nat)
  : M (list Z) :=
  λ st, (rasterio_read (world st) path out_shape, log (EvRasterOpen path) st).

Definition io_extract (filepath : string) : M unit :=
  λ st, let '(r, w) := extract_archive filepath (world st) in
        (match r with Some e => inl e | None => inr tt end,
         mkState w (trace st ++ [EvExtract filepath]) (class_sets st)).

Definition io_download (u rootdir fname : string) (m : option string)
  : M unit :=
  λ st, let '(r, w) := download_url u rootdir fname m (world st) in
        (match r with Some e => inl e | None => inr tt end,
         mkState w (trace st ++ [EvDownload u rootdir fname m])
                 (class_sets st)).

Definition get_class_sets : M ClassSets := λ st, (inr (class_sets st), st).

Definition put_class_sets (cs : ClassSets) : M unit :=
  λ st, (inr tt, mkState (world st) (trace st) cs).

(** *** Instances *)

Record Folder : Type := mkFolder { s1 : string; s2 : string }.

(** [folder[k]] for the dict with keys ["s1"] and ["s2"]. *)
Definition folder_get (f : Folder) (k : string) : Result string :=
  if String.eqb k "s1" then inr (s1 f)
  else if String.eqb k "s2" then inr (s2 f)
  else inl (KeyError k).

Record Sample : Type := mkSample {
  image : Tensor float32;
  label : Tensor Z;
}.

Record BigEarthNet : Type := mkBigEarthNet {
  root : string;
  split : string;
  bands : string;
  num_classes : Z;
  transforms : option (Sample → Result Sample);
  download : bool;
  checksum : bool;
  class2idx : gmap string nat;
  folders : list Folder;
  other_features : bool;
}.

Definition set_folders (fs : list Folder) (self : BigEarthNet) : BigEarthNet :=
  mkBigEarthNet (root self) (split self) (bands self) (num_classes self)
    (transforms self) (download self) (checksum self) (class2idx self)
    fs (other_features self).

Definition set_other_features (b : bool) (self : BigEarthNet) : BigEarthNet :=
  mkBigEarthNet (root self) (split self) (bands self) (num_classes self)
    (transforms self) (download self) (checksum self) (class2idx self)
    (folders self) b.

Definition set_num_classes (n : Z) (self : BigEarthNet) : BigEarthNet :=
  mkBigEarthNet (root self) (split self) (bands self) n
    (transforms self) (download self) (checksum self) (class2idx self)
    (folders self) (other_features self).

(** *** [_download], [_extract], [_verify] *)

Definition _download (self : BigEarthNet) (u fname m : string) : M unit :=
  do present <- io_exists fname;
  if negb present then
    io_download u (root self) fname (if checksum self then Some m else None)
  else ret tt.

Definition _extract (self : BigEarthNet) (filepath : string) : M unit :=
  if negb (PyStr.endswith ".csv" filepath) then io_extract filepath
  else ret tt.

Definition zip3 {A B C} (a : list A) (b : list B) (c : list C)
  : list (A * B * C) := zip (zip a b) c.

Definition _verify (self : BigEarthNet) : M unit :=
  let keys := if String.eqb (bands self) "all" then ["s1"; "s2"]
              else [bands self] in
  do metas <- mapM (λ k, lift (table_get metadata k)) keys;
  let urls := (url <$> metas) ++ (url <$> splits_metadata.*2) in
  let md5s := (md5 <$> metas) ++ (md5 <$> splits_metadata.*2) in
  let filenames_splits := filename <$> splits_metadata.*2 in
  let filenames := (filename <$> metas) ++ filenames_splits in
  let directories := directory <$> metas in
  (* Check if the split file already exist *)
  do exists_splits <-
    mapM (λ f, io_exists (PyStr.join (root self) [f])) filenames_splits;
  (* Check if the files already exist *)
  do exists_dirs <-
    mapM (λ d, io_exists (PyStr.join (root self) [d])) directories;
  if Py.all (exists_splits ++ exists_dirs) then ret tt else
  (* Check if zip file already exists (if so then extract) *)
  do exists_zip <-
    mapM (λ f,
            let filepath := PyStr.join (root self) [f] in
            do present <- io_exists filepath;
            if present then run _extract self filepath; ret true
            else ret false)
         filenames;
  if Py.all exists_zip then ret tt else
  (* Check if the user requested to download the dataset *)
  if negb (download self) then
    raise (RuntimeError
      ("Dataset not found in `root` directory and `download=False`, "
       +:+ "either specify a different `root` directory or use `download=True` "
       +:+ "to automatically download the dataset."))
  else
  (* Download and extract the dataset *)
  forM_ (zip3 urls filenames md5s)
    (λ '(u, f, m),
       run _download self u f m;
       _extract self (PyStr.join (root self) [f])).

(** *** [_load_folders], [__len__] *)

(** [l[0]] on a list of strings ([pair[0]], [glob.glob(...)[0]]). *)
Definition first (tokens : list string) : Result string :=
  match tokens with
  | x :: _ => inr x
  | [] => inl IndexError
  end.

Fixpoint folders_of_pairs (rootdir dir_s1 dir_s2 : string)
    (pairs : list (list string)) : Result (list Folder) :=
  match pairs with
  | [] => inr []
  | tokens :: rest =>
      match first tokens with
      | inl e => inl e
      | inr id =>
          match folders_of_pairs rootdir dir_s1 dir_s2 rest with
          | inl e => inl e
          | inr fs =>
              inr (mkFolder (PyStr.join rootdir [dir_s1; id])
                            (PyStr.join rootdir [dir_s2; id]) :: fs)
          end
      end
  end.

Definition _load_folders (self : BigEarthNet) : M (list Folder) :=
  do sm <- lift (table_get splits_metadata (split self));
  do m1 <- lift (table_get metadata "s1");
  do m2 <- lift (table_get metadata "s2");
  do content <- io_read_text (PyStr.join (root self) [filename sm]);
  let lines := PyStr.splitlines (PyStr.strip content) in
  let pairs := PyStr.split "," <$> lines in
  lift (folders_of_pairs (root self) (directory m1) (directory m2) pairs).

Definition __len__ (self : BigEarthNet) : nat := length (folders self).

(** *** [__init__] *)

Record InitArgs : Type := mkInitArgs {
  arg_root : string;
  arg_split : string;
  arg_bands : string;
  arg_num_classes : Z;
  arg_transforms : option (Sample → Result Sample);
  arg_download : bool;
  arg_checksum : bool;
  arg_other_features : bool;
}.

(** The attributes [folders] and [other_features] do not exist until
    they are assigned; nothing reads them before, and the record holds
    [[]] and [false] until then. *)
Definition __init__ (a : InitArgs) : M BigEarthNet :=
  run assert (table_mem splits_metadata (arg_split a));
  run assert (bool_decide (arg_bands a ∈ ["s1"; "s2"; "all"]));
  run assert (bool_decide (arg_num_classes a ∈ [43; 19]));
  do cs <- get_class_sets;
  let self :=
    mkBigEarthNet (arg_root a) (arg_split a) (arg_bands a)
      (arg_num_classes a) (arg_transforms a) (arg_download a)
      (arg_checksum a) (Py.dict (Py.enumerate (cs43 cs))) [] false in
  run _verify self;
  do fs <- _load_folders self;
  let self := set_other_features (arg_other_features a) (set_folders fs self) in
  do cs <- get_class_sets;
  if other_features self
     && negb (bool_decide ("Other features" ∈ cs19 cs)) then
    run put_class_sets
      (mkClassSets (cs19 cs ++ ["Other features"])
                   (cs43 cs ++ ["Other features"]));
    ret (set_num_classes (num_classes self + 1) self)
  else ret self.

(** *** [_load_paths], [_load_image] *)

(** [self.folders[index][k]] *)
Definition folder_at (self : BigEarthNet) (index : Z) (k : string) : M string :=
  match Py.getitem (folders self) index with
  | None => raise IndexError
  | Some f => lift (folder_get f k)
  end.

Definition _load_paths (self : BigEarthNet) (index : Z) : M (list string) :=
  if String.eqb (bands self) "all" then
    do folder_s1 <- folder_at self index "s1";
    do folder_s2 <- folder_at self index "s2";
    do paths_s1 <- io_glob (PyStr.join folder_s1 ["*.tif"]);
    do paths_s2 <- io_glob (PyStr.join folder_s2 ["*.tif"]);
    let paths_s1 := Py.sorted PyStr.lt id paths_s1 in
    let paths_s2 := Py.sorted PyStr.lt sort_sentinel2_bands paths_s2 in
    ret (paths_s1 ++ paths_s2)
  else if String.eqb (bands self) "s1" then
    do folder <- folder_at self index "s1";
    do paths <- io_glob (PyStr.join folder ["*.tif"]);
    ret (Py.sorted PyStr.lt id paths)
  else
    do folder <- folder_at self index "s2";
    do paths <- io_glob (PyStr.join folder ["*.tif"]);
    ret (Py.sorted PyStr.lt sort_sentinel2_bands paths).

(** [np.stack(images, axis=0)] of arrays of shape [image_size], then
    [torch.from_numpy(arrays).float()]; stacking no array at all raises
    [ValueError]. *)
Definition stack_float (images : list (list Z)) : Result (Tensor float32) :=
  match images with
  | [] => inl ValueError
  | _ => inr (mkTensor [length images; image_size.1; image_size.2]
                       (to_float <$> concat images))
  end.

Definition _load_image (self : BigEarthNet) (index : Z) : M (Tensor float32) :=
  do paths <- _load_paths self index;
  do images <- mapM (λ path, io_raster_read path image_size) paths;
  lift (stack_float images).

(** *** [_load_target] *)

(** [self.class2idx[label]] *)
Definition class2idx_get (self : BigEarthNet) (name : string) : Result nat :=
  match class2idx self !! name with
  | Some i => inr i
  | None => inl (KeyError name)
  end.

(** [[self.class2idx[label] for label in labels]] *)
Fixpoint labels_to_indices (self : BigEarthNet) (labels : list string)
  : Result (list nat) :=
  match labels with
  | [] => inr []
  | name :: rest =>
      match class2idx_get self name with
      | inl e => inl e
      | inr i =>
          match labels_to_indices self rest with
          | inl e => inl e
          | inr rest' => inr (i :: rest')
          end
      end
  end.

Definition _load_target (self : BigEarthNet) (index : Z) : M (Tensor Z) :=
  do folder <-
    (if String.eqb (bands self) "s2" then folder_at self index "s2"
     else folder_at self index "s1");
  do found <- io_glob (PyStr.join folder ["*.json"]);
  do path <- lift (first found);
  do labels <- io_json_labels path;
  (* labels -> indices *)
  do indices <- lift (labels_to_indices self labels);
  (* Map 43 to 19/20 class labels *)
  let indices :=
    if (num_classes self =? 19) || (num_classes self =? 20) then
      omap (λ idx, label_converter !! idx) indices
    else indices in
  let target := zeros (num_classes self) in
  do d <- lift (index_put (data target) indices 1);
  ret (mkTensor (shape target) d).

(** *** [__getitem__] *)

Definition __getitem__ (self : BigEarthNet) (index : Z)
  : M (Tensor float32 * Tensor Z) :=
  do img <- _load_image self index;
  do lbl <- _load_target self index;
  let sample := mkSample img lbl in
  do sample <-
    (match transforms self with
     | Some t => lift (t sample)
     | None => ret sample
     end);
  let sample :=
    if Nat.eqb (length (shape (image sample))) 4
    then mkSample (squeeze 1 (image sample)) (label sample)
    else sample in
  ret (image sample, label sample).

(** *** [_onehot_labels_to_names] *)

(** [self.class_sets[n]], read from the class attribute when the call is
    made: the dict has the keys 19 and 43 and no other; the [KeyError]
    carries the key in decimal. *)
Definition class_sets_get (n : Z) : M (list string) :=
  do cs <- get_class_sets;
  if n =? 19 then ret (cs19 cs)
  else if n =? 43 then ret (cs43 cs)
  else raise (KeyError (pretty n)).

(** [names[i]] for an index that [enumerate] has produced. *)
Definition name_at (names : list string) (i : nat) : Result string :=
  match names !! i with
  | Some name => inr name
  | None => inl IndexError
  end.

(** The loop of [_onehot_labels_to_names] from position [i] on. *)
Fixpoint onehot_loop (self : BigEarthNet) (i : nat) (label_mask : list bool)
  : M (list string) :=
  match label_mask with
  | [] => ret []
  | mask :: rest =>
      if mask then
        do names <- class_sets_get (num_classes self);
        do name <- lift (name_at names i);
        do labels <- onehot_loop self (S i) rest;
        ret (name :: labels)
      else onehot_loop self (S i) rest
  end.

Definition _onehot_labels_to_names (self : BigEarthNet)
    (label_mask : list bool) : M (list string) :=
  onehot_loop self 0 label_mask.

End BigEarthNet.

Arguments State : clear implicits.
Arguments State {Ext}.

(** ** Notions used in the statements *)

Section Notions.
Context `{Ext : Externals}.

(** [m] leaves the component [proj] of the state as it found it,
    whether it returns or raises. *)
Definition preserves {X A} (proj : State → X) (m : M A) : Prop :=
  ∀ st, proj (m st).2 = proj st.

(** The instance as [__init__] has built it when it calls [_verify]. *)
Definition init_self (a : InitArgs) (cs : ClassSets) : BigEarthNet :=
  mkBigEarthNet (arg_root a) (arg_split a) (arg_bands a)
    (arg_num_classes a) (arg_transforms a) (arg_download a)
    (arg_checksum a) (Py.dict (Py.enumerate (cs43 cs))) [] false.

(** The guard of the "Other features" block of [__init__]. *)
Definition grows (a : InitArgs) (cs : ClassSets) : bool :=
  arg_other_features a && negb (bool_decide ("Other features" ∈ cs19 cs)).

Definition with_other (cs : ClassSets) : ClassSets :=
  mkClassSets (cs19 cs ++ ["Other features"]) (cs43 cs ++ ["Other features"]).

(** [class_sets] as extended by the first instance with
    [other_features]. *)
Definition class_sets_other : ClassSets := with_other class_sets_init.

(** The only two values [class_sets] ever takes. *)
Definition vocabulary (cs : ClassSets) : Prop :=
  cs = class_sets_init ∨ cs = class_sets_other.

(** The folder [_load_target] looks into, for the folder record of the
    sample (lines 435-438 of the source). *)
Definition target_folder (self : BigEarthNet) (f : Folder) : string :=
  if String.eqb (bands self) "s2" then s2 f else s1 f.

(** The folder the label file is read from according to the
    specification: source B's when source B is the active or the combined
    source, source A's otherwise. *)
Definition spec_label_folder (b : string) (f : Folder) : string :=
  if String.eqb b "s2" || String.eqb b "all" then s2 f else s1 f.

(** The external calls of [_load_target self index] run in [st] are a
    search for "*.json" in [folder] followed by the opening of the first
    file found there, and nothing else. *)
Definition reads_label_from (self : BigEarthNet) (index : Z) (st : State)
    (folder : string) : Prop :=
  let pattern := PyStr.join folder ["*.json"] in
  trace (_load_target self index st).2
  = trace st ++ EvGlob pattern ::
      match glob_glob (world st) pattern with
      | path :: _ => [EvOpen path]
      | [] => []
      end.

(** In world [w], the label file that [_load_target self index] reads
    holds the names [labels]. *)
Definition label_file (self : BigEarthNet) (index : Z) (w : World)
    (labels : list string) : Prop :=
  ∃ f path rest,
    Py.getitem (folders self) index = Some f
    ∧ glob_glob w (PyStr.join (target_folder self f) ["*.json"]) = path :: rest
    ∧ json_load_labels w path = inr labels.

(** The part of [_load_target] that follows the reading of the file. *)
Definition target_of_labels (self : BigEarthNet) (labels : list string)
  : Result (Tensor Z) :=
  match labels_to_indices self labels with
  | inl e => inl e
  | inr indices =>
      let indices :=
        if (num_classes self =? 19) || (num_classes self =? 20) then
          omap (λ idx, label_converter !! idx) indices
        else indices in
      match index_put (data (zeros (num_classes self))) indices 1 with
      | inl e => inl e
      | inr d => inr (mkTensor (shape (zeros (num_classes self))) d)
      end
  end.

Definition set_bands (b : string) (self : BigEarthNet) : BigEarthNet :=
  mkBigEarthNet (root self) (split self) b (num_classes self)
    (transforms self) (download self) (checksum self) (class2idx self)
    (folders self) (other_features self).

(** The sample identifier of a manifest line: its first comma-separated
    token. *)
Definition first_token (line : string) : string :=
  match PyStr.split "," line with
  | x :: _ => x
  | [] => ""
  end.

(** The folder record [_load_folders] builds for a manifest line. *)
Definition folder_of_line (rootdir line : string) : Folder :=
  mkFolder (PyStr.join rootdir ["sentinel-1"; first_token line])
           (PyStr.join rootdir ["sentinel-2"; first_token line]).

(** The number of non-empty lines of a text, as the specification
    counts the samples of a manifest. *)
Definition nonempty_line_count (content : string) : nat :=
  length (filter (λ line, line ≠ "") (PyStr.splitlines content)).

(** The shape of the image a call of [__getitem__] has returned. *)
Definition returned_shape
    (r : Result (Tensor float32 * Tensor Z) * State) : option (list nat) :=
  match r.1 with
  | inr (img, _) => Some (shape img)
  | inl _ => None
  end.

(** The order of the result of [sorted] with a string key. *)
Definition key_le {A} (key : A → string) (a b : A) : Prop :=
  String.le (key a) (key b).

(** The multi-hot vector of length [n] with [i] as its only set entry. *)
Definition one_hot (n i : nat) : list Z := <[i := 1]> (replicate n 0).

End Notions.

(** ** More notions *)

Section VerifyNotions.
Context `{Ext : Externals}.

(** Every external call [m] makes satisfies [P]: the log grows by
    events that all satisfy [P], whether [m] returns or raises. *)
Definition emits {A} (P : Event → Prop) (m : M A) : Prop :=
  ∀ st, ∃ evs, trace (m st).2 = trace st ++ evs ∧ Forall P evs.

(** The keys of [metadata] that [_verify] looks at. *)
Definition selected_keys (b : string) : list string :=
  if String.eqb b "all" then ["s1"; "s2"] else [b].

(** The entries of [metadata] for a selection of sources. *)
Definition selected_metas (b : string) : list Meta :=
  omap (λ k, match table_get metadata k with
             | inr m => Some m
             | inl _ => None
             end) (selected_keys b).

(** The three manifests and the directories of the selected sources are
    in the root directory. *)
Definition dataset_present (w : World) (rootdir b : string) : Prop :=
  (∀ sm, sm ∈ splits_metadata.*2 →
         os_path_exists w (PyStr.join rootdir [filename sm]) = true)
  ∧ (∀ m, m ∈ selected_metas b →
          os_path_exists w (PyStr.join rootdir [directory m]) = true).

(** The paths [_verify] tests first, in the order it tests them. *)
Definition checked_first (rootdir b : string) : list string :=
  ((λ sm, PyStr.join rootdir [filename sm]) <$> splits_metadata.*2)
  ++ ((λ m, PyStr.join rootdir [directory m]) <$> selected_metas b).

(** The paths [_verify] tests next: the archives of the selected sources
    and the manifests. *)
Definition checked_next (rootdir b : string) : list string :=
  (λ m, PyStr.join rootdir [filename m])
    <$> (selected_metas b ++ splits_metadata.*2).

(** What [_verify] may do to the outside: test the existence of a path,
    extract a file that is not a ".csv", and, when [download] is set,
    download an entry of the two tables into the root directory, with its
    MD5 only when [checksum] is set. *)
Definition verify_event (self : BigEarthNet) (ev : Event) : Prop :=
  match ev with
  | EvExists _ => True
  | EvExtract p => PyStr.endswith ".csv" p = false
  | EvDownload u r f m =>
      download self = true
      ∧ r = root self
      ∧ ∃ e, e ∈ (metadata ++ splits_metadata).*2
             ∧ u = url e ∧ f = filename e
             ∧ m = (if checksum self then Some (md5 e) else None)
  | _ => False
  end.

End VerifyNotions.

Section AccessNotions.
Context `{Ext : Externals}.

(** What an indexed access may do to the outside: search a folder, open
    a raster, open a label file. *)
Definition access_event (ev : Event) : Prop :=
  match ev with
  | EvGlob _ | EvRasterOpen _ | EvOpen _ => True
  | _ => False
  end.

End AccessNotions.

Section TargetNotions.
Context `{Ext : Externals}.

(** The test of [_load_target] that selects the 43-to-19 mapping. *)
Definition maps_to_19 (self : BigEarthNet) : bool :=
  (num_classes self =? 19) || (num_classes self =? 20).

(** Entry [j] is the one a name of a label file sets: its index in
    [class2idx], mapped through [label_converter] when the instance maps
    to 19 classes. *)
Definition sets_entry (self : BigEarthNet) (name : string) (j : nat) : Prop :=
  ∃ i, class2idx self !! name = Some i
       ∧ if maps_to_19 self then label_converter !! i = Some j else i = j.

(** The truth values of the entries of a target, as [if mask:] reads
    them. *)
Definition mask_of (t : Tensor Z) : list bool :=
  (λ x, negb (x =? 0)) <$> data t.

End TargetNotions.

Section ManifestNotions.

(** The text consists of whitespace only. *)
Definition blank (s : string) : Prop := PyStr.lstrip s = "".

(** The character occurs in the text. *)
Fixpoint has_char (c : ascii) (s : string) : bool :=
  match s with
  | EmptyString => false
  | String a s' => Ascii.eqb a c || has_char c s'
  end.

End ManifestNotions.

(** ** A concrete world

    A small file system on which the definitions above can be run. *)

Module Demo.

Record Disk : Type := mkDisk {
  present : list string;
  texts : list (string * string);
  globs : list (string * list string);
  jsons : list (string * list string);
}.

Fixpoint assoc {V} (l : list (string * V)) (k : string) : option V :=
  match l with
  | [] => None
  | (k', v) :: l' => if String.eqb k k' then Some v else assoc l' k
  end.

Definition or_missing {V} (path : string) (o : option V) : Result V :=
  match o with
  | Some v => inr v
  | None => inl (ExternalError ("No such file or directory: " +:+ path))
  end.

(** Modelled from the spec: [sort_sentinel2_bands] lives in
    [src.inference.datasets.utils], which is not part of the source
    tree.  The key is the band code embedded in the file name (the text
    between the last underscore and the extension), with "B8A" read as
    "B08A" so that it sorts between "B08" and "B09". *)
Definition band_key (path : string) : string :=
  let base := List.last (PyStr.split "/" path) "" in
  let code := List.hd "" (PyStr.split "." (List.last (PyStr.split "_" base) "")) in
  if String.eqb code "B8A" then "B08A" else code.

Definition ext : Externals := {|
  World := Disk;
  os_path_exists w p := bool_decide (p ∈ present w);
  read_text w p := or_missing p (assoc (texts w) p);
  glob_glob w pat := default [] (assoc (globs w) pat);
  json_load_labels w p := or_missing p (assoc (jsons w) p);
  rasterio_read w p sz :=
    if PyStr.endswith ".tif" p then inr (replicate (sz.1 * sz.2) 0)
    else inl (ExternalError ("not a raster: " +:+ p));
  extract_archive _ w := (None, w);
  download_url _ _ _ _ w := (None, w);
  sort_sentinel2_bands := band_key;
  float32 := Z;
  to_float := id;
|}.

Definition nl : string := String "010" "".

Definition test_manifest : string :=
  "S2A_p0,S1A_p0" +:+ nl +:+ "S2A_p1,S1A_p1" +:+ nl
  +:+ "S2A_p2,S1A_p2" +:+ nl.

Definition val_manifest : string :=
  "S2A_p0" +:+ nl +:+ nl +:+ "S2A_p1" +:+ nl.

(** A data directory with the three manifests, both source directories
    and three samples; the validation manifest has a blank line, the label
    file of the third sample a name that is no class. *)
Definition disk : Disk := {|
  present := ["data/bigearthnet-train.csv"; "data/bigearthnet-val.csv";
              "data/bigearthnet-test.csv"; "data/sentinel-1";
              "data/sentinel-2"];
  texts := [("data/bigearthnet-test.csv", test_manifest);
            ("data/bigearthnet-val.csv", val_manifest)];
  globs := [("data/sentinel-1/S2A_p0/*.tif",
             ["data/sentinel-1/S2A_p0/p0_VV.tif";
              "data/sentinel-1/S2A_p0/p0_VH.tif"]);
            ("data/sentinel-2/S2A_p0/*.tif",
             ["data/sentinel-2/S2A_p0/p0_B09.tif";
              "data/sentinel-2/S2A_p0/p0_B8A.tif";
              "data/sentinel-2/S2A_p0/p0_B02.tif";
              "data/sentinel-2/S2A_p0/p0_B01.tif"]);
            ("data/sentinel-1/S2A_p0/*.json",
             ["data/sentinel-1/S2A_p0/p0_s1.json"]);
            ("data/sentinel-2/S2A_p0/*.json",
             ["data/sentinel-2/S2A_p0/p0_s2.json"]);
            ("data/sentinel-2/S2A_p1/*.json",
             ["data/sentinel-2/S2A_p1/p1_s2.json"]);
            ("data/sentinel-2/S2A_p1/*.tif",
             ["data/sentinel-2/S2A_p1/p1_B01.tif"]);
            ("data/sentinel-2/S2A_p2/*.json",
             ["data/sentinel-2/S2A_p2/p2_s2.json"])];
  jsons := [("data/sentinel-1/S2A_p0/p0_s1.json", ["Pastures"]);
            ("data/sentinel-2/S2A_p0/p0_s2.json", ["Pastures"]);
            ("data/sentinel-2/S2A_p1/p1_s2.json",
             ["Port areas"; "Sea and ocean"; "Estuaries"]);
            ("data/sentinel-2/S2A_p2/p2_s2.json", ["Pastures"; "Glacier"])];
|}.

Definition st0 : State (Ext := ext) :=
  mkState (Ext := ext) disk [] class_sets_init.

Definition args (split bands : string) (n : Z) (other : bool)
  : InitArgs (Ext := ext) :=
  mkInitArgs "data" split bands n None false false other.

(** [t.unsqueeze(dim)] on the image of a sample, as a transform. *)
Definition unsqueeze (dim : nat) (s : Sample (Ext := ext))
  : Result (Sample (Ext := ext)) :=
  inr (mkSample (Ext := ext)
         (mkTensor (take dim (shape (image s)) ++ 1%nat :: drop dim (shape (image s)))
                   (data (image s)))
         (label s)).

Definition args_with (t : Sample (Ext := ext) → Result (Sample (Ext := ext)))
  : InitArgs (Ext := ext) :=
  mkInitArgs "data" "test" "s2" 19 (Some t) false false false.

(** The value a run has returned; [d] where it has raised. *)
Definition value {A} (d : A) (r : Result A * State (Ext := ext)) : A :=
  match r.1 with
  | inr a => a
  | inl _ => d
  end.

Definition blank : BigEarthNet (Ext := ext) :=
  mkBigEarthNet "" "" "" 0 None false false ∅ [] false.

(** Two instances with [other_features=True], built one after the other
    from the vocabularies as loaded. *)
Definition ds_other1 : BigEarthNet :=
  Eval vm_compute in value blank (__init__ (args "test" "s2" 19 true) st0).
Definition st_other1 : State :=
  Eval vm_compute in (__init__ (args "test" "s2" 19 true) st0).2.
Definition ds_other2 : BigEarthNet :=
  Eval vm_compute in
    value blank (__init__ (args "test" "s2" 19 true) st_other1).
Definition st_other2 : State :=
  Eval vm_compute in (__init__ (args "test" "s2" 19 true) st_other1).2.

(** An instance for each source selection, 19 classes. *)
Definition ds_all : BigEarthNet :=
  Eval vm_compute in value blank (__init__ (args "test" "all" 19 false) st0).
Definition ds_s2 : BigEarthNet :=
  Eval vm_compute in value blank (__init__ (args "test" "s2" 19 false) st0).
Definition ds_s2_43 : BigEarthNet :=
  Eval vm_compute in value blank (__init__ (args "test" "s2" 43 false) st0).

Definition st_all : State :=
  Eval vm_compute in (__init__ (args "test" "all" 19 false) st0).2.
Definition st_s2 : State :=
  Eval vm_compute in (__init__ (args "test" "s2" 19 false) st0).2.
Definition st_s2_43 : State :=
  Eval vm_compute in (__init__ (args "test" "s2" 43 false) st0).2.

(** An instance whose transform adds a dimension of size 1 at position
    1 (the time dimension), and one whose transform adds it in front. *)
Definition ds_time : BigEarthNet :=
  Eval vm_compute in value blank (__init__ (args_with (unsqueeze 1)) st0).
Definition ds_lead : BigEarthNet :=
  Eval vm_compute in value blank (__init__ (args_with (unsqueeze 0)) st0).

(** An instance on the validation manifest. *)
Definition ds_val : BigEarthNet :=
  Eval vm_compute in value blank (__init__ (args "val" "s2" 19 false) st0).
Definition st_val : State :=
  Eval vm_compute in (__init__ (args "val" "s2" 19 false) st0).2.

Definition folder0 : Folder :=
  mkFolder "data/sentinel-1/S2A_p0" "data/sentinel-2/S2A_p0".

End Demo.

(** ** A second concrete world

    The same data directory with another listing order, whitespace around
    the test manifest, other label files and a band that does not decode;
    and a directory with nothing in it. *)

Module Demo2.

Definition test_manifest : string :=
  Demo.nl +:+ Demo.test_manifest +:+ " " +:+ Demo.nl.

Definition disk : Demo.Disk := {|
  Demo.present := Demo.present Demo.disk;
  Demo.texts := [("data/bigearthnet-test.csv", test_manifest)];
  Demo.globs := [("data/sentinel-1/S2A_p0/*.tif",
                  ["data/sentinel-1/S2A_p0/p0_VH.tif";
                   "data/sentinel-1/S2A_p0/p0_VV.tif"]);
                 ("data/sentinel-2/S2A_p0/*.tif",
                  ["data/sentinel-2/S2A_p0/p0_B01.tif";
                   "data/sentinel-2/S2A_p0/p0_B09.tif";
                   "data/sentinel-2/S2A_p0/p0_B02.tif";
                   "data/sentinel-2/S2A_p0/p0_B8A.tif"]);
                 ("data/sentinel-2/S2A_p1/*.tif",
                  ["data/sentinel-2/S2A_p1/p1_B03.tif";
                   "data/sentinel-2/S2A_p1/p1_B02.TIF";
                   "data/sentinel-2/S2A_p1/p1_B01.tif"]);
                 ("data/sentinel-2/S2A_p0/*.json",
                  ["data/sentinel-2/S2A_p0/p0_s2.json"]);
                 ("data/sentinel-2/S2A_p1/*.json",
                  ["data/sentinel-2/S2A_p1/p1_s2.json"]);
                 ("data/sentinel-2/S2A_p2/*.json",
                  ["data/sentinel-2/S2A_p2/p2_s2.json"])];
  Demo.jsons := [("data/sentinel-2/S2A_p0/p0_s2.json",
                  ["Estuaries"; "Port areas"; "Sea and ocean"; "Estuaries"]);
                 ("data/sentinel-2/S2A_p1/p1_s2.json",
                  ["Port areas"; "Sea and ocean"; "Estuaries"]);
                 ("data/sentinel-2/S2A_p2/p2_s2.json",
                  ["Pastures"; "Other features"])];
|}.

Definition st0 : State (Ext := Demo.ext) :=
  mkState (Ext := Demo.ext) disk [] class_sets_init.

(** The state in which the vocabularies have been extended. *)
Definition st_extended : State (Ext := Demo.ext) :=
  mkState (Ext := Demo.ext) disk [] class_sets_other.

(** An instance with 19 classes, and one with 43 classes built after the
    vocabularies were extended. *)
Definition ds_19 : BigEarthNet :=
  Eval vm_compute in
    Demo.value Demo.blank (__init__ (Demo.args "test" "s2" 19 false) st0).
Definition st_19 : State :=
  Eval vm_compute in (__init__ (Demo.args "test" "s2" 19 false) st0).2.
Definition ds_43_late : BigEarthNet :=
  Eval vm_compute in
    Demo.value Demo.blank
      (__init__ (Demo.args "test" "s2" 43 false) st_extended).
Definition st_43_late : State :=
  Eval vm_compute in
    (__init__ (Demo.args "test" "s2" 43 false) st_extended).2.

(** A root directory with nothing in it. *)
Definition st_nothing : State (Ext := Demo.ext) :=
  mkState (Ext := Demo.ext) (Demo.mkDisk [] [] [] []) [] class_sets_init.

End Demo2.

(** ** The definitions on small inputs *)

Example strip_ex : PyStr.strip (String "010" " a,b" +:+ String "010" "  ") = "a,b".
Proof. reflexivity. Qed.

Example splitlines_ex :
  PyStr.splitlines ("a" +:+ String "013" (String "010" (String "010" "b" +:+ String "010" "")))
  = ["a"; ""; "b"].
Proof. reflexivity. Qed.

Example split_ex : PyStr.split "," "x,y,,z" = ["x"; "y"; ""; "z"].
Proof. reflexivity. Qed.

Example join_ex : PyStr.join "data" ["sentinel-1"; "S1A_x"] = "data/sentinel-1/S1A_x".
Proof. reflexivity. Qed.

Example getitem_ex : Py.getitem ["a"; "b"; "c"] (-1) = Some "c".
Proof. reflexivity. Qed.

Example sorted_ex :
  Py.sorted PyStr.lt id ["p/b.tif"; "p/a.tif"; "p/B.tif"]
  = ["p/B.tif"; "p/a.tif"; "p/b.tif"].
Proof. reflexivity. Qed.

Example class_sets_lengths :
  length class_sets_19 = 19%nat ∧ length class_sets_43 = 43%nat.
Proof. split; reflexivity. Qed.

Example label_converter_17 : label_converter !! 17%nat = Some 4%nat.
Proof. reflexivity. Qed.

Example label_converter_4 : label_converter !! 4%nat = None.
Proof. reflexivity. Qed.

(** ** Reasoning about computations *)

Section Frames.
Context `{Ext : Externals}.

Lemma bind_inv_inr {A B} (m : M A) (k : A → M B) st b st2 :
  bind m k st = (inr b, st2) →
  ∃ a st1, m st = (inr a, st1) ∧ k a st1 = (inr b, st2).
Proof.
  unfold bind. destruct (m st) as [[e|a] st1]; [discriminate|].
  intros Hk. by exists a, st1.
Qed.

Lemma bind_inr {A B} (m : M A) (k : A → M B) st a st1 :
  m st = (inr a, st1) → bind m k st = k a st1.
Proof. unfold bind. by intros ->. Qed.

Lemma bind_inl {A B} (m : M A) (k : A → M B) st e st1 :
  m st = (inl e, st1) → bind m k st = (inl e, st1).
Proof. unfold bind. by intros ->. Qed.

Lemma preserves_ret {X A} (proj : State → X) (a : A) : preserves proj (ret a).
Proof. by intros st. Qed.

Lemma preserves_raise {X A} (proj : State → X) e :
  preserves proj (raise (A := A) e).
Proof. by intros st. Qed.

Lemma preserves_lift {X A} (proj : State → X) (r : Result A) :
  preserves proj (lift r).
Proof. by intros st. Qed.

Lemma preserves_assert {X} (proj : State → X) b : preserves proj (assert b).
Proof. by destruct b; intros st. Qed.

Lemma preserves_bind {X A B} (proj : State → X) (m : M A) (k : A → M B) :
  preserves proj m → (∀ a, preserves proj (k a)) → preserves proj (bind m k).
Proof.
  intros Hm Hk st. unfold bind. specialize (Hm st).
  destruct (m st) as [[e|a] st1]; simpl in *; [done|].
  by rewrite Hk.
Qed.

Lemma preserves_mapM {X A B} (proj : State → X) (f : A → M B) l :
  (∀ x, preserves proj (f x)) → preserves proj (mapM f l).
Proof.
  intros Hf. induction l as [|x l IH]; simpl.
  - apply preserves_ret.
  - apply preserves_bind; [apply Hf|]. intros y.
    apply preserves_bind; [apply IH|]. intros ys. apply preserves_ret.
Qed.

Lemma preserves_forM_ {X A} (proj : State → X) (f : A → M unit) l :
  (∀ x, preserves proj (f x)) → preserves proj (forM_ l f).
Proof.
  intros Hf. induction l as [|x l IH]; simpl.
  - apply preserves_ret.
  - apply preserves_bind; [apply Hf|]. intros _. apply IH.
Qed.

Lemma preserves_if {X A} (proj : State → X) (b : bool) (m1 m2 : M A) :
  preserves proj m1 → preserves proj m2 →
  preserves proj (if b then m1 else m2).
Proof. by destruct b. Qed.

(** No external call touches [class_sets]. *)
Lemma classes_io_exists p : preserves class_sets (io_exists p).
Proof. by intros st. Qed.
Lemma classes_io_glob p : preserves class_sets (io_glob p).
Proof. by intros st. Qed.
Lemma classes_io_read_text p : preserves class_sets (io_read_text p).
Proof. by intros st. Qed.
Lemma classes_io_json_labels p : preserves class_sets (io_json_labels p).
Proof. by intros st. Qed.
Lemma classes_io_raster_read p sz : preserves class_sets (io_raster_read p sz).
Proof. by intros st. Qed.
Lemma classes_io_extract p : preserves class_sets (io_extract p).
Proof. intros st. unfold io_extract. by destruct (extract_archive _ _). Qed.
Lemma classes_io_download u r f m : preserves class_sets (io_download u r f m).
Proof. intros st. unfold io_download. by destruct (download_url _ _ _ _ _). Qed.

(** Reading does not change the world. *)
Lemma world_io_exists p : preserves world (io_exists p).
Proof. by intros st. Qed.
Lemma world_io_glob p : preserves world (io_glob p).
Proof. by intros st. Qed.
Lemma world_io_read_text p : preserves world (io_read_text p).
Proof. by intros st. Qed.
Lemma world_io_json_labels p : preserves world (io_json_labels p).
Proof. by intros st. Qed.
Lemma world_io_raster_read p sz : preserves world (io_raster_read p sz).
Proof. by intros st. Qed.

End Frames.

Create HintDb frame discriminated.
#[export] Hint Resolve
  classes_io_exists classes_io_glob classes_io_read_text
  classes_io_json_labels classes_io_raster_read classes_io_extract
  classes_io_download
  world_io_exists world_io_glob world_io_read_text world_io_json_labels
  world_io_raster_read : frame.

(** Splits a frame goal along the structure of the computation. *)
Ltac frame_step :=
  lazymatch goal with
  | |- preserves _ (bind _ _) => apply preserves_bind; [|intros ?]
  | |- preserves _ (mapM _ _) => apply preserves_mapM; intros ?
  | |- preserves _ (forM_ _ _) => apply preserves_forM_; intros ?
  | |- preserves _ (if _ then _ else _) => apply preserves_if
  | |- preserves _ (match ?x with _ => _ end) => destruct x
  | |- preserves _ (ret _) => apply preserves_ret
  | |- preserves _ (raise _) => apply preserves_raise
  | |- preserves _ (lift _) => apply preserves_lift
  | |- preserves _ (assert _) => apply preserves_assert
  | |- preserves _ _ => solve [eauto 2 with frame]
  end.
Ltac frame := repeat frame_step.

Section FrameLemmas.
Context `{Ext : Externals}.

Lemma classes__verify self : preserves class_sets (_verify self).
Proof. unfold _verify, _download, _extract. frame. Qed.

Lemma classes__load_folders self : preserves class_sets (_load_folders self).
Proof. unfold _load_folders. frame. Qed.

Lemma world__load_folders self : preserves world (_load_folders self).
Proof. unfold _load_folders. frame. Qed.

Lemma classes__load_paths self i : preserves class_sets (_load_paths self i).
Proof. unfold _load_paths, folder_at. frame. Qed.

Lemma classes__load_image self i : preserves class_sets (_load_image self i).
Proof. unfold _load_image. frame. apply classes__load_paths. Qed.

Lemma classes__load_target self i : preserves class_sets (_load_target self i).
Proof. unfold _load_target, folder_at. frame. Qed.

Lemma classes___getitem__ self i : preserves class_sets (__getitem__ self i).
Proof.
  unfold __getitem__. frame.
  - apply classes__load_image.
  - apply classes__load_target.
Qed.

End FrameLemmas.

(** ** Construction *)

Section Construction.
Context `{Ext : Externals}.

Lemma assert_inv b st u st' :
  assert b st = (inr u, st') → b = true ∧ st' = st.
Proof. destruct b; simpl; unfold ret, raise; intros [= <-]; done. Qed.

(** What a successful construction has done. *)
Lemma init_inv (a : InitArgs) (st : State) ds st' :
  __init__ a st = (inr ds, st') →
  ∃ st1 fs,
    table_mem splits_metadata (arg_split a) = true
    ∧ arg_bands a ∈ ["s1"; "s2"; "all"]
    ∧ arg_num_classes a ∈ [43; 19]
    ∧ _verify (init_self a (class_sets st)) st = (inr tt, st1)
    ∧ (_load_folders (init_self a (class_sets st)) st1).1 = inr fs
    ∧ world st' = world st1
    ∧ ds = mkBigEarthNet (arg_root a) (arg_split a) (arg_bands a)
             (if grows a (class_sets st) then arg_num_classes a + 1
              else arg_num_classes a)
             (arg_transforms a) (arg_download a) (arg_checksum a)
             (Py.dict (Py.enumerate (cs43 (class_sets st)))) fs
             (arg_other_features a)
    ∧ class_sets st' = (if grows a (class_sets st)
                        then with_other (class_sets st) else class_sets st).
Proof.
  unfold __init__. intros H.
  apply bind_inv_inr in H as ([] & s1 & [Hsplit ->]%assert_inv & H).
  apply bind_inv_inr in H as ([] & s2 & [Hbands ->]%assert_inv & H).
  apply bind_inv_inr in H as ([] & s3 & [Hnum ->]%assert_inv & H).
  apply bind_inv_inr in H as (cs & s4 & Hcs & H).
  injection Hcs as <- <-.
  apply bind_inv_inr in H as ([] & st1 & Hver & H).
  apply bind_inv_inr in H as (fs & st2 & Hfold & H).
  apply bind_inv_inr in H as (cs' & s5 & Hcs' & H).
  injection Hcs' as <- <-.
  pose proof (classes__verify (init_self a (class_sets st)) st) as Hc1.
  pose proof (classes__load_folders (init_self a (class_sets st)) st1) as Hc2.
  pose proof (world__load_folders (init_self a (class_sets st)) st1) as Hw2.
  unfold init_self in *. rewrite Hver in Hc1. rewrite Hfold in Hc2, Hw2.
  simpl in Hc1, Hc2, Hw2.
  exists st1, fs. rewrite Hfold. simpl.
  apply bool_decide_eq_true in Hbands, Hnum.
  unfold grows. simpl in H. rewrite Hc2, Hc1 in H.
  destruct (arg_other_features a && _) eqn:Hg; simpl in H.
  - injection H as <- <-. done.
  - injection H as <- <-. by rewrite Hc2, Hc1.
Qed.

Lemma grows_init a :
  grows a class_sets_init = arg_other_features a.
Proof. unfold grows. by destruct (arg_other_features a). Qed.

Lemma grows_other a : grows a class_sets_other = false.
Proof. unfold grows. by destruct (arg_other_features a). Qed.

(** Whether it returns or raises, [__init__] leaves [class_sets] as it
    was or, when the guard holds, extended. *)
Lemma init_classes (a : InitArgs) (st : State) :
  class_sets (__init__ a st).2 = class_sets st
  ∨ (grows a (class_sets st) = true
     ∧ class_sets (__init__ a st).2 = with_other (class_sets st)).
Proof.
  unfold __init__, bind.
  destruct (table_mem _ _); simpl; [|by left].
  destruct (bool_decide (arg_bands a ∈ _)); simpl; [|by left].
  destruct (bool_decide (arg_num_classes a ∈ _)); simpl; [|by left].
  pose proof (classes__verify (init_self a (class_sets st)) st) as Hc1.
  unfold init_self in Hc1.
  destruct (_verify _ st) as [[?|[]] st1]; simpl in Hc1; [by left|].
  pose proof (classes__load_folders (init_self a (class_sets st)) st1) as Hc2.
  unfold init_self in Hc2.
  destruct (_load_folders _ st1) as [[?|fs] st2]; simpl in Hc2.
  { left. simpl. by rewrite Hc2. }
  simpl. unfold grows. rewrite Hc2, Hc1.
  destruct (_ && _); simpl; [by right|left; by rewrite Hc2].
Qed.

(** [__init__] keeps [class_sets] among the two values. *)
Lemma init_vocabulary (a : InitArgs) (st : State) :
  vocabulary (class_sets st) → vocabulary (class_sets (__init__ a st).2).
Proof.
  intros Hv. destruct (init_classes a st) as [-> | [Hg ->]]; [done|].
  destruct Hv as [Hv | Hv]; rewrite Hv in *.
  - by right.
  - by rewrite grows_other in Hg.
Qed.

End Construction.

(** ** Configuration errors *)

Section Configuration.
Context `{Ext : Externals}.

(** C9.  When [bands] is not one of s1, s2, all, or [split] is not one
    of train, val, test, or [num_classes] is not 19 or 43, [__init__]
    raises [AssertionError] and the state it leaves is the state it
    started in: the trace has no new event (no file-system access or
    other external call was made), the world and [class_sets] are
    untouched.  (The checks are [assert] statements; the model is the
    interpreter without [-O].) *)
Theorem init_illegal_config_raises_before_io (a : InitArgs) (st : State) :
  arg_bands a ∉ ["s1"; "s2"; "all"]
  ∨ arg_split a ∉ ["train"; "val"; "test"]
  ∨ arg_num_classes a ∉ [19; 43] →
  __init__ a st = (inl AssertionError, st).
Proof.
  intros Hbad. unfold __init__, bind.
  destruct (table_mem splits_metadata (arg_split a)) eqn:Hs; simpl; [|done].
  destruct (bool_decide (arg_bands a ∈ _)) eqn:Hb; simpl; [|done].
  destruct (bool_decide (arg_num_classes a ∈ _)) eqn:Hn; simpl; [|done].
  exfalso.
  apply bool_decide_eq_true in Hs, Hb, Hn.
  destruct Hbad as [H | [H | H]].
  - by apply H.
  - by apply H.
  - apply H. rewrite !elem_of_cons in Hn |- *. tauto.
Qed.

End Configuration.

(** C9 on the concrete world: [bands="x"]. *)
Lemma init_illegal_config_raises_before_io_witness :
  __init__ (Demo.args "test" "x" 19 false) Demo.st0
  = (inl AssertionError, Demo.st0).
Proof.
  apply init_illegal_config_raises_before_io.
  left. apply (bool_decide_unpack _). by vm_compute.
Defined.

(** ** The shared vocabularies and the "Other features" class *)

Section OtherFeatures.
Context `{Ext : Externals}.

Lemma class2idx_other_features :
  Py.dict (Py.enumerate (cs43 class_sets_other)) !! "Other features"
  = Some 43%nat.
Proof. by vm_compute. Qed.

Lemma class2idx_init_other_features :
  Py.dict (Py.enumerate (cs43 class_sets_init)) !! "Other features" = None.
Proof. by vm_compute. Qed.

(** C10.  An instance built with [other_features=True] from the
    vocabularies as loaded appends "Other features" to both shared lists
    of [class_sets].  Its own [class2idx], computed before the append, does
    not have the name; every instance built afterwards, whatever its
    [other_features] and [num_classes], finds [class_sets] extended, maps
    "Other features" to 43 in its [class2idx], and leaves [class_sets]
    extended for the next one. *)
Theorem other_features_mutates_shared_class_sets
    (a : InitArgs) (st : State) ds st1 :
  arg_other_features a = true →
  class_sets st = class_sets_init →
  __init__ a st = (inr ds, st1) →
  class_sets st1
  = mkClassSets (class_sets_19 ++ ["Other features"])
                (class_sets_43 ++ ["Other features"])
  ∧ class2idx ds !! "Other features" = None
  ∧ ∀ (a' : InitArgs) (st2 : State) ds' st3,
      class_sets st2 = class_sets st1 →
      __init__ a' st2 = (inr ds', st3) →
      class2idx ds' !! "Other features" = Some 43%nat
      ∧ class_sets st3 = class_sets st1.
Proof.
  intros Hother Hcs Hinit.
  apply init_inv in Hinit as (s & fs & _ & _ & _ & _ & _ & _ & -> & Hcs1).
  rewrite Hcs, grows_init, Hother in Hcs1. cbn [class2idx].
  split; [exact Hcs1|]. split.
  { rewrite Hcs. apply class2idx_init_other_features. }
  intros a' st2 ds' st3 Hcs2 Hinit'.
  apply init_inv in Hinit' as (s' & fs' & _ & _ & _ & _ & _ & _ & -> & Hcs3).
  rewrite Hcs2, Hcs1 in Hcs3 |- *. cbn [class2idx].
  split; [apply class2idx_other_features|].
  change (with_other class_sets_init) with class_sets_other in Hcs3.
  rewrite grows_other in Hcs3. exact Hcs3.
Qed.

(** C2.  Two instances built with [other_features=True], one after the
    other, starting from the vocabularies as loaded: [class_sets] ends
    with one "Other features" in each list, the first instance counts one
    class more than it was asked for, the second counts exactly what it
    was asked for (the increment is under the same guard as the append). *)
Theorem other_features_twice
    (a1 a2 : InitArgs) (st : State) ds1 st1 ds2 st2 :
  class_sets st = class_sets_init →
  arg_other_features a1 = true →
  arg_other_features a2 = true →
  __init__ a1 st = (inr ds1, st1) →
  __init__ a2 st1 = (inr ds2, st2) →
  cs19 (class_sets st2) = class_sets_19 ++ ["Other features"]
  ∧ cs43 (class_sets st2) = class_sets_43 ++ ["Other features"]
  ∧ num_classes ds1 = arg_num_classes a1 + 1
  ∧ num_classes ds2 = arg_num_classes a2
  ∧ other_features ds2 = true.
Proof.
  intros Hcs H1 H2 Hi1 Hi2.
  apply init_inv in Hi1 as (s & fs & _ & _ & _ & _ & _ & _ & -> & Hcs1).
  rewrite Hcs, grows_init, H1 in Hcs1 |- *.
  apply init_inv in Hi2 as (s' & fs' & _ & _ & _ & _ & _ & _ & -> & Hcs2).
  change (with_other class_sets_init) with class_sets_other in Hcs1.
  rewrite Hcs1, grows_other in Hcs2 |- *. rewrite Hcs2.
  cbn [num_classes other_features]. rewrite H2.
  repeat split; reflexivity.
Qed.

End OtherFeatures.

Lemma demo_other1 :
  __init__ (Demo.args "test" "s2" 19 true) Demo.st0
  = (inr Demo.ds_other1, Demo.st_other1).
Proof. vm_cast_no_check (eq_refl (A := Result BigEarthNet * State)
                           (inr Demo.ds_other1, Demo.st_other1)). Qed.

Lemma demo_other2 :
  __init__ (Demo.args "test" "s2" 19 true) Demo.st_other1
  = (inr Demo.ds_other2, Demo.st_other2).
Proof. vm_cast_no_check (eq_refl (A := Result BigEarthNet * State)
                           (inr Demo.ds_other2, Demo.st_other2)). Qed.

(** C10 on the concrete world: the two instances of [Demo]. *)
Lemma other_features_mutates_shared_class_sets_witness :
  class_sets Demo.st_other1
  = mkClassSets (class_sets_19 ++ ["Other features"])
                (class_sets_43 ++ ["Other features"])
  ∧ class2idx Demo.ds_other1 !! "Other features" = None
  ∧ class2idx Demo.ds_other2 !! "Other features" = Some 43%nat.
Proof.
  destruct (other_features_mutates_shared_class_sets
              (Demo.args "test" "s2" 19 true) Demo.st0
              Demo.ds_other1 Demo.st_other1 eq_refl eq_refl demo_other1)
    as (Hcs & Hfirst & Hlater).
  split; [exact Hcs|]. split; [exact Hfirst|].
  exact (proj1 (Hlater _ Demo.st_other1 _ _ eq_refl demo_other2)).
Defined.

(** C2 on the concrete world: asked for 19 classes twice, the first
    instance counts 20 and the second 19. *)
Lemma other_features_twice_witness :
  num_classes Demo.ds_other1 = 19 + 1
  ∧ num_classes Demo.ds_other2 = 19
  ∧ other_features Demo.ds_other2 = true
  ∧ cs19 (class_sets Demo.st_other2) = class_sets_19 ++ ["Other features"].
Proof.
  destruct (other_features_twice
              (Demo.args "test" "s2" 19 true) (Demo.args "test" "s2" 19 true)
              Demo.st0 _ _ _ _ eq_refl eq_refl eq_refl demo_other1 demo_other2)
    as (Hcs19 & _ & Hn1 & Hn2 & Hother).
  auto.
Defined.

(** ** Label loading *)

Section LabelLoading.
Context `{Ext : Externals}.

Lemma folder_at_target (self : BigEarthNet) index f st :
  Py.getitem (folders self) index = Some f →
  (if String.eqb (bands self) "s2" then folder_at self index "s2"
   else folder_at self index "s1") st
  = (inr (target_folder self f), st).
Proof.
  intros Hf. unfold target_folder, folder_at. rewrite Hf.
  by destruct (String.eqb (bands self) "s2").
Qed.

Lemma folder_at_none (self : BigEarthNet) index k st :
  Py.getitem (folders self) index = None →
  folder_at self index k st = (inl IndexError, st).
Proof. intros Hf. unfold folder_at. by rewrite Hf. Qed.

(** [_load_target] is the reading of the label file followed by
    [target_of_labels]. *)
Lemma load_target_eval (self : BigEarthNet) index st f path rest labels :
  Py.getitem (folders self) index = Some f →
  glob_glob (world st) (PyStr.join (target_folder self f) ["*.json"])
  = path :: rest →
  json_load_labels (world st) path = inr labels →
  _load_target self index st
  = (target_of_labels self labels,
     log (EvOpen path)
         (log (EvGlob (PyStr.join (target_folder self f) ["*.json"])) st)).
Proof.
  intros Hf Hglob Hjson. unfold _load_target.
  erewrite bind_inr; [|by apply folder_at_target].
  unfold bind at 1. unfold io_glob at 1. rewrite Hglob.
  unfold bind at 1. unfold lift at 1. cbn [first].
  unfold bind at 1. unfold io_json_labels at 1. cbn [world log].
  rewrite Hjson. unfold target_of_labels, bind, lift, ret.
  destruct (labels_to_indices self labels) as [e|indices]; [done|].
  by destruct (index_put _ _ _).
Qed.

Lemma load_target_label_file (self : BigEarthNet) index st labels :
  label_file self index (world st) labels →
  (_load_target self index st).1 = target_of_labels self labels.
Proof.
  intros (f & path & rest & Hf & Hglob & Hjson).
  by erewrite load_target_eval.
Qed.

(** A target that was returned comes from a label file. *)
Lemma load_target_inv (self : BigEarthNet) index st t st' :
  _load_target self index st = (inr t, st') →
  ∃ labels, label_file self index (world st) labels
            ∧ target_of_labels self labels = inr t.
Proof.
  intros H.
  destruct (Py.getitem (folders self) index) as [f|] eqn:Hf; last first.
  { unfold _load_target in H.
    apply bind_inv_inr in H as (x & s & H & _).
    destruct (String.eqb _ _); by rewrite folder_at_none in H. }
  destruct (glob_glob (world st)
              (PyStr.join (target_folder self f) ["*.json"]))
    as [|path rest] eqn:Hglob.
  { unfold _load_target in H.
    erewrite bind_inr in H; [|by apply folder_at_target].
    unfold bind at 1 in H. unfold io_glob at 1 in H. rewrite Hglob in H.
    by unfold bind at 1 in H. }
  destruct (json_load_labels (world st) path) as [e|labels] eqn:Hjson.
  { unfold _load_target in H.
    erewrite bind_inr in H; [|by apply folder_at_target].
    unfold bind at 1 in H. unfold io_glob at 1 in H. rewrite Hglob in H.
    unfold bind at 1 in H. unfold lift at 1 in H. cbn [first] in H.
    unfold bind at 1 in H. unfold io_json_labels at 1 in H.
    cbn [world log] in H. by rewrite Hjson in H. }
  exists labels. split; [by exists f, path, rest|].
  erewrite load_target_eval in H by done. by injection H as ->.
Qed.

End LabelLoading.

(** ** Which folder the label file is read from *)

Section LabelFolder.
Context `{Ext : Externals}.

Lemma load_target_trace (self : BigEarthNet) index st f :
  Py.getitem (folders self) index = Some f →
  reads_label_from self index st (target_folder self f).
Proof.
  intros Hf. unfold reads_label_from, _load_target.
  erewrite bind_inr; [|by apply folder_at_target].
  unfold bind at 1. unfold io_glob at 1.
  destruct (glob_glob (world st) _) as [|path rest]; [done|].
  unfold bind at 1. unfold lift at 1. cbn [first].
  unfold bind at 1. unfold io_json_labels at 1. cbn [world log].
  destruct (json_load_labels (world st) path) as [e|labels].
  { cbn [snd trace log]. by rewrite <- app_assoc. }
  unfold bind, lift, ret.
  destruct (labels_to_indices self labels) as [e|indices];
    [|destruct (index_put _ _ _)]; cbn [snd trace log];
    by rewrite <- app_assoc.
Qed.

(** C1, as the code has it.  For every sample index, [_load_target]
    searches the label file in source B's (s2) folder when [bands] is
    "s2", and in source A's (s1) folder when [bands] is "s1" or "all";
    the file it opens is the first one found there. *)
Theorem label_file_folder (self : BigEarthNet) (index : Z) (st : State) f :
  Py.getitem (folders self) index = Some f →
  (bands self = "s2" → reads_label_from self index st (s2 f))
  ∧ (bands self = "s1" ∨ bands self = "all" →
     reads_label_from self index st (s1 f)).
Proof.
  intros Hf. pose proof (load_target_trace self index st f Hf) as H.
  unfold target_folder in H. split.
  - intros Hb. by rewrite Hb in H.
  - intros [Hb | Hb]; by rewrite Hb in H.
Qed.

End LabelFolder.

Lemma demo_all :
  __init__ (Demo.args "test" "all" 19 false) Demo.st0
  = (inr Demo.ds_all, Demo.st_all).
Proof. vm_cast_no_check (eq_refl (A := Result BigEarthNet * State)
                           (inr Demo.ds_all, Demo.st_all)). Qed.

Lemma demo_s2 :
  __init__ (Demo.args "test" "s2" 19 false) Demo.st0
  = (inr Demo.ds_s2, Demo.st_s2).
Proof. vm_cast_no_check (eq_refl (A := Result BigEarthNet * State)
                           (inr Demo.ds_s2, Demo.st_s2)). Qed.

Lemma demo_s2_43 :
  __init__ (Demo.args "test" "s2" 43 false) Demo.st0
  = (inr Demo.ds_s2_43, Demo.st_s2_43).
Proof. vm_cast_no_check (eq_refl (A := Result BigEarthNet * State)
                           (inr Demo.ds_s2_43, Demo.st_s2_43)). Qed.

(** C1 on the concrete world: sample 0 through an instance with
    [bands="s2"] and through one with [bands="all"]. *)
Lemma label_file_folder_witness :
  reads_label_from Demo.ds_s2 0 Demo.st_s2 "data/sentinel-2/S2A_p0"
  ∧ reads_label_from Demo.ds_all 0 Demo.st_all "data/sentinel-1/S2A_p0".
Proof.
  split.
  - apply (proj1 (label_file_folder Demo.ds_s2 0 Demo.st_s2 Demo.folder0
                    eq_refl)).
    reflexivity.
  - apply (proj2 (label_file_folder Demo.ds_all 0 Demo.st_all Demo.folder0
                    eq_refl)).
    right. reflexivity.
Defined.

(** C1, as stated, fails for the combined source: the instance built
    with [bands="all"] reads the label file of sample 0 from the s1
    folder, not from the s2 folder the statement names. *)
Lemma label_file_folder_all_counterexample :
  bands Demo.ds_all = "all"
  ∧ Py.getitem (folders Demo.ds_all) 0 = Some Demo.folder0
  ∧ spec_label_folder (bands Demo.ds_all) Demo.folder0
    = "data/sentinel-2/S2A_p0"
  ∧ ¬ reads_label_from Demo.ds_all 0 Demo.st_all
        (spec_label_folder (bands Demo.ds_all) Demo.folder0)
  ∧ trace (_load_target Demo.ds_all 0 Demo.st_all).2
    = trace Demo.st_all
      ++ [EvGlob "data/sentinel-1/S2A_p0/*.json";
          EvOpen "data/sentinel-1/S2A_p0/p0_s1.json"].
Proof.
  split; [reflexivity|]. split; [reflexivity|]. split; [reflexivity|].
  split.
  - unfold reads_label_from. vm_compute. discriminate.
  - vm_compute. reflexivity.
Qed.

(** ** The multi-hot target *)

Section Target.
Context `{Ext : Externals}.

Lemma label_converter_bounds (k v : nat) :
  label_converter !! k = Some v → (k ≤ 42 ∧ v ≤ 18)%nat.
Proof.
  revert k v.
  change (map_Forall (λ k v, (k ≤ 42 ∧ v ≤ 18)%nat) label_converter).
  apply (bool_decide_unpack _). by vm_compute.
Qed.

Lemma index_put_inv d indices v d' :
  index_put d indices v = inr d' →
  Forall (λ i, (i < length d)%nat) indices.
Proof.
  revert d. induction indices as [|i rest IH]; intros d H; [constructor|].
  simpl in H. case_decide; [|done].
  constructor; [done|]. apply IH in H. by rewrite length_insert in H.
Qed.

Lemma index_put_spec d indices v :
  Forall (λ i, (i < length d)%nat) indices →
  ∃ d', index_put d indices v = inr d'
        ∧ length d' = length d
        ∧ (∀ j, j ∈ indices → d' !! j = Some v)
        ∧ (∀ j, j ∉ indices → d' !! j = d !! j).
Proof.
  revert d. induction indices as [|i rest IH]; intros d Hall.
  - exists d. split; [done|]. split; [done|]. split; [|done].
    by intros j ?%elem_of_nil.
  - apply Forall_cons in Hall as [Hi Hrest]. simpl.
    rewrite decide_True by done.
    destruct (IH (<[i := v]> d)) as (d' & Hput & Hlen & Hin & Hout).
    { by rewrite length_insert. }
    exists d'. rewrite length_insert in Hlen.
    split; [done|]. split; [done|]. split.
    + intros j Hj. destruct (decide (j ∈ rest)) as [?|Hnot]; [by apply Hin|].
      apply elem_of_cons in Hj as [-> | ?]; [|done].
      rewrite (Hout _ Hnot). by apply list_lookup_insert_eq.
    + intros j Hj. apply not_elem_of_cons in Hj as [Hne Hj].
      rewrite (Hout _ Hj). by apply list_lookup_insert_ne.
Qed.

Lemma labels_to_indices_ok (self : BigEarthNet) labels :
  (∀ name, name ∈ labels → is_Some (class2idx self !! name)) →
  ∃ indices, labels_to_indices self labels = inr indices.
Proof.
  induction labels as [|name rest IH]; intros Hall; [by eexists|].
  simpl. unfold class2idx_get.
  destruct (Hall name) as [i ->]; [by left|].
  destruct IH as [indices ->]; [|by eexists].
  intros n Hn. apply Hall. by right.
Qed.

Lemma labels_to_indices_elem (self : BigEarthNet) labels indices :
  labels_to_indices self labels = inr indices →
  ∀ i, i ∈ indices ↔
       ∃ name, name ∈ labels ∧ class2idx self !! name = Some i.
Proof.
  revert indices. induction labels as [|name rest IH]; intros indices H i.
  - injection H as <-. split; [by intros ?%elem_of_nil|].
    by intros (n & ?%elem_of_nil & _).
  - simpl in H. unfold class2idx_get in H.
    destruct (class2idx self !! name) as [k|] eqn:Hk; [|done].
    destruct (labels_to_indices self rest) as [e|rest'] eqn:Hrest; [done|].
    injection H as <-. rewrite elem_of_cons, (IH rest' eq_refl i). split.
    + intros [-> | (n & Hn & Hi)].
      * exists name. split; [by left|done].
      * exists n. split; [by right|done].
    + intros (n & [-> | Hn]%elem_of_cons & Hi).
      * left. congruence.
      * right. by exists n.
Qed.

(** The first name that is not in [class2idx] is the [KeyError]. *)
Lemma labels_to_indices_missing (self : BigEarthNet) labels name :
  name ∈ labels → class2idx self !! name = None →
  ∃ bad, labels_to_indices self labels = inl (KeyError bad)
         ∧ bad ∈ labels ∧ class2idx self !! bad = None.
Proof.
  induction labels as [|n rest IH]; intros Hin Hnone.
  { by apply elem_of_nil in Hin. }
  simpl. unfold class2idx_get.
  destruct (class2idx self !! n) as [k|] eqn:Hk.
  - apply elem_of_cons in Hin as [-> | Hin]; [congruence|].
    destruct (IH Hin Hnone) as (bad & -> & Hbad & Hb).
    exists bad. split; [done|]. split; [by right|done].
  - exists n. split; [done|]. split; [by left|done].
Qed.

(** The target of 19-class mode ([num_classes] 19, or 20 with the
    class "Other features"), when every name is in [class2idx]. *)
Lemma target_of_labels_19 (self : BigEarthNet) labels :
  num_classes self = 19 ∨ num_classes self = 20 →
  (∀ name, name ∈ labels → is_Some (class2idx self !! name)) →
  ∃ t, target_of_labels self labels = inr t
       ∧ shape t = [Z.to_nat (num_classes self)]
       ∧ length (data t) = Z.to_nat (num_classes self)
       ∧ (∀ j, (j < Z.to_nat (num_classes self))%nat →
               data t !! j = Some 0 ∨ data t !! j = Some 1)
       ∧ ∀ j, data t !! j = Some 1 ↔
              ∃ name i, name ∈ labels
                        ∧ class2idx self !! name = Some i
                        ∧ label_converter !! i = Some j.
Proof.
  intros Hn Hall. unfold target_of_labels.
  destruct (labels_to_indices_ok self labels Hall) as [indices Hidx].
  rewrite Hidx.
  assert ((num_classes self =? 19) || (num_classes self =? 20) = true) as ->.
  { destruct Hn as [-> | ->]; reflexivity. }
  set (mapped := omap (λ idx, label_converter !! idx) indices).
  assert (Hmapped : ∀ j, j ∈ mapped ↔
            ∃ name i, name ∈ labels ∧ class2idx self !! name = Some i
                      ∧ label_converter !! i = Some j).
  { intros j. unfold mapped. rewrite list_elem_of_omap. split.
    - intros (i & Hi & Hc).
      apply (labels_to_indices_elem _ _ _ Hidx) in Hi as (name & ? & ?).
      by exists name, i.
    - intros (name & i & ? & ? & ?). exists i. split; [|done].
      apply (labels_to_indices_elem _ _ _ Hidx). by exists name. }
  unfold zeros. cbn [data shape].
  destruct (index_put_spec (replicate (Z.to_nat (num_classes self)) 0)
              mapped 1) as (d & -> & Hlen & Hin & Hout).
  { apply Forall_forall. intros j (name & i & _ & _ & Hc)%Hmapped.
    apply label_converter_bounds in Hc as [_ Hj].
    rewrite length_replicate. destruct Hn as [-> | ->]; lia. }
  rewrite length_replicate in Hlen.
  exists (mkTensor [Z.to_nat (num_classes self)] d). cbn [data shape].
  split; [done|]. split; [done|]. split; [done|]. split.
  - intros j Hj. destruct (decide (j ∈ mapped)) as [?|Hnot]; [right; auto|].
    left. rewrite (Hout _ Hnot). by apply lookup_replicate_2.
  - intros j. rewrite <- Hmapped. split; [|by apply Hin].
    intros Hj. destruct (decide (j ∈ mapped)) as [?|Hnot]; [done|].
    rewrite (Hout _ Hnot) in Hj. by apply lookup_replicate in Hj as [? _].
Qed.

End Target.

Section TargetClaims.
Context `{Ext : Externals}.

Lemma target_of_labels_known (self : BigEarthNet) labels t :
  target_of_labels self labels = inr t →
  ∀ name, name ∈ labels → is_Some (class2idx self !! name).
Proof.
  intros H name Hin.
  destruct (class2idx self !! name) eqn:Hname; [by eexists|].
  destruct (labels_to_indices_missing self labels name Hin Hname)
    as (bad & Hbad & _).
  unfold target_of_labels in H. by rewrite Hbad in H.
Qed.

(** C8.  When the label file holds a name that is not a key of
    [class2idx], [_load_target] raises [KeyError] for a name of the file
    that is not a key (the first one): the error reaches the caller and
    no target is returned.  In 19-class mode ([num_classes] 19, or 20 with
    "Other features"), when every name is a key, [_load_target] returns a
    target, and an entry is set exactly when it is the image under
    [label_converter] of the index of a name of the file: an index that
    [label_converter] does not have sets nothing and raises nothing. *)
Theorem unknown_name_raises_unmapped_index_dropped
    (self : BigEarthNet) (index : Z) (st : State) (labels : list string) :
  label_file self index (world st) labels →
  (∀ name, name ∈ labels → class2idx self !! name = None →
     ∃ bad, bad ∈ labels ∧ class2idx self !! bad = None
            ∧ (_load_target self index st).1 = inl (KeyError bad))
  ∧ (num_classes self = 19 ∨ num_classes self = 20 →
     (∀ name, name ∈ labels → is_Some (class2idx self !! name)) →
     ∃ t, (_load_target self index st).1 = inr t
          ∧ length (data t) = Z.to_nat (num_classes self)
          ∧ ∀ j, data t !! j = Some 1 ↔
                 ∃ name i, name ∈ labels
                           ∧ class2idx self !! name = Some i
                           ∧ label_converter !! i = Some j).
Proof.
  intros Hfile. rewrite (load_target_label_file _ _ _ _ Hfile). split.
  - intros name Hin Hnone.
    destruct (labels_to_indices_missing self labels name Hin Hnone)
      as (bad & Hbad & Hin' & Hnone').
    exists bad. split; [done|]. split; [done|].
    unfold target_of_labels. by rewrite Hbad.
  - intros Hn Hall.
    destruct (target_of_labels_19 self labels Hn Hall)
      as (t & Ht & _ & Hlen & _ & Hset).
    by exists t.
Qed.

(** C6.  Every key of [label_converter] is at most 42 and every value
    at most 18; and in 19-class mode ([num_classes] 19, or 20 with
    "Other features"), whatever the label file holds, a target that
    [_load_target] returns has [num_classes] entries, each 0 or 1, and
    every entry that is not 0 has an index of at most 18. *)
Theorem converter_range_bounds_target :
  (∀ k v : nat, label_converter !! k = Some v → (k ≤ 42 ∧ v ≤ 18)%nat)
  ∧ ∀ (self : BigEarthNet) (index : Z) (st : State) t st',
      num_classes self = 19 ∨ num_classes self = 20 →
      _load_target self index st = (inr t, st') →
      length (data t) = Z.to_nat (num_classes self)
      ∧ ∀ (j : nat) (x : Z),
          data t !! j = Some x → x ≠ 0 → x = 1 ∧ (j ≤ 18)%nat.
Proof.
  split; [apply label_converter_bounds|].
  intros self index st t st' Hn Hload.
  apply load_target_inv in Hload as (labels & _ & Ht).
  pose proof (target_of_labels_known _ _ _ Ht) as Hall.
  destruct (target_of_labels_19 self labels Hn Hall)
    as (t' & Ht' & _ & Hlen & Hbit & Hset).
  rewrite Ht in Ht'. injection Ht' as <-.
  split; [done|]. intros j x Hj Hx.
  assert (j < Z.to_nat (num_classes self))%nat as Hlt.
  { rewrite <- Hlen. by eapply lookup_lt_Some. }
  destruct (Hbit j Hlt) as [H0 | H1]; [congruence|].
  assert (x = 1) as -> by congruence. split; [done|].
  apply Hset in H1 as (name & i & _ & _ & Hc).
  by apply label_converter_bounds in Hc as [_ ?].
Qed.

Lemma class2idx_pastures (cs : ClassSets) :
  vocabulary cs →
  Py.dict (Py.enumerate (cs43 cs)) !! "Pastures" = Some 17%nat.
Proof. intros [-> | ->]; by vm_compute. Qed.

(** C5.  For an instance built by [__init__] and a label file whose
    list of names is exactly ["Pastures"]: when the instance has
    [num_classes] 43 the target has shape (43) and entry 17, the place of
    "Pastures" among the 43 classes, is its only entry set to 1, the
    others being 0; when it has [num_classes] 19 the target has shape (19)
    and entry 4 is its only entry set to 1.  (An instance built with
    [other_features=False] has the [num_classes] it was asked for.) *)
Theorem pastures_target
    (a : InitArgs) (st : State) ds st1 (index : Z) (st2 : State) :
  vocabulary (class_sets st) →
  __init__ a st = (inr ds, st1) →
  label_file ds index (world st2) ["Pastures"] →
  (arg_other_features a = false → num_classes ds = arg_num_classes a)
  ∧ (num_classes ds = 43 →
     (_load_target ds index st2).1 = inr (mkTensor [43%nat] (one_hot 43 17)))
  ∧ (num_classes ds = 19 →
     (_load_target ds index st2).1 = inr (mkTensor [19%nat] (one_hot 19 4))).
Proof.
  intros Hvoc Hinit Hfile.
  rewrite (load_target_label_file _ _ _ _ Hfile). clear Hfile.
  apply init_inv in Hinit as (s & fs & _ & _ & _ & _ & _ & _ & -> & _).
  split.
  { intros Hother. unfold grows. by rewrite Hother. }
  unfold target_of_labels.
  cbn [labels_to_indices num_classes]. unfold class2idx_get.
  cbn [class2idx].
  rewrite (class2idx_pastures _ Hvoc).
  split; intros ->; by vm_compute.
Qed.

End TargetClaims.

Lemma demo_label_file_p0 :
  label_file Demo.ds_s2 0 (world Demo.st_s2) ["Pastures"].
Proof.
  exists Demo.folder0, "data/sentinel-2/S2A_p0/p0_s2.json", [].
  split; [reflexivity|]. split; reflexivity.
Qed.

Lemma demo_label_file_p0_43 :
  label_file Demo.ds_s2_43 0 (world Demo.st_s2_43) ["Pastures"].
Proof.
  exists Demo.folder0, "data/sentinel-2/S2A_p0/p0_s2.json", [].
  split; [reflexivity|]. split; reflexivity.
Qed.

Lemma demo_label_file_p1 :
  label_file Demo.ds_s2 1 (world Demo.st_s2)
    ["Port areas"; "Sea and ocean"; "Estuaries"].
Proof.
  exists (mkFolder "data/sentinel-1/S2A_p1" "data/sentinel-2/S2A_p1"),
         "data/sentinel-2/S2A_p1/p1_s2.json", [].
  split; [reflexivity|]. split; reflexivity.
Qed.

Lemma demo_label_file_p2 :
  label_file Demo.ds_s2 2 (world Demo.st_s2) ["Pastures"; "Glacier"].
Proof.
  exists (mkFolder "data/sentinel-1/S2A_p2" "data/sentinel-2/S2A_p2"),
         "data/sentinel-2/S2A_p2/p2_s2.json", [].
  split; [reflexivity|]. split; reflexivity.
Qed.

(** C5 on the concrete world: sample 0, whose label file holds
    ["Pastures"], read through an instance with 43 and one with 19
    classes. *)
Lemma pastures_target_witness :
  (_load_target Demo.ds_s2_43 0 Demo.st_s2_43).1
  = inr (mkTensor [43%nat] (one_hot 43 17))
  ∧ (_load_target Demo.ds_s2 0 Demo.st_s2).1
    = inr (mkTensor [19%nat] (one_hot 19 4)).
Proof.
  split.
  - apply (pastures_target (Demo.args "test" "s2" 43 false) Demo.st0
             Demo.ds_s2_43 Demo.st_s2_43 0 Demo.st_s2_43
             (or_introl eq_refl) demo_s2_43 demo_label_file_p0_43).
    reflexivity.
  - apply (pastures_target (Demo.args "test" "s2" 19 false) Demo.st0
             Demo.ds_s2 Demo.st_s2 0 Demo.st_s2
             (or_introl eq_refl) demo_s2 demo_label_file_p0).
    reflexivity.
Defined.

(** C8 on the concrete world: sample 2 holds the unknown name
    "Glacier"; sample 1 holds "Port areas" (index 4, not a key of
    [label_converter]) next to two names that map to 18. *)
Lemma unknown_name_raises_unmapped_index_dropped_witness :
  (∃ bad, bad ∈ ["Pastures"; "Glacier"]
          ∧ class2idx Demo.ds_s2 !! bad = None
          ∧ (_load_target Demo.ds_s2 2 Demo.st_s2).1 = inl (KeyError bad))
  ∧ (∃ t, (_load_target Demo.ds_s2 1 Demo.st_s2).1 = inr t
          ∧ length (data t) = 19%nat
          ∧ data t !! 18%nat = Some 1
          ∧ ∀ j, data t !! j = Some 1 → j = 18%nat).
Proof.
  split.
  - apply (proj1 (unknown_name_raises_unmapped_index_dropped
                    Demo.ds_s2 2 Demo.st_s2 _ demo_label_file_p2) "Glacier").
    + apply (bool_decide_unpack _). by vm_compute.
    + by vm_compute.
  - destruct (proj2 (unknown_name_raises_unmapped_index_dropped
                       Demo.ds_s2 1 Demo.st_s2 _ demo_label_file_p1))
      as (t & Ht & Hlen & Hset).
    + by left.
    + intros name Hname. rewrite !elem_of_cons, elem_of_nil in Hname.
      destruct Hname as [-> | [-> | [-> | []]]]; vm_compute; by eexists.
    + exists t. split; [done|]. split; [done|]. split.
      * apply Hset. exists "Estuaries", 41%nat.
        split; [apply (bool_decide_unpack _); by vm_compute|].
        split; by vm_compute.
      * intros j (name & i & Hname & Hi & Hj)%Hset.
        rewrite !elem_of_cons, elem_of_nil in Hname.
        destruct Hname as [-> | [-> | [-> | []]]];
          vm_compute in Hi; injection Hi as <-;
          vm_compute in Hj; congruence.
Defined.

(** C6 on the concrete world: the target of sample 1. *)
Lemma converter_range_bounds_target_witness :
  label_converter !! 17%nat = Some 4%nat
  ∧ length (one_hot 19 18) = 19%nat
  ∧ ∀ (j : nat) (x : Z),
      one_hot 19 18 !! j = Some x → x ≠ 0 → x = 1 ∧ (j ≤ 18)%nat.
Proof.
  split; [by vm_compute|].
  apply (proj2 converter_range_bounds_target Demo.ds_s2 1 Demo.st_s2
           (mkTensor [19%nat] (one_hot 19 18))
           (_load_target Demo.ds_s2 1 Demo.st_s2).2).
  - by left.
  - vm_cast_no_check
      (eq_refl (A := Result (Tensor Z) * State (Ext := Demo.ext))
         (inr (mkTensor [19%nat] (one_hot 19 18)),
          (_load_target Demo.ds_s2 1 Demo.st_s2).2)).
Defined.

(** ** The sample index *)

Section SampleIndex.
Context `{Ext : Externals}.

Lemma split_go_cons sep cur s :
  ∃ x rest, PyStr.split_go sep cur s = x :: rest.
Proof.
  revert cur. induction s as [|c s IH]; intros cur; simpl; [by eexists _, _|].
  destruct (Ascii.eqb c sep); [by eexists _, _|]. apply IH.
Qed.

Lemma first_split line :
  first (PyStr.split "," line) = inr (first_token line).
Proof.
  unfold first_token, PyStr.split.
  by destruct (split_go_cons "," "" line) as (x & rest & ->).
Qed.

Lemma folders_of_lines rootdir lines :
  folders_of_pairs rootdir "sentinel-1" "sentinel-2" (PyStr.split "," <$> lines)
  = inr (folder_of_line rootdir <$> lines).
Proof.
  induction lines as [|line lines IH]; [done|].
  cbn [fmap list_fmap folders_of_pairs].
  rewrite first_split. cbn [fmap list_fmap] in IH. by rewrite IH.
Qed.

(** [_load_folders], when the split is known and the manifest can be
    read. *)
Lemma load_folders_eval (self : BigEarthNet) st sm content :
  table_get splits_metadata (split self) = inr sm →
  read_text (world st) (PyStr.join (root self) [filename sm]) = inr content →
  _load_folders self st
  = (inr (folder_of_line (root self)
            <$> PyStr.splitlines (PyStr.strip content)),
     log (EvOpen (PyStr.join (root self) [filename sm])) st).
Proof.
  intros Hsm Hread. unfold _load_folders.
  unfold bind at 1. unfold lift at 1. rewrite Hsm.
  unfold bind at 1. unfold lift at 1. cbn [table_get metadata String.eqb
    Ascii.eqb Bool.eqb].
  unfold bind at 1. unfold lift at 1. cbn [table_get metadata String.eqb
    Ascii.eqb Bool.eqb].
  unfold bind at 1. unfold io_read_text. rewrite Hread.
  unfold lift. cbn [directory]. by rewrite folders_of_lines.
Qed.

Lemma load_folders_inv (self : BigEarthNet) st fs :
  (_load_folders self st).1 = inr fs →
  ∃ sm content,
    table_get splits_metadata (split self) = inr sm
    ∧ read_text (world st) (PyStr.join (root self) [filename sm]) = inr content
    ∧ fs = folder_of_line (root self)
             <$> PyStr.splitlines (PyStr.strip content).
Proof.
  intros H.
  destruct (table_get splits_metadata (split self)) as [e|sm] eqn:Hsm.
  { unfold _load_folders, bind, lift in H. by rewrite Hsm in H. }
  destruct (read_text (world st) (PyStr.join (root self) [filename sm]))
    as [e|content] eqn:Hread.
  { unfold _load_folders in H.
    unfold bind at 1 in H. unfold lift at 1 in H. rewrite Hsm in H.
    unfold bind at 1 in H. unfold lift at 1 in H.
    cbn [table_get metadata String.eqb Ascii.eqb Bool.eqb] in H.
    unfold bind at 1 in H. unfold lift at 1 in H.
    cbn [table_get metadata String.eqb Ascii.eqb Bool.eqb] in H.
    unfold bind at 1 in H. unfold io_read_text in H.
    by rewrite Hread in H. }
  rewrite (load_folders_eval _ _ _ _ Hsm Hread) in H.
  injection H as <-. by exists sm, content.
Qed.

Lemma filter_nonempty_all (lines : list string) :
  (∀ line, line ∈ lines → line ≠ "") →
  filter (λ line, line ≠ "") lines = lines.
Proof.
  induction lines as [|l lines IH]; intros Hall; [done|].
  rewrite filter_cons_True by (apply Hall; by left).
  f_equal. apply IH. intros line Hin. apply Hall. by right.
Qed.

(** C3, as the code has it.  After a construction that returned, the
    manifest of the split is a readable file of the root directory; the
    length of the dataset is the number of lines of its text once leading
    and trailing whitespace is stripped (an empty line between two samples
    counts), and line [i] of the stripped text, through its first
    comma-separated token, gives the two folders of the sample at index
    [i].  When no line of the stripped text is empty, the length is its
    number of non-empty lines. *)
Theorem len_is_stripped_line_count (a : InitArgs) (st : State) ds st' :
  __init__ a st = (inr ds, st') →
  ∃ sm content,
    table_get splits_metadata (arg_split a) = inr sm
    ∧ read_text (world st') (PyStr.join (arg_root a) [filename sm])
      = inr content
    ∧ __len__ ds = length (PyStr.splitlines (PyStr.strip content))
    ∧ (∀ (i : nat) line,
         PyStr.splitlines (PyStr.strip content) !! i = Some line →
         folders ds !! i
         = Some (mkFolder
                   (PyStr.join (arg_root a) ["sentinel-1"; first_token line])
                   (PyStr.join (arg_root a) ["sentinel-2"; first_token line])))
    ∧ ((∀ line, line ∈ PyStr.splitlines (PyStr.strip content) → line ≠ "") →
       __len__ ds = nonempty_line_count (PyStr.strip content)).
Proof.
  intros Hinit.
  apply init_inv in Hinit as (s & fs & _ & _ & _ & _ & Hfs & Hw & -> & _).
  apply load_folders_inv in Hfs as (sm & content & Hsm & Hread & ->).
  unfold init_self in Hsm, Hread. cbn [split root] in Hsm, Hread.
  exists sm, content. rewrite Hw. split; [done|]. split; [done|].
  unfold __len__, init_self. cbn [folders root].
  rewrite length_fmap. split; [done|]. split.
  - intros i line Hline. rewrite list_lookup_fmap, Hline. done.
  - intros Hall. unfold nonempty_line_count.
    by rewrite filter_nonempty_all.
Qed.

End SampleIndex.

Lemma demo_val :
  __init__ (Demo.args "val" "s2" 19 false) Demo.st0
  = (inr Demo.ds_val, Demo.st_val).
Proof. vm_cast_no_check (eq_refl (A := Result BigEarthNet * State)
                           (inr Demo.ds_val, Demo.st_val)). Qed.

(** C3 on the concrete world: the test manifest, three lines. *)
Lemma len_is_stripped_line_count_witness :
  read_text (world Demo.st_s2) "data/bigearthnet-test.csv"
  = inr Demo.test_manifest
  ∧ __len__ Demo.ds_s2
    = length (PyStr.splitlines (PyStr.strip Demo.test_manifest)).
Proof.
  destruct (len_is_stripped_line_count
              (Demo.args "test" "s2" 19 false) Demo.st0 _ _ demo_s2)
    as (sm & content & Hsm & Hread & Hlen & _).
  injection Hsm as <-. injection Hread as <-. by split.
Defined.

(** C3, as stated, fails on a manifest with an empty line between two
    samples: the validation manifest of the concrete world has two
    non-empty lines and the dataset built on it has length 3. *)
Lemma len_counts_empty_line_counterexample :
  __init__ (Demo.args "val" "s2" 19 false) Demo.st0
  = (inr Demo.ds_val, Demo.st_val)
  ∧ read_text (world Demo.st_val) "data/bigearthnet-val.csv"
    = inr Demo.val_manifest
  ∧ PyStr.splitlines Demo.val_manifest = ["S2A_p0"; ""; "S2A_p1"]
  ∧ nonempty_line_count Demo.val_manifest = 2%nat
  ∧ __len__ Demo.ds_val = 3%nat
  ∧ __len__ Demo.ds_val ≠ nonempty_line_count Demo.val_manifest.
Proof.
  split; [apply demo_val|]. split; [reflexivity|]. split; [reflexivity|].
  split; [reflexivity|]. split; [reflexivity|]. by vm_compute.
Qed.

(** ** Band paths *)

Section BandPaths.
Context `{Ext : Externals}.

Lemma insert_by_perm {A} (lt : A → A → bool) x l :
  Py.insert_by lt x l ≡ₚ x :: l.
Proof.
  induction l as [|y l IH]; [done|]. simpl.
  destruct (lt y x); [|done]. rewrite IH. apply Permutation_swap.
Qed.

Lemma sorted_perm {A K} (ltK : K → K → bool) (key : A → K) l :
  Py.sorted ltK key l ≡ₚ l.
Proof.
  induction l as [|x l IH]; [done|].
  unfold Py.sorted in *. cbn [foldr]. by rewrite insert_by_perm, IH.
Qed.

Lemma ltb_false_le (a b : string) : String.ltb b a = false → String.le a b.
Proof.
  unfold String.le, String.leb, String.ltb.
  rewrite (String.compare_antisym a b).
  by destruct (String.compare b a).
Qed.

Lemma ltb_true_le (a b : string) : String.ltb a b = true → String.le a b.
Proof.
  unfold String.le, String.leb, String.ltb. by destruct (String.compare a b).
Qed.

Lemma key_le_trans {A} (key : A → string) : Transitive (key_le key).
Proof. intros a b c. unfold key_le. apply transitivity. Qed.

Lemma insert_by_hd {A} (key : A → string) x l :
  Sorted (key_le key) l →
  Sorted (key_le key)
    (Py.insert_by (λ a b, PyStr.lt (key a) (key b)) x l).
Proof.
  induction l as [|y l IH]; intros Hs; simpl.
  { by repeat constructor. }
  apply Sorted_inv in Hs as [Hl Hy]. unfold PyStr.lt at 1.
  destruct (String.ltb (key y) (key x)) eqn:Hlt.
  - constructor; [by apply IH|].
    destruct l as [|z l]; simpl.
    + constructor. by apply ltb_true_le.
    + unfold PyStr.lt at 1. destruct (String.ltb (key z) (key x)).
      * constructor. by apply HdRel_inv in Hy.
      * constructor. by apply ltb_true_le.
  - constructor; [by constructor|]. constructor. by apply ltb_false_le.
Qed.

Lemma sorted_sorted {A} (key : A → string) l :
  StronglySorted (key_le key) (Py.sorted PyStr.lt key l).
Proof.
  apply Sorted_StronglySorted; [apply key_le_trans|].
  induction l as [|x l IH]; [constructor|].
  unfold Py.sorted in *. cbn [foldr]. by apply insert_by_hd.
Qed.

Lemma folder_at_s1 (self : BigEarthNet) index f st :
  Py.getitem (folders self) index = Some f →
  folder_at self index "s1" st = (inr (s1 f), st).
Proof. intros Hf. unfold folder_at. by rewrite Hf. Qed.

Lemma folder_at_s2 (self : BigEarthNet) index f st :
  Py.getitem (folders self) index = Some f →
  folder_at self index "s2" st = (inr (s2 f), st).
Proof. intros Hf. unfold folder_at. by rewrite Hf. Qed.

(** [_load_paths] on a sample that exists. *)
Lemma load_paths_eval (self : BigEarthNet) index st f :
  Py.getitem (folders self) index = Some f →
  let tif1 := glob_glob (world st) (PyStr.join (s1 f) ["*.tif"]) in
  let tif2 := glob_glob (world st) (PyStr.join (s2 f) ["*.tif"]) in
  (_load_paths self index st).1
  = inr (if String.eqb (bands self) "all" then
           Py.sorted PyStr.lt id tif1
           ++ Py.sorted PyStr.lt sort_sentinel2_bands tif2
         else if String.eqb (bands self) "s1" then
           Py.sorted PyStr.lt id tif1
         else Py.sorted PyStr.lt sort_sentinel2_bands tif2).
Proof.
  intros Hf. unfold _load_paths.
  destruct (String.eqb (bands self) "all");
    [|destruct (String.eqb (bands self) "s1")].
  - erewrite bind_inr; [|by apply folder_at_s1].
    by erewrite bind_inr; [|by apply folder_at_s2].
  - by erewrite bind_inr; [|by apply folder_at_s1].
  - by erewrite bind_inr; [|by apply folder_at_s2].
Qed.

(** C7.  In combined mode ([bands="all"]), for a sample that exists,
    [_load_paths] returns what it returns for the same sample with
    [bands="s1"], immediately followed by what it returns with
    [bands="s2"]: the first part is the "*.tif" files of the s1 folder in
    lexicographic order of the paths, the second the "*.tif" files of the
    s2 folder in the order of their [sort_sentinel2_bands] keys; each part
    is a permutation of what the search in its folder found, so nothing is
    left out and nothing is interleaved. *)
Theorem combined_paths_are_s1_then_s2
    (self : BigEarthNet) (index : Z) (st : State) f :
  bands self = "all" →
  Py.getitem (folders self) index = Some f →
  ∃ p1 p2,
    (_load_paths (set_bands "s1" self) index st).1 = inr p1
    ∧ (_load_paths (set_bands "s2" self) index st).1 = inr p2
    ∧ (_load_paths self index st).1 = inr (p1 ++ p2)
    ∧ p1 ≡ₚ glob_glob (world st) (PyStr.join (s1 f) ["*.tif"])
    ∧ StronglySorted String.le p1
    ∧ p2 ≡ₚ glob_glob (world st) (PyStr.join (s2 f) ["*.tif"])
    ∧ StronglySorted
        (λ a b, String.le (sort_sentinel2_bands a) (sort_sentinel2_bands b))
        p2.
Proof.
  intros Hb Hf.
  exists (Py.sorted PyStr.lt id
            (glob_glob (world st) (PyStr.join (s1 f) ["*.tif"]))),
         (Py.sorted PyStr.lt sort_sentinel2_bands
            (glob_glob (world st) (PyStr.join (s2 f) ["*.tif"]))).
  split; [|split; [|split; [|split; [|split; [|split]]]]].
  - by rewrite (load_paths_eval (set_bands "s1" self) index st f Hf).
  - by rewrite (load_paths_eval (set_bands "s2" self) index st f Hf).
  - by rewrite (load_paths_eval self index st f Hf), Hb.
  - apply sorted_perm.
  - apply (sorted_sorted id).
  - apply sorted_perm.
  - apply (sorted_sorted sort_sentinel2_bands).
Qed.

End BandPaths.

(** C7 on the concrete world: the two radar bands, then the four
    optical bands with B8A between B02 and B09. *)
Lemma combined_paths_are_s1_then_s2_witness :
  (_load_paths Demo.ds_all 0 Demo.st_all).1
  = inr (["data/sentinel-1/S2A_p0/p0_VH.tif";
          "data/sentinel-1/S2A_p0/p0_VV.tif"]
         ++ ["data/sentinel-2/S2A_p0/p0_B01.tif";
             "data/sentinel-2/S2A_p0/p0_B02.tif";
             "data/sentinel-2/S2A_p0/p0_B8A.tif";
             "data/sentinel-2/S2A_p0/p0_B09.tif"]).
Proof.
  destruct (combined_paths_are_s1_then_s2 Demo.ds_all 0 Demo.st_all
              Demo.folder0 eq_refl eq_refl)
    as (p1 & p2 & H1 & H2 & -> & _).
  vm_compute in H1, H2. by injection H1 as <-; injection H2 as <-.
Defined.

(** ** Indexed access *)

Section IndexedAccess.
Context `{Ext : Externals}.

(** [__getitem__] with a transform, when both loads and the transform
    return. *)
Lemma getitem_eval (self : BigEarthNet) index st img st1 lbl st2 t s' :
  _load_image self index st = (inr img, st1) →
  _load_target self index st1 = (inr lbl, st2) →
  transforms self = Some t →
  t (mkSample img lbl) = inr s' →
  __getitem__ self index st
  = (inr (if Nat.eqb (length (shape (image s'))) 4
          then squeeze 1 (image s') else image s',
          label s'), st2).
Proof.
  intros Himg Hlbl Ht Hs. unfold __getitem__.
  rewrite (bind_inr _ _ _ _ _ Himg), (bind_inr _ _ _ _ _ Hlbl), Ht.
  unfold bind, lift, ret. rewrite Hs.
  by destruct (Nat.eqb _ 4).
Qed.

(** C4, as the code has it.  When the transform returns an image with
    four dimensions whose dimension 1 has size 1 (shape (c, 1, h, w), the
    time dimension), [__getitem__] removes that dimension and returns an
    image of shape (c, h, w) with the same elements.  When the image has
    a leading dimension of size 1 (shape (1, c, h, w)) and c is not 1,
    it is returned as it is, with its four dimensions. *)
Theorem getitem_squeezes_dimension_one
    (self : BigEarthNet) (index : Z) (st : State)
    img st1 lbl st2 t s' (c h w : nat) :
  _load_image self index st = (inr img, st1) →
  _load_target self index st1 = (inr lbl, st2) →
  transforms self = Some t →
  t (mkSample img lbl) = inr s' →
  (shape (image s') = [c; 1%nat; h; w] →
   __getitem__ self index st
   = (inr (mkTensor [c; h; w] (data (image s')), label s'), st2))
  ∧ (shape (image s') = [1%nat; c; h; w] → c ≠ 1%nat →
     __getitem__ self index st = (inr (image s', label s'), st2)).
Proof.
  intros Himg Hlbl Ht Hs.
  rewrite (getitem_eval _ _ _ _ _ _ _ _ _ Himg Hlbl Ht Hs).
  split.
  - intros Hshape. unfold squeeze. by rewrite Hshape.
  - intros Hshape Hc. unfold squeeze. rewrite Hshape. cbn.
    destruct c as [|[|c]]; done.
Qed.

End IndexedAccess.

(** C4 on the concrete world: sample 1 has one band, the transform makes
    its image (1, 1, 120, 120) and the access returns (1, 120, 120). *)
Lemma getitem_squeezes_dimension_one_witness :
  returned_shape (__getitem__ Demo.ds_time 1 Demo.st_s2)
  = Some [1; 120; 120]%nat.
Proof.
  pose (img := mkTensor [1; 120; 120]%nat (replicate (120 * 120) 0)
               : Tensor (float32 (Externals := Demo.ext))).
  pose (lbl := mkTensor [19%nat] (one_hot 19 18)).
  pose (st1 := (_load_image Demo.ds_time 1 Demo.st_s2).2).
  pose (st2 := (_load_target Demo.ds_time 1 st1).2).
  destruct (getitem_squeezes_dimension_one Demo.ds_time 1 Demo.st_s2
              img st1 lbl st2 (Demo.unsqueeze 1)
              (mkSample (Ext := Demo.ext)
                 (mkTensor [1; 1; 120; 120]%nat (data img)) lbl)
              1%nat 120%nat 120%nat) as [H _].
  - vm_cast_no_check (eq_refl (A := Result (Tensor Z) * State) (inr img, st1)).
  - vm_cast_no_check (eq_refl (A := Result (Tensor Z) * State) (inr lbl, st2)).
  - reflexivity.
  - reflexivity.
  - rewrite (H eq_refl). reflexivity.
Defined.

(** C4, as stated, fails: with a transform that returns the image with
    a leading dimension of size 1, shape (1, 4, 120, 120), the image
    [__getitem__] returns still has that shape, four dimensions and not
    three. *)
Lemma getitem_leading_singleton_counterexample :
  transforms Demo.ds_lead = Some (Demo.unsqueeze 0)
  ∧ (∀ s, ∃ s', Demo.unsqueeze 0 s = inr s'
                ∧ shape (image s') = 1%nat :: shape (image s))
  ∧ returned_shape (__getitem__ Demo.ds_lead 0 Demo.st_s2)
    = Some [1; 4; 120; 120]%nat
  ∧ returned_shape (__getitem__ Demo.ds_s2 0 Demo.st_s2)
    = Some [4; 120; 120]%nat.
Proof.
  split; [reflexivity|]. split.
  { intros s. eexists. split; reflexivity. }
  split; by vm_compute.
Qed.

(** ** Verification of the data directory *)

Section Verify.
Context `{Ext : Externals}.

Lemma emits_ret {A} P (a : A) : emits P (ret a).
Proof. intros st. exists []. by rewrite app_nil_r. Qed.

Lemma emits_raise {A} P e : emits P (raise (A := A) e).
Proof. intros st. exists []. by rewrite app_nil_r. Qed.

Lemma emits_lift {A} P (r : Result A) : emits P (lift r).
Proof. intros st. exists []. by rewrite app_nil_r. Qed.

Lemma emits_bind {A B} P (m : M A) (k : A → M B) :
  emits P m → (∀ a, emits P (k a)) → emits P (bind m k).
Proof.
  intros Hm Hk st. unfold bind. destruct (Hm st) as (evs & Ht & Hevs).
  destruct (m st) as [[e|a] st1]; simpl in *; [by exists evs|].
  destruct (Hk a st1) as (evs' & Ht' & Hevs').
  exists (evs ++ evs'). rewrite Ht', Ht, app_assoc. split; [done|].
  by apply Forall_app.
Qed.

Lemma emits_mapM {A B} P (f : A → M B) l :
  (∀ x, x ∈ l → emits P (f x)) → emits P (mapM f l).
Proof.
  induction l as [|x l IH]; intros Hf; simpl; [apply emits_ret|].
  apply emits_bind; [apply Hf; by left|]. intros y.
  apply emits_bind; [|intros ?; apply emits_ret].
  apply IH. intros z Hz. apply Hf. by right.
Qed.

Lemma emits_forM_ {A} P (f : A → M unit) l :
  (∀ x, x ∈ l → emits P (f x)) → emits P (forM_ l f).
Proof.
  induction l as [|x l IH]; intros Hf; simpl; [apply emits_ret|].
  apply emits_bind; [apply Hf; by left|]. intros _.
  apply IH. intros z Hz. apply Hf. by right.
Qed.

Lemma emits_one {A} P (m : M A) ev :
  (∀ st, trace (m st).2 = trace st ++ [ev]) → P ev → emits P m.
Proof. intros Hm Hev st. exists [ev]. split; [apply Hm|by constructor]. Qed.

Lemma emits_io_exists P p : P (EvExists p) → emits P (io_exists p).
Proof. by apply emits_one. Qed.

Lemma emits_io_extract P p : P (EvExtract p) → emits P (io_extract p).
Proof.
  apply emits_one. intros st. unfold io_extract.
  by destruct (extract_archive _ _).
Qed.

Lemma emits_io_download P u r f m :
  P (EvDownload u r f m) → emits P (io_download u r f m).
Proof.
  apply emits_one. intros st. unfold io_download.
  by destruct (download_url _ _ _ _ _).
Qed.

Lemma emits__extract (self : BigEarthNet) p :
  emits (verify_event self) (_extract self p).
Proof.
  unfold _extract. destruct (PyStr.endswith ".csv" p) eqn:Hcsv; simpl.
  - apply emits_ret.
  - by apply emits_io_extract.
Qed.

Lemma zip3_fmap {A B C D} (f : A → B) (g : A → C) (h : A → D) (l : list A) :
  zip3 (f <$> l) (g <$> l) (h <$> l) = (λ x, (f x, g x, h x)) <$> l.
Proof. unfold zip3. induction l as [|x l IH]; [done|]. simpl. by f_equal. Qed.

(** The entries [_verify] gets from [metadata] are entries of the
    table. *)
Lemma metas_of_keys keys metas (st st' : State) :
  mapM (λ k, lift (table_get metadata k)) keys st = (inr metas, st') →
  st' = st ∧ ∀ m, m ∈ metas → m ∈ metadata.*2.
Proof.
  revert metas st'. induction keys as [|k keys IH]; intros metas st' H.
  - injection H as <- <-. split; [done|]. by intros m ?%elem_of_nil.
  - cbn [mapM] in H.
    apply bind_inv_inr in H as (m & s1 & Hm & H).
    apply bind_inv_inr in H as (ms & s2 & Hms & H).
    injection H as <- <-. unfold lift in Hm. injection Hm as Hm <-.
    apply IH in Hms as [-> Hin]. split; [done|].
    intros m' [-> | ?]%elem_of_cons; [|by apply Hin].
    clear -Hm. unfold metadata in *. cbn [table_get] in Hm.
    repeat (destruct (String.eqb k _);
            [injection Hm as <-; rewrite !fmap_cons, !elem_of_cons; auto|]).
    done.
Qed.

Lemma emits_bind_post {A B} P (Q : A → Prop) (m : M A) (k : A → M B) :
  emits P m →
  (∀ st a st', m st = (inr a, st') → Q a) →
  (∀ a, Q a → emits P (k a)) →
  emits P (bind m k).
Proof.
  intros Hm HQ Hk st. unfold bind. destruct (Hm st) as (evs & Ht & Hevs).
  destruct (m st) as [[e|a] st1] eqn:Hrun; simpl in *; [by exists evs|].
  destruct (Hk a (HQ _ _ _ Hrun) st1) as (evs' & Ht' & Hevs').
  exists (evs ++ evs'). rewrite Ht', Ht, app_assoc. split; [done|].
  by apply Forall_app.
Qed.

(** X3.  Whatever the world holds, the external calls of [_verify] are
    existence tests, extractions of files that are not ".csv" files, and
    downloads; a download happens only with [download=True], fetches an
    entry of [metadata] or [splits_metadata] into the root directory, and
    passes the MD5 of that entry exactly when [checksum] is set.  No file
    is opened, no folder is searched. *)
Theorem verify_external_calls (self : BigEarthNet) :
  emits (verify_event self) (_verify self).
Proof.
  unfold _verify.
  apply (emits_bind_post _ (λ metas, ∀ m, m ∈ metas → m ∈ metadata.*2)).
  { apply emits_mapM. intros ??. apply emits_lift. }
  { intros st metas st' H. by apply metas_of_keys in H as [_ ?]. }
  intros metas Hmetas.
  apply emits_bind.
  { apply emits_mapM. intros ??. by apply emits_io_exists. }
  intros exists_splits. apply emits_bind.
  { apply emits_mapM. intros ??. by apply emits_io_exists. }
  intros exists_dirs.
  destruct (Py.all _); [apply emits_ret|].
  apply emits_bind.
  { apply emits_mapM. intros f _. apply emits_bind.
    - by apply emits_io_exists.
    - intros [|]; [|apply emits_ret].
      apply emits_bind; [apply emits__extract|]. intros _. apply emits_ret. }
  intros exists_zip.
  destruct (Py.all _); [apply emits_ret|].
  destruct (download self) eqn:Hdl; cbn [negb]; [|apply emits_raise].
  rewrite <- !fmap_app, zip3_fmap.
  apply emits_forM_. intros [[u f] m] (e & [= -> -> ->] & He)%list_elem_of_fmap.
  apply emits_bind; [|intros _; apply emits__extract].
  unfold _download. apply emits_bind.
  { by apply emits_io_exists. }
  intros [|]; cbn [negb]; [apply emits_ret|].
  apply emits_io_download. split; [done|]. split; [done|].
  exists e. split; [|done].
  rewrite fmap_app. apply elem_of_app in He as [He | He].
  - apply elem_of_app. left. by apply Hmetas.
  - apply elem_of_app. by right.
Qed.

End Verify.

Section VerifyCases.
Context `{Ext : Externals}.

Lemma mapM_io_exists {A} (g : A → string) (l : list A) (st : State) :
  mapM (λ x, io_exists (g x)) l st
  = (inr ((λ x, os_path_exists (world st) (g x)) <$> l),
     mkState (world st) (trace st ++ ((λ x, EvExists (g x)) <$> l))
             (class_sets st)).
Proof.
  revert st. induction l as [|x l IH]; intros st.
  - cbn. unfold ret. rewrite app_nil_r. by destruct st.
  - cbn [mapM]. unfold bind at 1. unfold io_exists at 1.
    unfold bind at 1. rewrite IH. unfold ret. cbn [log world trace class_sets].
    by rewrite <- app_assoc.
Qed.

Lemma verify_metas (b : string) (st : State) :
  b ∈ ["s1"; "s2"; "all"] →
  mapM (λ k, lift (table_get metadata k))
       (if String.eqb b "all" then ["s1"; "s2"] else [b]) st
  = (inr (selected_metas b), st).
Proof.
  rewrite !elem_of_cons, elem_of_nil. intros [-> | [-> | [-> | []]]]; done.
Qed.

Lemma all_true (l : list bool) : (∀ b, b ∈ l → b = true) → Py.all l = true.
Proof.
  intros H. unfold Py.all. apply forallb_forall.
  intros b Hb%list_elem_of_In. by rewrite (H b Hb).
Qed.

Lemma all_false (l : list bool) : false ∈ l → Py.all l = false.
Proof.
  intros H. unfold Py.all. apply not_true_is_false. intros Hall.
  rewrite forallb_forall in Hall. apply list_elem_of_In, Hall in H. done.
Qed.

(** X1.  When the three manifests and the directories of the selected
    sources exist under the root, [_verify] returns after having tested
    exactly these paths, manifests first: nothing is extracted, nothing
    is downloaded, and the world is as it was. *)
Theorem verify_present (self : BigEarthNet) (st : State) :
  bands self ∈ ["s1"; "s2"; "all"] →
  dataset_present (world st) (root self) (bands self) →
  _verify self st
  = (inr tt,
     mkState (world st)
       (trace st ++ (EvExists <$> checked_first (root self) (bands self)))
       (class_sets st)).
Proof.
  intros Hb [Hsplits Hdirs]. unfold _verify.
  erewrite bind_inr; [|by apply verify_metas]. cbv beta zeta.
  erewrite bind_inr; [|apply mapM_io_exists].
  erewrite bind_inr; [|apply mapM_io_exists].
  cbn [world trace class_sets].
  rewrite all_true.
  - unfold ret, checked_first. f_equal. f_equal.
    rewrite <- app_assoc, fmap_app, <- !list_fmap_compose. done.
  - intros b [Hin | Hin]%elem_of_app.
    + apply list_elem_of_fmap in Hin as (f & -> & (sm & -> & Hsm)%list_elem_of_fmap).
      by apply Hsplits.
    + apply list_elem_of_fmap in Hin as (d & -> & (m & -> & Hm)%list_elem_of_fmap).
      by apply Hdirs.
Qed.

End VerifyCases.

Section VerifyMissing.
Context `{Ext : Externals}.

Lemma append_nil_l (s : string) : "" +:+ s = s.
Proof. reflexivity. Qed.

Lemma append_cons (a : ascii) (s t : string) :
  String a s +:+ t = String a (s +:+ t).
Proof. reflexivity. Qed.

Lemma append_assoc (r s t : string) : (r +:+ s) +:+ t = r +:+ (s +:+ t).
Proof.
  induction r as [|a r IH]; [done|]. rewrite !append_cons. by f_equal.
Qed.

Lemma rev_app_append (s acc : string) :
  String.rev_app s acc = String.rev_app s "" +:+ acc.
Proof.
  revert acc. induction s as [|a s IH]; intros acc; [done|].
  cbn [String.rev_app].
  rewrite (IH (String a acc)), (IH (String a "")), append_assoc.
  done.
Qed.

Lemma rev_append (s t : string) :
  String.rev (s +:+ t) = String.rev t +:+ String.rev s.
Proof.
  unfold String.rev. generalize "" at 1 3 as acc.
  induction s as [|a s IH]; intros acc.
  - rewrite append_nil_l. cbn [String.rev_app]. apply rev_app_append.
  - rewrite append_cons. cbn [String.rev_app]. apply IH.
Qed.

Lemma prefix_append (p s t : string) :
  String.prefix p s = true → String.prefix p (s +:+ t) = true.
Proof.
  revert s. induction p as [|a p IH]; intros s H.
  { by destruct (s +:+ t). }
  destruct s as [|b s]; cbn in H; [done|]. rewrite append_cons. cbn.
  destruct (ascii_dec a b); [by apply IH|done].
Qed.

Lemma endswith_append (p s t : string) :
  PyStr.endswith p t = true → PyStr.endswith p (s +:+ t) = true.
Proof.
  unfold PyStr.endswith. intros H. rewrite rev_append. by apply prefix_append.
Qed.

(** A path joined to a relative file name ends as the file name does. *)
Lemma endswith_join (p rootdir f : string) :
  PyStr.endswith p f = true →
  PyStr.endswith p (PyStr.join rootdir [f]) = true.
Proof.
  intros H. unfold PyStr.join. cbn [foldl]. unfold PyStr.join2.
  destruct (PyStr.startswith "/" f); [done|].
  destruct (_ || _); by repeat apply endswith_append.
Qed.

(** The second loop of [_verify] on files that are absent or are ".csv"
    files: nothing is extracted. *)
Lemma mapM_exists_extract (self : BigEarthNet) (l : list string) (st : State) :
  (∀ f, f ∈ l →
     os_path_exists (world st) (PyStr.join (root self) [f]) = false
     ∨ PyStr.endswith ".csv" f = true) →
  mapM (λ f, bind (io_exists (PyStr.join (root self) [f]))
               (λ present,
                  if present
                  then bind (_extract self (PyStr.join (root self) [f]))
                         (λ _, ret true)
                  else ret false)) l st
  = (inr ((λ f, os_path_exists (world st) (PyStr.join (root self) [f])) <$> l),
     mkState (world st)
       (trace st ++ ((λ f, EvExists (PyStr.join (root self) [f])) <$> l))
       (class_sets st)).
Proof.
  revert st. induction l as [|f l IH]; intros st Hl.
  - cbn. unfold ret. rewrite app_nil_r. by destruct st.
  - cbn [mapM]. unfold bind at 1. unfold bind at 1. unfold io_exists at 1.
    assert (Hstep :
      (if os_path_exists (world st) (PyStr.join (root self) [f])
       then bind (_extract self (PyStr.join (root self) [f])) (λ _, ret true)
       else ret false) (log (EvExists (PyStr.join (root self) [f])) st)
      = (inr (os_path_exists (world st) (PyStr.join (root self) [f])),
         log (EvExists (PyStr.join (root self) [f])) st)).
    { destruct (Hl f) as [-> | Hcsv]; [by left|done|].
      destruct (os_path_exists _ _); [|done].
      unfold _extract. by rewrite (endswith_join _ _ _ Hcsv). }
    rewrite Hstep. unfold bind at 1. rewrite IH.
    + unfold ret. cbn [log world trace class_sets]. by rewrite <- app_assoc.
    + intros g Hg. cbn [log world]. apply Hl. by right.
Qed.

(** X2.  When one of the paths tested first is missing, no archive of a
    selected source lies under the root, and [download] is not set,
    [_verify] raises [RuntimeError]; it has then only tested paths (the
    manifests and directories, then the archives and manifests): nothing
    is extracted or downloaded and the world is as it was. *)
Theorem verify_missing_without_download (self : BigEarthNet) (st : State) p :
  bands self ∈ ["s1"; "s2"; "all"] →
  p ∈ checked_first (root self) (bands self) →
  os_path_exists (world st) p = false →
  (∀ m, m ∈ selected_metas (bands self) →
        os_path_exists (world st) (PyStr.join (root self) [filename m])
        = false) →
  download self = false →
  ∃ msg,
    _verify self st
    = (inl (RuntimeError msg),
       mkState (world st)
         (trace st
          ++ (EvExists <$> checked_first (root self) (bands self)
                           ++ checked_next (root self) (bands self)))
         (class_sets st)).
Proof.
  intros Hb Hp Hmissing Harch Hdl. eexists. unfold _verify.
  assert (Hne : selected_metas (bands self) ≠ []).
  { clear -Hb. rewrite !elem_of_cons, elem_of_nil in Hb.
    destruct Hb as [-> | [-> | [-> | []]]]; done. }
  erewrite bind_inr; [|by apply verify_metas]. cbv beta zeta.
  erewrite bind_inr; [|apply mapM_io_exists].
  erewrite bind_inr; [|apply mapM_io_exists].
  cbn [world trace class_sets].
  rewrite all_false; last first.
  { unfold checked_first in Hp.
    apply elem_of_app in Hp as [Hp | Hp]; apply elem_of_app; [left|right];
      apply list_elem_of_fmap in Hp as (x & -> & Hx);
      apply list_elem_of_fmap; eexists;
      (split; [|apply list_elem_of_fmap; eexists; split; [reflexivity|exact Hx]]);
      by rewrite Hmissing. }
  erewrite bind_inr; last first.
  { apply mapM_exists_extract. cbn [world].
    intros f [Hf | Hf]%elem_of_app.
    - left. apply list_elem_of_fmap in Hf as (m & -> & Hm). by apply Harch.
    - right. revert f Hf. by apply Forall_forall; repeat constructor. }
  cbn [world trace class_sets].
  rewrite all_false; last first.
  { destruct (selected_metas (bands self)) as [|m ms] eqn:Hms; [done|].
    rewrite !fmap_app, !fmap_cons. apply elem_of_app. left.
    rewrite (Harch m) by (by left). by left. }
  rewrite Hdl. cbn [negb]. unfold raise. f_equal. f_equal.
  unfold checked_first, checked_next.
  rewrite <- !app_assoc, !fmap_app, <- !list_fmap_compose, <- ?app_assoc.
  done.
Qed.

(** X4.  With a legal configuration, the three manifests and the
    directories of the selected sources under the root, and a readable
    manifest for the split, [__init__] returns: the instance has the
    arguments it was given, one folder record per line of the stripped
    manifest, and a [class2idx] built from the shared 43-class list as it
    was when the call was made; the external calls are the existence
    tests and the opening of that one manifest, and the world is as it
    was. *)
Theorem init_on_present_dataset (a : InitArgs) (st : State) sm content :
  table_get splits_metadata (arg_split a) = inr sm →
  arg_bands a ∈ ["s1"; "s2"; "all"] →
  arg_num_classes a ∈ [43; 19] →
  dataset_present (world st) (arg_root a) (arg_bands a) →
  read_text (world st) (PyStr.join (arg_root a) [filename sm]) = inr content →
  __init__ a st
  = (inr (mkBigEarthNet (arg_root a) (arg_split a) (arg_bands a)
            (if grows a (class_sets st) then arg_num_classes a + 1
             else arg_num_classes a)
            (arg_transforms a) (arg_download a) (arg_checksum a)
            (Py.dict (Py.enumerate (cs43 (class_sets st))))
            (folder_of_line (arg_root a)
               <$> PyStr.splitlines (PyStr.strip content))
            (arg_other_features a)),
     mkState (world st)
       (trace st
        ++ (EvExists <$> checked_first (arg_root a) (arg_bands a))
        ++ [EvOpen (PyStr.join (arg_root a) [filename sm])])
       (if grows a (class_sets st) then with_other (class_sets st)
        else class_sets st)).
Proof.
  intros Hsm Hb Hn Hpresent Hread. unfold __init__.
  assert (table_mem splits_metadata (arg_split a) = true) as ->.
  { clear -Hsm. unfold splits_metadata, table_mem in *.
    apply bool_decide_eq_true. rewrite !fmap_cons, !elem_of_cons.
    revert Hsm. cbn [table_get].
    destruct (String.eqb_spec (arg_split a) "train") as [-> | _]; [auto|].
    destruct (String.eqb_spec (arg_split a) "val") as [-> | _]; [auto|].
    destruct (String.eqb_spec (arg_split a) "test") as [-> | _]; [auto|].
    done. }
  rewrite (bool_decide_eq_true_2 _ Hb), (bool_decide_eq_true_2 _ Hn).
  unfold assert. unfold bind at 1. unfold ret at 1.
  unfold bind at 1. unfold ret at 1. unfold bind at 1. unfold ret at 1.
  unfold bind at 1. unfold get_class_sets at 1. cbv zeta.
  erewrite bind_inr; [|by apply verify_present].
  erewrite bind_inr; [|by apply load_folders_eval].
  unfold bind at 1. unfold get_class_sets at 1.
  cbn [set_other_features set_folders other_features root split bands
       num_classes transforms download checksum class2idx folders
       log world trace class_sets cs19 cs43].
  fold (grows a (class_sets st)).
  destruct (grows a (class_sets st));
    unfold bind, put_class_sets, ret, set_num_classes, with_other,
      set_other_features, set_folders, log;
    cbn [root split bands num_classes
         transforms download checksum class2idx folders other_features
         log world trace class_sets];
    by rewrite <- ?app_assoc.
Qed.

End VerifyMissing.

(** ** Indexed access: indices, bands, shapes *)

Section Access.
Context `{Ext : Externals}.

Lemma getitem_wrap {A} (l : list A) (i : Z) :
  0 ≤ i < Z.of_nat (length l) →
  Py.getitem l (i - Z.of_nat (length l)) = Py.getitem l i.
Proof.
  intros Hi. unfold Py.getitem. cbv zeta.
  repeat match goal with
         | |- context [Z.leb ?x ?y] => destruct (Z.leb_spec x y); try lia
         | |- context [Z.ltb ?x ?y] => destruct (Z.ltb_spec x y); try lia
         end.
  cbn [andb]. f_equal. lia.
Qed.

Lemma getitem_out_of_range {A} (l : list A) (i : Z) :
  i < - Z.of_nat (length l) ∨ Z.of_nat (length l) ≤ i →
  Py.getitem l i = None.
Proof.
  intros Hi. unfold Py.getitem. cbv zeta.
  repeat match goal with
         | |- context [Z.leb ?x ?y] => destruct (Z.leb_spec x y); try lia
         | |- context [Z.ltb ?x ?y] => destruct (Z.ltb_spec x y); try lia
         end; done.
Qed.

Lemma getitem_in_range {A} (l : list A) (i : Z) :
  - Z.of_nat (length l) ≤ i < Z.of_nat (length l) →
  is_Some (Py.getitem l i).
Proof.
  intros Hi. unfold Py.getitem. cbv zeta.
  repeat match goal with
         | |- context [Z.leb ?x ?y] => destruct (Z.leb_spec x y); try lia
         | |- context [Z.ltb ?x ?y] => destruct (Z.ltb_spec x y); try lia
         end; cbn [andb]; apply lookup_lt_is_Some; lia.
Qed.

(** X5.  A negative index counts from the end: for [0 ≤ i < len(ds)],
    [ds[i - len(ds)]] is the same access as [ds[i]], with the same
    external calls and the same result in every state. *)
Theorem getitem_negative_index (self : BigEarthNet) (i : Z) :
  0 ≤ i < Z.of_nat (__len__ self) →
  __getitem__ self (i - Z.of_nat (__len__ self)) = __getitem__ self i.
Proof.
  intros Hi. unfold __len__ in *.
  pose proof (getitem_wrap (folders self) i Hi) as Hw.
  unfold __getitem__, _load_image, _load_target, _load_paths, folder_at.
  by rewrite Hw.
Qed.

(** X6.  An index outside [-len(ds), len(ds)) raises [IndexError]
    before any external call: no folder is searched, no file opened. *)
Theorem getitem_index_out_of_range (self : BigEarthNet) (i : Z) (st : State) :
  i < - Z.of_nat (__len__ self) ∨ Z.of_nat (__len__ self) ≤ i →
  __getitem__ self i st = (inl IndexError, st).
Proof.
  intros Hi. unfold __len__ in *.
  pose proof (getitem_out_of_range (folders self) i Hi) as Hnone.
  unfold __getitem__, _load_image, _load_paths, folder_at.
  rewrite Hnone.
  by destruct (String.eqb (bands self) "all");
    [|destruct (String.eqb (bands self) "s1")].
Qed.

Lemma emits_io_glob P p : P (EvGlob p) → emits P (io_glob p).
Proof. by apply emits_one. Qed.

Lemma emits_io_raster_read P p sz :
  P (EvRasterOpen p) → emits P (io_raster_read p sz).
Proof. by apply emits_one. Qed.

Lemma emits_io_json_labels P p : P (EvOpen p) → emits P (io_json_labels p).
Proof. by apply emits_one. Qed.

Lemma emits_folder_at P (self : BigEarthNet) i k : emits P (folder_at self i k).
Proof.
  unfold folder_at. destruct (Py.getitem _ _); [apply emits_lift|apply emits_raise].
Qed.

(** [_load_paths] only searches folders. *)
Lemma emits__load_paths (self : BigEarthNet) i :
  emits (λ ev, ∃ pat, ev = EvGlob pat) (_load_paths self i).
Proof.
  unfold _load_paths.
  destruct (String.eqb (bands self) "all");
    [|destruct (String.eqb (bands self) "s1")];
    repeat first
      [ apply emits_ret
      | apply emits_folder_at
      | apply emits_io_glob; by eexists
      | apply emits_bind; [|intros ?] ].
Qed.

Lemma world__load_paths self i : preserves world (_load_paths self i).
Proof. unfold _load_paths, folder_at. frame. Qed.

Lemma mapM_raster_read (paths : list string) (arrays : list (list Z)) sz st :
  Forall2 (λ p arr, rasterio_read (world st) p sz = inr arr) paths arrays →
  mapM (λ path, io_raster_read path sz) paths st
  = (inr arrays,
     mkState (world st) (trace st ++ (EvRasterOpen <$> paths))
             (class_sets st)).
Proof.
  revert arrays st. induction paths as [|p paths IH]; intros arrays st H.
  - apply Forall2_nil_inv_l in H as ->. cbn. unfold ret.
    rewrite app_nil_r. by destruct st.
  - apply Forall2_cons_inv_l in H as (arr & arrs & Hp & Hrest & ->).
    cbn [mapM]. unfold bind at 1. unfold io_raster_read at 1. rewrite Hp.
    unfold bind at 1. rewrite (IH arrs (log (EvRasterOpen p) st) Hrest).
    unfold ret. cbn [log world trace class_sets]. by rewrite <- app_assoc.
Qed.

(** X7.  When [_load_paths] gives at least one path and every band
    decodes, [_load_image] returns a tensor of shape (number of paths,
    120, 120) whose elements are the decoded bands, converted to float,
    in the order of the paths: channel [k] is the band of path [k]. *)
Theorem load_image_stacks_bands_in_path_order
    (self : BigEarthNet) (index : Z) (st : State) paths arrays :
  (_load_paths self index st).1 = inr paths →
  paths ≠ [] →
  Forall2 (λ p arr, rasterio_read (world st) p image_size = inr arr)
          paths arrays →
  (_load_image self index st).1
  = inr (mkTensor [length paths; 120; 120]%nat (to_float <$> concat arrays)).
Proof.
  intros Hpaths Hne Hread. unfold _load_image.
  pose proof (world__load_paths self index st) as Hw.
  destruct (_load_paths self index st) as [[e|ps] st1] eqn:Hrun;
    cbn [fst snd] in *; [done|]. injection Hpaths as ->.
  rewrite (bind_inr _ _ _ _ _ Hrun).
  rewrite <- Hw in Hread.
  rewrite (bind_inr _ _ _ _ _ (mapM_raster_read _ _ _ _ Hread)).
  unfold lift. cbn [fst]. unfold stack_float.
  rewrite (Forall2_length _ _ _ Hread).
  destruct arrays as [|arr arrays]; [|done].
  apply Forall2_nil_inv_r in Hread. done.
Qed.

(** X8.  A sample whose selected folders hold no "*.tif" file cannot be
    loaded: [_load_image] raises [ValueError] (there is nothing to
    stack), after the searches and without opening a raster. *)
Theorem load_image_without_bands (self : BigEarthNet) (index : Z) (st : State) :
  (_load_paths self index st).1 = inr [] →
  (_load_image self index st).1 = inl ValueError
  ∧ ∀ p, EvRasterOpen p ∉ drop (length (trace st))
                              (trace (_load_image self index st).2).
Proof.
  intros Hpaths. unfold _load_image.
  destruct (_load_paths self index st) as [[e|ps] st1] eqn:Hrun;
    cbn [fst snd] in *; [done|]. injection Hpaths as ->.
  rewrite (bind_inr _ _ _ _ _ Hrun). cbn. split; [done|].
  intros p Hp.
  destruct (emits__load_paths self index st) as (evs & Ht & Hevs).
  rewrite Hrun in Ht. cbn in Ht.
  rewrite Ht, drop_app_length in Hp.
  rewrite Forall_forall in Hevs. by destruct (Hevs _ Hp) as [pat ?].
Qed.

End Access.

Section AccessFrame.
Context `{Ext : Externals}.

Lemma emits_weaken {A} (P Q : Event → Prop) (m : M A) :
  (∀ ev, P ev → Q ev) → emits P m → emits Q m.
Proof.
  intros HPQ Hm st. destruct (Hm st) as (evs & Ht & Hevs).
  exists evs. split; [done|]. by eapply Forall_impl.
Qed.

Lemma world__load_image self i : preserves world (_load_image self i).
Proof. unfold _load_image. frame. apply world__load_paths. Qed.

Lemma world__load_target self i : preserves world (_load_target self i).
Proof. unfold _load_target, folder_at. frame. Qed.

Lemma emits__load_image (self : BigEarthNet) i :
  emits access_event (_load_image self i).
Proof.
  unfold _load_image. apply emits_bind.
  - eapply emits_weaken; [|apply emits__load_paths]. by intros ev [pat ->].
  - intros paths. apply emits_bind; [|intros ?; apply emits_lift].
    apply emits_mapM. intros p _. by apply emits_io_raster_read.
Qed.

Lemma emits__load_target (self : BigEarthNet) i :
  emits access_event (_load_target self i).
Proof.
  unfold _load_target.
  apply emits_bind.
  { destruct (String.eqb _ _); apply emits_folder_at. }
  intros folder. apply emits_bind; [by apply emits_io_glob|].
  intros found. apply emits_bind; [apply emits_lift|].
  intros path. apply emits_bind; [by apply emits_io_json_labels|].
  intros labels. apply emits_bind; [apply emits_lift|].
  intros indices. apply emits_bind; [apply emits_lift|].
  intros d. apply emits_ret.
Qed.

(** X9.  An indexed access only reads: whether it returns or raises, the
    world and the shared [class_sets] are as they were, and its external
    calls are folder searches, raster openings and the opening of a label
    file; it never tests, extracts or downloads anything. *)
Theorem getitem_only_reads (self : BigEarthNet) (index : Z) :
  preserves world (__getitem__ self index)
  ∧ preserves class_sets (__getitem__ self index)
  ∧ emits access_event (__getitem__ self index).
Proof.
  split; [|split].
  - unfold __getitem__. frame.
    + apply world__load_image.
    + apply world__load_target.
  - apply classes___getitem__.
  - unfold __getitem__.
    apply emits_bind; [apply emits__load_image|]. intros img.
    apply emits_bind; [apply emits__load_target|]. intros lbl.
    apply emits_bind; [|intros ?; apply emits_ret].
    destruct (transforms self); [apply emits_lift|apply emits_ret].
Qed.

Lemma load_image_three_dims (self : BigEarthNet) index st img st1 :
  _load_image self index st = (inr img, st1) → length (shape img) = 3%nat.
Proof.
  unfold _load_image. intros H.
  apply bind_inv_inr in H as (paths & s1 & _ & H).
  apply bind_inv_inr in H as (images & s2 & _ & H).
  unfold lift, stack_float in H. destruct images; [done|].
  by injection H as <- <-.
Qed.

(** X10.  Without a transform, an access returns the image and the
    target as the two loaders produced them: the image of [_load_image]
    has three dimensions, so no dimension is squeezed. *)
Theorem getitem_without_transform
    (self : BigEarthNet) (index : Z) (st : State) img st1 lbl st2 :
  transforms self = None →
  _load_image self index st = (inr img, st1) →
  _load_target self index st1 = (inr lbl, st2) →
  __getitem__ self index st = (inr (img, lbl), st2)
  ∧ length (shape img) = 3%nat
  ∧ shape lbl = [Z.to_nat (num_classes self)].
Proof.
  intros Ht Himg Hlbl. unfold __getitem__.
  rewrite (bind_inr _ _ _ _ _ Himg), (bind_inr _ _ _ _ _ Hlbl), Ht.
  pose proof (load_image_three_dims _ _ _ _ _ Himg) as H3.
  unfold bind, ret. cbn [image label]. rewrite H3. cbn [Nat.eqb].
  split; [done|]. split; [done|].
  apply load_target_inv in Hlbl as (labels & _ & Hl).
  unfold target_of_labels in Hl.
  destruct (labels_to_indices self labels); [done|].
  destruct (index_put _ _ _); [done|]. by injection Hl as <-.
Qed.

End AccessFrame.

(** ** The target, in general *)

Section TargetGeneral.
Context `{Ext : Externals}.

Lemma final_indices_elem (self : BigEarthNet) labels indices :
  labels_to_indices self labels = inr indices →
  ∀ j, j ∈ (if maps_to_19 self
            then omap (λ idx, label_converter !! idx) indices
            else indices)
       ↔ ∃ name, name ∈ labels ∧ sets_entry self name j.
Proof.
  intros Hidx j. unfold sets_entry.
  pose proof (labels_to_indices_elem _ _ _ Hidx) as Helem.
  destruct (maps_to_19 self).
  - rewrite list_elem_of_omap. split.
    + intros (i & Hi & ?). apply Helem in Hi as (name & ? & ?).
      exists name. split; [done|]. by exists i.
    + intros (name & ? & i & ? & ?). exists i. split; [|done].
      apply Helem. by exists name.
  - rewrite Helem. split.
    + intros (name & ? & ?). exists name. split; [done|]. by exists j.
    + intros (name & ? & i & ? & ->). by exists name.
Qed.

Lemma index_put_out_of_range d indices v i :
  i ∈ indices → (length d ≤ i)%nat → index_put d indices v = inl IndexError.
Proof.
  revert d. induction indices as [|k rest IH]; intros d Hin Hi.
  { by apply elem_of_nil in Hin. }
  simpl. case_decide; [|done].
  apply elem_of_cons in Hin as [-> | Hin]; [lia|].
  apply IH; [done|]. by rewrite length_insert.
Qed.

(** The target for names that are all known and all set an entry the
    target has. *)
Lemma target_of_labels_char (self : BigEarthNet) labels :
  (∀ name, name ∈ labels → is_Some (class2idx self !! name)) →
  (∀ name j, name ∈ labels → sets_entry self name j →
             (j < Z.to_nat (num_classes self))%nat) →
  ∃ d, target_of_labels self labels
       = inr (mkTensor [Z.to_nat (num_classes self)] d)
       ∧ length d = Z.to_nat (num_classes self)
       ∧ (∀ j, (j < Z.to_nat (num_classes self))%nat →
               d !! j = Some 0 ∨ d !! j = Some 1)
       ∧ ∀ j, d !! j = Some 1 ↔ ∃ name, name ∈ labels ∧ sets_entry self name j.
Proof.
  intros Hknown Hbound. unfold target_of_labels.
  destruct (labels_to_indices_ok self labels Hknown) as [indices Hidx].
  rewrite Hidx. pose proof (final_indices_elem _ _ _ Hidx) as Hfin.
  fold (maps_to_19 self).
  match goal with
  | |- context [index_put _ ?f _] => set (finals := f) in *
  end.
  unfold zeros. cbn [data shape].
  destruct (index_put_spec (replicate (Z.to_nat (num_classes self)) 0)
              finals 1) as (d & -> & Hlen & Hin & Hout).
  { apply Forall_forall. intros j Hj. apply Hfin in Hj as (name & ? & ?).
    rewrite length_replicate. by eapply Hbound. }
  rewrite length_replicate in Hlen.
  exists d. split; [done|]. split; [done|]. split.
  - intros j Hj. destruct (decide (j ∈ finals)) as [?|Hnot]; [right; auto|].
    left. rewrite (Hout _ Hnot). by apply lookup_replicate_2.
  - intros j. rewrite <- Hfin. split; [|by apply Hin].
    intros Hj. destruct (decide (j ∈ finals)) as [?|Hnot]; [done|].
    rewrite (Hout _ Hnot) in Hj. by apply lookup_replicate in Hj as [? _].
Qed.

(** What a target that was returned tells about the names. *)
Lemma target_of_labels_bound (self : BigEarthNet) labels t :
  target_of_labels self labels = inr t →
  ∀ name j, name ∈ labels → sets_entry self name j →
            (j < Z.to_nat (num_classes self))%nat.
Proof.
  intros Ht name j Hname Hset. unfold target_of_labels in Ht.
  destruct (labels_to_indices self labels) as [e|indices] eqn:Hidx; [done|].
  pose proof (final_indices_elem _ _ _ Hidx j) as Hfin.
  fold (maps_to_19 self) in Ht.
  destruct (index_put _ _ _) as [e|d] eqn:Hput; [done|].
  apply index_put_inv in Hput. rewrite Forall_forall in Hput.
  unfold zeros in Hput. cbn [data] in Hput. rewrite length_replicate in Hput.
  apply Hput, Hfin. by exists name.
Qed.

Lemma target_of_labels_same_names (self : BigEarthNet) l1 l2 t :
  (∀ x, x ∈ l1 ↔ x ∈ l2) →
  target_of_labels self l1 = inr t → target_of_labels self l2 = inr t.
Proof.
  intros Hsame Ht.
  pose proof (target_of_labels_known _ _ _ Ht) as Hknown.
  pose proof (target_of_labels_bound _ _ _ Ht) as Hbound.
  destruct (target_of_labels_char self l1 Hknown Hbound)
    as (d1 & Ht1 & Hlen1 & Hbit1 & Hset1).
  destruct (target_of_labels_char self l2)
    as (d2 & Ht2 & Hlen2 & Hbit2 & Hset2).
  { intros name Hn. apply Hknown. by apply Hsame. }
  { intros name j Hn. apply Hbound. by apply Hsame. }
  rewrite Ht in Ht1. injection Ht1 as ->. rewrite Ht2. do 2 f_equal.
  apply list_eq. intros j.
  destruct (decide (j < Z.to_nat (num_classes self))%nat) as [Hj|Hj].
  - assert (d1 !! j = Some 1 ↔ d2 !! j = Some 1) as Hiff.
    { rewrite Hset1, Hset2. split; intros (name & ? & ?); exists name;
        (split; [by apply Hsame|done]). }
    destruct (Hbit1 j Hj) as [H1 | H1], (Hbit2 j Hj) as [H2 | H2];
      rewrite ?H1, ?H2; try done.
    + apply Hiff in H2. congruence.
    + apply Hiff in H1. congruence.
  - rewrite !lookup_ge_None_2 by lia. done.
Qed.

(** X11.  The target depends on the set of names of the label file
    only: two label files with the same names, in any order and with any
    repetitions, give the same target, for the same instance. *)
Theorem target_ignores_order_and_repetition
    (self : BigEarthNet) (i1 i2 : Z) (st1 st2 : State) l1 l2 :
  label_file self i1 (world st1) l1 →
  label_file self i2 (world st2) l2 →
  (∀ x, x ∈ l1 ↔ x ∈ l2) →
  ∀ t, (_load_target self i1 st1).1 = inr t
       ↔ (_load_target self i2 st2).1 = inr t.
Proof.
  intros H1 H2 Hsame t.
  rewrite (load_target_label_file _ _ _ _ H1),
          (load_target_label_file _ _ _ _ H2).
  split; apply target_of_labels_same_names; [done|]. intros x. by rewrite Hsame.
Qed.

End TargetGeneral.

(** ** The name-to-index lookup *)

Section Vocabulary.
Context `{Ext : Externals}.

Lemma dict_snoc `{Countable K} {V} (kvs : list (K * V)) k v :
  Py.dict (kvs ++ [(k, v)]) = <[k := v]> (Py.dict kvs).
Proof. unfold Py.dict. by rewrite foldl_app. Qed.

Lemma enumerate_snoc {A} (l : list A) (x : A) :
  Py.enumerate (l ++ [x]) = Py.enumerate l ++ [(x, length l)].
Proof.
  unfold Py.enumerate. rewrite imap_app. cbn. by rewrite Nat.add_0_r.
Qed.

(** A dict built from [enumerate] maps a value to its last position. *)
Lemma dict_enumerate_lookup (l : list string) (c : string) (i : nat) :
  Py.dict (Py.enumerate l) !! c = Some i
  ↔ l !! i = Some c ∧ ∀ j, (i < j)%nat → l !! j ≠ Some c.
Proof.
  revert i. induction l as [|x l IH] using rev_ind; intros i.
  { unfold Py.dict. cbn. rewrite lookup_empty. split; [done|].
    by intros [? _]. }
  rewrite enumerate_snoc, dict_snoc, lookup_insert.
  destruct (decide (x = c)) as [-> | Hne].
  - split.
    + intros [= <-]. split.
      * by rewrite lookup_app_r, Nat.sub_diag by lia.
      * intros j Hj. rewrite lookup_ge_None_2; [done|].
        rewrite length_app. cbn. lia.
    + intros [Hi Hlast].
      destruct (decide (i = length l)) as [-> | Hi']; [done|].
      apply lookup_lt_Some in Hi as Hlt. rewrite length_app in Hlt.
      cbn in Hlt. exfalso. apply (Hlast (length l)); [lia|].
      by rewrite lookup_app_r, Nat.sub_diag by lia.
  - rewrite IH. split.
    + intros [Hi Hlast]. split.
      * by apply lookup_app_l_Some.
      * intros j Hj Hc. apply lookup_app_Some in Hc as [Hc | [_ Hc]].
        { by apply (Hlast j). }
        apply list_lookup_singleton_Some in Hc as [_ ?]. done.
    + intros [Hi Hlast].
      apply lookup_app_Some in Hi as [Hi | [_ Hi]]; last first.
      { apply list_lookup_singleton_Some in Hi as [_ ?]. done. }
      split; [done|]. intros j Hj Hc. apply (Hlast j Hj).
      by apply lookup_app_l_Some.
Qed.

(** X12.  The [class2idx] of an instance maps a name to its position in
    the shared 43-class list as that list was when the instance was
    built, the last position if the name occurs more than once, and has
    no other key. *)
Theorem class2idx_is_last_position
    (a : InitArgs) (st : State) ds st1 (name : string) (i : nat) :
  __init__ a st = (inr ds, st1) →
  class2idx ds !! name = Some i
  ↔ cs43 (class_sets st) !! i = Some name
    ∧ ∀ j, (i < j)%nat → cs43 (class_sets st) !! j ≠ Some name.
Proof.
  intros Hinit.
  apply init_inv in Hinit as (s & fs & _ & _ & _ & _ & _ & _ & -> & _).
  cbn [class2idx]. apply dict_enumerate_lookup.
Qed.

Lemma vocabulary_NoDup (cs : ClassSets) : vocabulary cs → NoDup (cs43 cs).
Proof.
  intros [-> | ->]; apply (bool_decide_unpack _); by vm_compute.
Qed.

Lemma dict_enumerate_NoDup (l : list string) (c : string) (i : nat) :
  NoDup l → Py.dict (Py.enumerate l) !! c = Some i ↔ l !! i = Some c.
Proof.
  intros Hnd. rewrite dict_enumerate_lookup. split; [by intros [? _]|].
  intros Hi. split; [done|]. intros j Hj Hc.
  pose proof (NoDup_lookup _ _ _ _ Hnd Hi Hc). lia.
Qed.

End Vocabulary.

(** ** The target of 43-class instances and the added class *)

Section TargetFull.
Context `{Ext : Externals}.

Lemma lookup_class_sets_43_lt (j : nat) (name : string) :
  class_sets_43 !! j = Some name → (j < 43)%nat.
Proof. intros H. by apply lookup_lt_Some in H. Qed.

(** X13.  For an instance built with [num_classes=43] from the
    vocabularies as loaded, and a label file whose names are all among
    the 43 classes, [_load_target] returns a target in which the entries
    set to 1 are exactly the positions of the file's names in the
    43-class list; no name is dropped. *)
Theorem target_43_sets_the_positions
    (a : InitArgs) (st : State) ds st1 (index : Z) (st2 : State) labels :
  class_sets st = class_sets_init →
  arg_num_classes a = 43 →
  __init__ a st = (inr ds, st1) →
  label_file ds index (world st2) labels →
  (∀ name, name ∈ labels → name ∈ class_sets_43) →
  ∃ t, (_load_target ds index st2).1 = inr t
       ∧ length (data t) = Z.to_nat (num_classes ds)
       ∧ ∀ j, data t !! j = Some 1
              ↔ ∃ name, name ∈ labels ∧ class_sets_43 !! j = Some name.
Proof.
  intros Hcs Hn Hinit Hfile Hnames.
  rewrite (load_target_label_file _ _ _ _ Hfile). clear Hfile.
  apply init_inv in Hinit as (s & fs & _ & _ & _ & _ & _ & _ & -> & _).
  rewrite Hcs, Hn. set (ds := mkBigEarthNet _ _ _ _ _ _ _ _ _ _).
  assert (Hidx : ∀ name i, class2idx ds !! name = Some i
                           ↔ class_sets_43 !! i = Some name).
  { intros name i. unfold ds. cbn [class2idx].
    apply dict_enumerate_NoDup, (vocabulary_NoDup class_sets_init). by left. }
  assert (Hmode : maps_to_19 ds = false).
  { unfold maps_to_19, ds. cbn [num_classes]. by destruct (grows _ _). }
  assert (Hnum : (43 ≤ Z.to_nat (num_classes ds))%nat).
  { unfold ds. cbn [num_classes]. destruct (grows _ _); lia. }
  assert (Hset : ∀ name j, sets_entry ds name j
                           ↔ class_sets_43 !! j = Some name).
  { intros name j. unfold sets_entry. rewrite Hmode. split.
    - intros (i & Hi & ->). by apply Hidx.
    - intros Hj. exists j. split; [by apply Hidx|done]. }
  destruct (target_of_labels_char ds labels) as (d & -> & Hlen & _ & Hone).
  { intros name Hname. apply Hnames, list_elem_of_lookup in Hname as [i Hi].
    exists i. by apply Hidx. }
  { intros name j _ Hj%Hset%lookup_class_sets_43_lt. lia. }
  eexists. split; [done|]. cbn [data]. split; [done|].
  intros j. rewrite Hone. by setoid_rewrite Hset.
Qed.

(** X14.  An instance built with [num_classes=43] after the vocabularies
    were extended keeps 43 entries in its targets while its [class2idx]
    maps "Other features" to 43: a label file with that name (and known
    names only) makes [_load_target] raise [IndexError]. *)
Theorem other_features_name_is_out_of_range
    (a : InitArgs) (st : State) ds st1 (index : Z) (st2 : State) labels :
  class_sets st = class_sets_other →
  arg_num_classes a = 43 →
  __init__ a st = (inr ds, st1) →
  label_file ds index (world st2) labels →
  "Other features" ∈ labels →
  (∀ name, name ∈ labels → is_Some (class2idx ds !! name)) →
  num_classes ds = 43
  ∧ (_load_target ds index st2).1 = inl IndexError.
Proof.
  intros Hcs Hn Hinit Hfile Hother Hknown.
  rewrite (load_target_label_file _ _ _ _ Hfile). clear Hfile.
  apply init_inv in Hinit as (s & fs & _ & _ & _ & _ & _ & _ & Hds & _).
  rewrite Hcs, grows_other, Hn in Hds.
  assert (Hnum : num_classes ds = 43) by by rewrite Hds.
  split; [done|].
  assert (H43 : class2idx ds !! "Other features" = Some 43%nat).
  { rewrite Hds. cbn [class2idx]. apply class2idx_other_features. }
  unfold target_of_labels.
  destruct (labels_to_indices_ok ds labels Hknown) as [indices Hidx].
  rewrite Hidx, Hnum. cbn [Z.eqb orb Pos.eqb].
  rewrite (index_put_out_of_range _ indices 1 43); [done| |].
  - apply (labels_to_indices_elem _ _ _ Hidx). by exists "Other features".
  - unfold zeros. cbn [data]. by rewrite length_replicate.
Qed.

Lemma class2idx_init_range :
  map_Forall (λ _ i, (i ≤ 42)%nat)
    (Py.dict (Py.enumerate (cs43 class_sets_init))).
Proof. apply (bool_decide_unpack _). by vm_compute. Qed.

(** X15.  On an instance to which [__init__] added the class "Other
    features" ([num_classes] one more than asked), the entry of that
    class is 0 in every target [_load_target] returns: no name of a
    label file reaches it. *)
Theorem added_class_is_never_set
    (a : InitArgs) (st : State) ds st1 (index : Z) (st2 : State) t st3 :
  vocabulary (class_sets st) →
  __init__ a st = (inr ds, st1) →
  num_classes ds = arg_num_classes a + 1 →
  _load_target ds index st2 = (inr t, st3) →
  length (data t) = Z.to_nat (arg_num_classes a + 1)
  ∧ data t !! Z.to_nat (arg_num_classes a) = Some 0.
Proof.
  intros Hvoc Hinit Hgrown Hload.
  apply load_target_inv in Hload as (labels & _ & Ht).
  apply init_inv in Hinit as (s & fs & _ & _ & Hn & _ & _ & _ & Hds & _).
  assert (Hcs : class_sets st = class_sets_init).
  { destruct Hvoc as [? | Hcs]; [done|]. exfalso.
    rewrite Hds, Hcs, grows_other in Hgrown. cbn [num_classes] in Hgrown. lia. }
  assert (Hrange : ∀ name i, class2idx ds !! name = Some i → (i ≤ 42)%nat).
  { intros name i. rewrite Hds, Hcs. cbn [class2idx].
    apply class2idx_init_range. }
  pose proof (target_of_labels_known _ _ _ Ht) as Hknown.
  pose proof (target_of_labels_bound _ _ _ Ht) as Hbound.
  destruct (target_of_labels_char ds labels Hknown Hbound)
    as (d & Ht' & Hlen & Hbit & Hone).
  rewrite Ht in Ht'. injection Ht' as ->. cbn [data].
  rewrite Hgrown in Hlen, Hbit. split; [done|].
  assert (Hn' : arg_num_classes a = 43 ∨ arg_num_classes a = 19).
  { rewrite !elem_of_cons, elem_of_nil in Hn. tauto. }
  destruct (Hbit (Z.to_nat (arg_num_classes a))) as [H0 | H1];
    [destruct Hn' as [-> | ->]; lia|done|].
  exfalso. apply Hone in H1 as (name & _ & i & Hi & Hj).
  apply Hrange in Hi. unfold maps_to_19 in Hj. rewrite Hgrown in Hj.
  destruct Hn' as [Hn' | Hn']; rewrite Hn' in Hj.
  - change ((43 + 1 =? 19) || (43 + 1 =? 20)) with false in Hj.
    cbv iota in Hj. lia.
  - change ((19 + 1 =? 19) || (19 + 1 =? 20)) with true in Hj.
    cbv iota in Hj. apply label_converter_bounds in Hj. lia.
Qed.

End TargetFull.

(** ** From a mask back to names *)

Section Onehot.
Context `{Ext : Externals}.

Lemma class_sets_get_19 (st : State) :
  class_sets_get 19 st = (inr (cs19 (class_sets st)), st).
Proof. done. Qed.

Lemma class_sets_get_43 (st : State) :
  class_sets_get 43 st = (inr (cs43 (class_sets st)), st).
Proof. done. Qed.

Lemma class_sets_get_other (n : Z) (st : State) :
  n ≠ 19 → n ≠ 43 → class_sets_get n st = (inl (KeyError (pretty n)), st).
Proof.
  intros H19 H43. unfold class_sets_get, bind, get_class_sets.
  destruct (Z.eqb_spec n 19); [done|]. by destruct (Z.eqb_spec n 43).
Qed.

(** The loop on a mask whose set positions all have a name. *)
Lemma onehot_loop_names (self : BigEarthNet) (names : list string) (st : State) :
  class_sets_get (num_classes self) st = (inr names, st) →
  ∀ (msk : list bool) (i0 : nat),
    (∀ k, msk !! k = Some true → (i0 + k < length names)%nat) →
    ∃ out, onehot_loop self i0 msk st = (inr out, st)
           ∧ ∀ x, x ∈ out ↔ ∃ k, msk !! k = Some true
                                 ∧ names !! (i0 + k)%nat = Some x.
Proof.
  intros Hget. induction msk as [|b msk IH]; intros i0 Hlen.
  { exists []. split; [done|]. intros x. split; [by intros ?%elem_of_nil|].
    by intros (k & ? & _). }
  destruct (IH (S i0)) as (out & Hout & Helem).
  { intros k Hk. specialize (Hlen (S k) Hk). lia. }
  cbn [onehot_loop]. destruct b.
  - destruct (names !! i0) as [name|] eqn:Hname; last first.
    { apply lookup_ge_None in Hname. specialize (Hlen 0%nat eq_refl). lia. }
    exists (name :: out). split.
    + rewrite (bind_inr _ _ _ _ _ Hget). unfold bind at 1, lift at 1, name_at.
      rewrite Hname. by rewrite (bind_inr _ _ _ _ _ Hout).
    + intros x. rewrite elem_of_cons, Helem. split.
      * intros [-> | (k & Hk & Hx)].
        { exists 0%nat. by rewrite Nat.add_0_r. }
        exists (S k). split; [done|]. by rewrite <- Nat.add_succ_comm.
      * intros ([|k] & Hk & Hx).
        { left. rewrite Nat.add_0_r in Hx. congruence. }
        right. exists k. split; [done|]. by rewrite Nat.add_succ_comm.
  - exists out. split; [done|]. intros x. rewrite Helem. split.
    + intros (k & Hk & Hx). exists (S k). split; [done|].
      by rewrite <- Nat.add_succ_comm.
    + intros ([|k] & Hk & Hx); [done|].
      exists k. split; [done|]. by rewrite Nat.add_succ_comm.
Qed.

(** The loop on a mask with a set position, when the dict has no list
    for [num_classes]. *)
Lemma onehot_loop_key_error (self : BigEarthNet) (st : State) e :
  class_sets_get (num_classes self) st = (inl e, st) →
  ∀ (msk : list bool) (i0 : nat),
    true ∈ msk → onehot_loop self i0 msk st = (inl e, st).
Proof.
  intros Hget. induction msk as [|b msk IH]; intros i0 Hin.
  { by apply elem_of_nil in Hin. }
  cbn [onehot_loop]. destruct b.
  - by rewrite (bind_inl _ _ _ _ _ Hget).
  - apply IH. by apply elem_of_cons in Hin as [? | ?].
Qed.

(** X17.  On an instance whose [num_classes] is neither 19 nor 43 (one
    to which the class "Other features" was added counts 20 or 44),
    [_onehot_labels_to_names] raises [KeyError] for every mask with a
    set position: [class_sets] has no list under that number.  A mask
    with no set position gives the empty list. *)
Theorem onehot_names_key_error
    (self : BigEarthNet) (label_mask : list bool) (st : State) :
  num_classes self ≠ 19 →
  num_classes self ≠ 43 →
  (true ∈ label_mask →
   _onehot_labels_to_names self label_mask st
   = (inl (KeyError (pretty (num_classes self))), st))
  ∧ (true ∉ label_mask →
     _onehot_labels_to_names self label_mask st = (inr [], st)).
Proof.
  intros H19 H43. unfold _onehot_labels_to_names. split.
  - apply onehot_loop_key_error. by apply class_sets_get_other.
  - generalize 0%nat.
    induction label_mask as [|b msk IH]; intros i0 Hnot; [done|].
    apply not_elem_of_cons in Hnot as [Hb Hnot].
    cbn [onehot_loop]. destruct b; [done|]. by apply IH.
Qed.

Lemma mask_of_lookup (t : Tensor Z) (j : nat) :
  (∀ k, (k < length (data t))%nat →
        data t !! k = Some 0 ∨ data t !! k = Some 1) →
  mask_of t !! j = Some true ↔ data t !! j = Some 1.
Proof.
  intros Hbit. unfold mask_of. rewrite list_lookup_fmap.
  destruct (data t !! j) as [x|] eqn:Hx; [|done].
  apply lookup_lt_Some in Hx as Hlt.
  destruct (Hbit j Hlt) as [H | H]; rewrite Hx in H; injection H as ->; done.
Qed.

Lemma vocabulary_cs43_prefix (cs : ClassSets) (j : nat) (x : string) :
  vocabulary cs → (j < 43)%nat →
  cs43 cs !! j = Some x ↔ class_sets_43 !! j = Some x.
Proof.
  intros [-> | ->] Hj; [done|]. cbn [cs43 class_sets_other with_other class_sets_init].
  by rewrite lookup_app_l.
Qed.

Lemma vocabulary_cs43_length (cs : ClassSets) :
  vocabulary cs → (43 ≤ length (cs43 cs))%nat.
Proof. intros [-> | ->]; cbn; rewrite ?length_app; cbn; lia. Qed.

(** X16.  Round trip in 43-class mode: for an instance built with
    [num_classes=43] and without [other_features] from the vocabularies
    as loaded, the names [_onehot_labels_to_names] reads from the target
    of a label file are the names of that file, whenever these are all
    among the 43 classes; and this whether or not the vocabularies were
    extended in between. *)
Theorem onehot_names_round_trip
    (a : InitArgs) (st : State) ds st1 (index : Z) (st2 : State) labels t
    (st3 : State) :
  class_sets st = class_sets_init →
  arg_num_classes a = 43 →
  arg_other_features a = false →
  __init__ a st = (inr ds, st1) →
  label_file ds index (world st2) labels →
  (∀ name, name ∈ labels → name ∈ class_sets_43) →
  (_load_target ds index st2).1 = inr t →
  vocabulary (class_sets st3) →
  ∃ names, _onehot_labels_to_names ds (mask_of t) st3 = (inr names, st3)
           ∧ ∀ x, x ∈ names ↔ x ∈ labels.
Proof.
  intros Hcs Hn Hother Hinit Hfile Hnames Hload Hvoc3.
  rewrite (load_target_label_file _ _ _ _ Hfile) in Hload. clear Hfile.
  apply init_inv in Hinit as (s & fs & _ & _ & _ & _ & _ & _ & Hds & _).
  unfold grows in Hds. rewrite Hother, Hcs, Hn in Hds. cbn [andb] in Hds.
  assert (Hnum : num_classes ds = 43) by by rewrite Hds.
  assert (Hidx : ∀ name i, class2idx ds !! name = Some i
                           ↔ class_sets_43 !! i = Some name).
  { intros name i. rewrite Hds. cbn [class2idx].
    apply dict_enumerate_NoDup, (vocabulary_NoDup class_sets_init). by left. }
  assert (Hset : ∀ name j, sets_entry ds name j
                           ↔ class_sets_43 !! j = Some name).
  { intros name j. unfold sets_entry, maps_to_19. rewrite Hnum.
    cbn [Z.eqb Pos.eqb orb]. split.
    - intros (i & Hi & ->). by apply Hidx.
    - intros Hj. exists j. split; [by apply Hidx|done]. }
  pose proof (target_of_labels_known _ _ _ Hload) as Hknown.
  pose proof (target_of_labels_bound _ _ _ Hload) as Hbound.
  destruct (target_of_labels_char ds labels Hknown Hbound)
    as (d & Ht & Hlen & Hbit & Hone).
  rewrite Hload in Ht. injection Ht as ->. rewrite Hnum in Hlen, Hbit.
  assert (Hmask : ∀ j, mask_of (mkTensor [Z.to_nat 43] d) !! j = Some true
                       ↔ d !! j = Some 1).
  { intros j. apply mask_of_lookup. cbn [data]. rewrite Hlen. apply Hbit. }
  unfold _onehot_labels_to_names.
  destruct (onehot_loop_names ds (cs43 (class_sets st3)) st3)
    with (msk := mask_of (mkTensor [Z.to_nat 43] d)) (i0 := 0%nat)
    as (names & Hrun & Helem).
  { rewrite Hnum. apply class_sets_get_43. }
  { intros k Hk%Hmask%lookup_lt_Some. rewrite Hlen in Hk.
    pose proof (vocabulary_cs43_length _ Hvoc3). lia. }
  exists names. split; [done|]. intros x. rewrite Helem. split.
  - intros (k & Hk%Hmask & Hx). cbn in Hx.
    apply lookup_lt_Some in Hk as Hlt. rewrite Hlen in Hlt.
    apply (vocabulary_cs43_prefix _ _ _ Hvoc3) in Hx; [|lia].
    apply Hone in Hk as (name & Hin & Hpos%Hset). congruence.
  - intros Hx. apply Hnames in Hx as Hpos.
    apply list_elem_of_lookup in Hpos as [k Hk]. exists k.
    apply lookup_lt_Some in Hk as Hlt. cbn in Hlt.
    split.
    + apply Hmask, Hone. exists x. split; [done|]. by apply Hset.
    + cbn. apply (vocabulary_cs43_prefix _ _ _ Hvoc3); [lia|done].
Qed.

End Onehot.

(** ** Band paths and the order of the directory listing *)

Section PathsOrder.
Context `{Ext : Externals}.

Lemma sorted_unique_on {A} (R : relation A) (l1 l2 : list A) :
  (∀ a b, a ∈ l1 → b ∈ l1 → R a b → R b a → a = b) →
  StronglySorted R l1 → StronglySorted R l2 → l1 ≡ₚ l2 → l1 = l2.
Proof.
  revert l2. induction l1 as [|x l1 IH]; intros l2 Hanti Hs1 Hs2 Hperm.
  { by apply Permutation_nil_l in Hperm. }
  destruct l2 as [|y l2].
  { by apply Permutation_nil_r in Hperm. }
  apply StronglySorted_inv in Hs1 as [Hs1 Hx].
  apply StronglySorted_inv in Hs2 as [Hs2 Hy].
  rewrite Forall_forall in Hx, Hy.
  assert (x = y) as ->.
  { assert (x ∈ y :: l2) as Hxin by (rewrite <- Hperm; by left).
    assert (y ∈ x :: l1) as Hyin by (rewrite Hperm; by left).
    apply elem_of_cons in Hxin as [? | Hxin]; [done|].
    apply elem_of_cons in Hyin as [? | Hyin]; [done|].
    apply Hanti; [by left|by right|by apply Hx|by apply Hy]. }
  f_equal. apply IH; [|done|done|by apply Permutation_cons_inv in Hperm].
  intros a b Ha Hb. apply Hanti; by right.
Qed.

(** [sorted] depends on the elements only, not on their order, when no
    two of them share a key. *)
Lemma sorted_of_permutation {A} (key : A → string) (l1 l2 : list A) :
  l1 ≡ₚ l2 →
  (∀ a b, a ∈ l1 → b ∈ l1 → key a = key b → a = b) →
  Py.sorted PyStr.lt key l1 = Py.sorted PyStr.lt key l2.
Proof.
  intros Hperm Hinj. apply (sorted_unique_on (key_le key)).
  - intros a b Ha Hb Hab Hba. rewrite sorted_perm in Ha, Hb.
    apply Hinj; [done|done|]. unfold key_le in *. by apply (anti_symm String.le).
  - apply sorted_sorted.
  - apply sorted_sorted.
  - by rewrite !sorted_perm.
Qed.

(** X18.  The paths of a sample do not depend on the order in which the
    directory listing returns the files: two worlds whose "*.tif"
    searches find the same files in the two folders of the sample give
    the same paths in the same order, provided no two files of the s2
    folder have the same [sort_sentinel2_bands] key. *)
Theorem load_paths_ignores_listing_order
    (self : BigEarthNet) (index : Z) (st st' : State) f :
  Py.getitem (folders self) index = Some f →
  glob_glob (world st) (PyStr.join (s1 f) ["*.tif"])
  ≡ₚ glob_glob (world st') (PyStr.join (s1 f) ["*.tif"]) →
  glob_glob (world st) (PyStr.join (s2 f) ["*.tif"])
  ≡ₚ glob_glob (world st') (PyStr.join (s2 f) ["*.tif"]) →
  (∀ p q, p ∈ glob_glob (world st) (PyStr.join (s2 f) ["*.tif"]) →
          q ∈ glob_glob (world st) (PyStr.join (s2 f) ["*.tif"]) →
          sort_sentinel2_bands p = sort_sentinel2_bands q → p = q) →
  (_load_paths self index st).1 = (_load_paths self index st').1.
Proof.
  intros Hf H1 H2 Hkeys.
  rewrite (load_paths_eval self index st f Hf),
          (load_paths_eval self index st' f Hf).
  rewrite (sorted_of_permutation id _ _ H1) by done.
  by rewrite (sorted_of_permutation sort_sentinel2_bands _ _ H2) by done.
Qed.

End PathsOrder.

(** ** Reading the manifest *)

Section Manifest.
Context `{Ext : Externals}.

Lemma blank_cons (c : ascii) (s : string) :
  blank (String c s) ↔ PyStr.isspace c = true ∧ blank s.
Proof.
  unfold blank. cbn [PyStr.lstrip].
  destruct (PyStr.isspace c); [|split; [done|by intros [? _]]].
  split; [done|by intros [_ ?]].
Qed.

Lemma lstrip_blank_append (a x : string) :
  blank a → PyStr.lstrip (a +:+ x) = PyStr.lstrip x.
Proof.
  induction a as [|c a IH]; intros Ha; [done|].
  apply blank_cons in Ha as [Hc Ha]. rewrite append_cons.
  cbn [PyStr.lstrip]. rewrite Hc. by apply IH.
Qed.

Lemma lstrip_append (s t : string) :
  PyStr.lstrip s ≠ "" → PyStr.lstrip (s +:+ t) = PyStr.lstrip s +:+ t.
Proof.
  induction s as [|c s IH]; intros Hs; [done|].
  rewrite append_cons. cbn [PyStr.lstrip] in *.
  destruct (PyStr.isspace c); [by apply IH|]. by rewrite append_cons.
Qed.

Lemma blank_rev_app (s acc : string) :
  blank s → blank acc → blank (String.rev_app s acc).
Proof.
  revert acc. induction s as [|c s IH]; intros acc Hs Hacc; [done|].
  apply blank_cons in Hs as [Hc Hs]. cbn [String.rev_app].
  apply IH; [done|]. by apply blank_cons.
Qed.

Lemma blank_rev (s : string) : blank s → blank (String.rev s).
Proof. intros Hs. by apply blank_rev_app. Qed.

Lemma blank_append (a b : string) : blank a → blank b → blank (a +:+ b).
Proof. intros Ha Hb. unfold blank. by rewrite lstrip_blank_append. Qed.

(** Whitespace around a text does not change what [strip] returns. *)
Lemma strip_surrounded (before s after : string) :
  blank before → blank after →
  PyStr.strip (before +:+ s +:+ after) = PyStr.strip s.
Proof.
  intros Hb Ha. unfold PyStr.strip, PyStr.rstrip.
  rewrite (lstrip_blank_append _ _ Hb).
  destruct (decide (PyStr.lstrip s = "")) as [Hs | Hs].
  - rewrite Hs. by rewrite (blank_append s after Hs Ha).
  - rewrite (lstrip_append _ _ Hs), rev_append.
    by rewrite (lstrip_blank_append _ _ (blank_rev _ Ha)).
Qed.

(** X19.  Whitespace before and after the text of a manifest (blank
    lines, a final newline or none) changes nothing: two worlds whose
    manifests differ by such whitespace only give the same folder
    records. *)
Theorem load_folders_ignores_surrounding_whitespace
    (self : BigEarthNet) (st st' : State) sm content before after :
  table_get splits_metadata (split self) = inr sm →
  read_text (world st) (PyStr.join (root self) [filename sm]) = inr content →
  read_text (world st') (PyStr.join (root self) [filename sm])
  = inr (before +:+ content +:+ after) →
  blank before → blank after →
  (_load_folders self st).1 = (_load_folders self st').1.
Proof.
  intros Hsm Hread Hread' Hb Ha.
  rewrite (load_folders_eval _ _ _ _ Hsm Hread),
          (load_folders_eval _ _ _ _ Hsm Hread').
  cbn [fst]. by rewrite strip_surrounded.
Qed.

Lemma rev_app_rev_app (x a b : string) :
  String.rev_app (String.rev_app x a) b = String.rev_app a (x +:+ b).
Proof.
  revert a. induction x as [|c x IH]; intros a; [done|].
  cbn [String.rev_app]. rewrite IH. by rewrite append_cons.
Qed.

Lemma split_go_token (sep : ascii) (x cur rest : string) :
  has_char sep x = false →
  PyStr.split_go sep cur (x +:+ String sep rest)
  = String.rev (String.rev_app x cur) :: PyStr.split_go sep "" rest.
Proof.
  revert cur. induction x as [|c x IH]; intros cur Hx.
  - rewrite append_nil_l. cbn [PyStr.split_go String.rev_app].
    by rewrite Ascii.eqb_refl.
  - cbn [has_char] in Hx. apply orb_false_iff in Hx as [Hc Hx].
    rewrite append_cons. cbn [PyStr.split_go String.rev_app].
    rewrite Hc. by apply IH.
Qed.

Lemma first_token_with_extra (id rest : string) :
  has_char "," id = false → first_token (id +:+ "," +:+ rest) = id.
Proof.
  intros Hid. unfold first_token, PyStr.split.
  change ("," +:+ rest) with (String "," rest).
  rewrite (split_go_token _ _ _ _ Hid). unfold String.rev.
  rewrite rev_app_rev_app. cbn [String.rev_app].
  clear. induction id as [|c id IH]; [done|]. rewrite append_cons. by f_equal.
Qed.

(** X20.  Only the first comma-separated token of a manifest line
    counts: when line [i] of the stripped manifest is an identifier
    without comma followed by a comma and anything, the folders of
    sample [i] are those of the identifier. *)
Theorem load_folders_ignores_extra_tokens
    (self : BigEarthNet) (st : State) sm content (i : nat) (id rest : string) :
  table_get splits_metadata (split self) = inr sm →
  read_text (world st) (PyStr.join (root self) [filename sm]) = inr content →
  PyStr.splitlines (PyStr.strip content) !! i = Some (id +:+ "," +:+ rest) →
  has_char "," id = false →
  ∃ fs, (_load_folders self st).1 = inr fs
        ∧ fs !! i = Some (mkFolder (PyStr.join (root self) ["sentinel-1"; id])
                                   (PyStr.join (root self) ["sentinel-2"; id])).
Proof.
  intros Hsm Hread Hline Hid.
  rewrite (load_folders_eval _ _ _ _ Hsm Hread). eexists. split; [done|].
  rewrite list_lookup_fmap, Hline. cbn [fmap option_fmap option_map].
  unfold folder_of_line. by rewrite first_token_with_extra.
Qed.

End Manifest.

(** ** Failures *)

Section Failures.
Context `{Ext : Externals}.

(** X21.  A construction that raises leaves the shared vocabularies as
    they were: "Other features" is appended only by a construction that
    returns. *)
Theorem failed_init_keeps_class_sets (a : InitArgs) (st : State) e :
  (__init__ a st).1 = inl e →
  class_sets (__init__ a st).2 = class_sets st.
Proof.
  unfold __init__, bind.
  destruct (table_mem _ _); simpl; [|done].
  destruct (bool_decide (arg_bands a ∈ _)); simpl; [|done].
  destruct (bool_decide (arg_num_classes a ∈ _)); simpl; [|done].
  pose proof (classes__verify (init_self a (class_sets st)) st) as Hc1.
  unfold init_self in Hc1.
  destruct (_verify _ st) as [[?|[]] st1]; simpl in Hc1; [done|].
  pose proof (classes__load_folders (init_self a (class_sets st)) st1) as Hc2.
  unfold init_self in Hc2.
  destruct (_load_folders _ st1) as [[?|fs] st2]; simpl in Hc2.
  { intros _. simpl. by rewrite Hc2. }
  simpl. by destruct (_ && _).
Qed.

(** X22.  When the folder [_load_target] looks into holds no "*.json"
    file, the access raises [IndexError] after the search, and no file is
    opened. *)
Theorem load_target_without_label_file
    (self : BigEarthNet) (index : Z) (st : State) f :
  Py.getitem (folders self) index = Some f →
  glob_glob (world st) (PyStr.join (target_folder self f) ["*.json"]) = [] →
  _load_target self index st
  = (inl IndexError,
     log (EvGlob (PyStr.join (target_folder self f) ["*.json"])) st).
Proof.
  intros Hf Hglob. unfold _load_target.
  erewrite bind_inr; [|by apply folder_at_target].
  unfold bind at 1. unfold io_glob at 1. rewrite Hglob. done.
Qed.

Lemma mapM_raster_read_fails (good : list string) (arrays : list (list Z))
    (p : string) (rest : list string) e sz (st : State) :
  Forall2 (λ q arr, rasterio_read (world st) q sz = inr arr) good arrays →
  rasterio_read (world st) p sz = inl e →
  mapM (λ path, io_raster_read path sz) (good ++ p :: rest) st
  = (inl e,
     mkState (world st) (trace st ++ (EvRasterOpen <$> good ++ [p]))
             (class_sets st)).
Proof.
  revert arrays st. induction good as [|q good IH]; intros arrays st Hgood Hp.
  - cbn [app mapM]. unfold bind at 1. unfold io_raster_read at 1.
    by rewrite Hp.
  - apply Forall2_cons_inv_l in Hgood as (arr & arrs & Hq & Hrest & ->).
    cbn [app mapM]. unfold bind at 1. unfold io_raster_read at 1. rewrite Hq.
    unfold bind at 1. rewrite (IH arrs (log (EvRasterOpen q) st)); [|done|done].
    cbn [log world trace class_sets]. by rewrite <- app_assoc.
Qed.

(** X23.  When a band does not decode, [_load_image] raises the error
    of the first such band in the order of the paths; the bands after it
    are not opened. *)
Theorem load_image_stops_at_first_failure
    (self : BigEarthNet) (index : Z) (st : State)
    good arrays p rest e :
  (_load_paths self index st).1 = inr (good ++ p :: rest) →
  Forall2 (λ q arr, rasterio_read (world st) q image_size = inr arr)
          good arrays →
  rasterio_read (world st) p image_size = inl e →
  (_load_image self index st).1 = inl e
  ∧ trace (_load_image self index st).2
    = trace (_load_paths self index st).2 ++ (EvRasterOpen <$> good ++ [p]).
Proof.
  intros Hpaths Hgood Hp. unfold _load_image.
  pose proof (world__load_paths self index st) as Hw.
  destruct (_load_paths self index st) as [[?|ps] st1] eqn:Hrun;
    cbn [fst snd] in *; [done|]. injection Hpaths as ->.
  rewrite (bind_inr _ _ _ _ _ Hrun). rewrite <- Hw in Hgood, Hp.
  by rewrite (bind_inl _ _ _ _ _
                (mapM_raster_read_fails _ _ _ _ _ _ _ Hgood Hp)).
Qed.

End Failures.

(** X21 on the empty directory: the construction raises for lack of
    data, with [other_features] set, and [class_sets] stays as loaded. *)
Lemma failed_init_keeps_class_sets_witness :
  class_sets (__init__ (Demo.args "test" "s2" 19 true) Demo2.st_nothing).2
  = class_sets_init.
Proof.
  assert (∃ e, (__init__ (Demo.args "test" "s2" 19 true) Demo2.st_nothing).1
               = inl e) as [e He] by (eexists; by vm_compute).
  exact (failed_init_keeps_class_sets _ _ e He).
Defined.

(** X22 on the first world: the s1 folder of sample 1 holds no label
    file. *)
Lemma load_target_without_label_file_witness :
  (_load_target (set_bands "s1" Demo.ds_s2) 1 Demo.st_s2).1 = inl IndexError.
Proof.
  rewrite (load_target_without_label_file (set_bands "s1" Demo.ds_s2) 1
             Demo.st_s2
             (mkFolder "data/sentinel-1/S2A_p1" "data/sentinel-2/S2A_p1"));
    reflexivity.
Defined.

(** X23 on the second world: the second of the three bands of sample 1
    does not decode; the third is not opened. *)
Lemma load_image_stops_at_first_failure_witness :
  (_load_image Demo2.ds_19 1 Demo2.st_19).1
  = inl (ExternalError "not a raster: data/sentinel-2/S2A_p1/p1_B02.TIF")
  ∧ trace (_load_image Demo2.ds_19 1 Demo2.st_19).2
    = trace (_load_paths Demo2.ds_19 1 Demo2.st_19).2
      ++ [EvRasterOpen "data/sentinel-2/S2A_p1/p1_B01.tif";
          EvRasterOpen "data/sentinel-2/S2A_p1/p1_B02.TIF"].
Proof.
  apply (load_image_stops_at_first_failure Demo2.ds_19 1 Demo2.st_19
           ["data/sentinel-2/S2A_p1/p1_B01.tif"]
           [replicate (120 * 120) 0]
           "data/sentinel-2/S2A_p1/p1_B02.TIF"
           ["data/sentinel-2/S2A_p1/p1_B03.tif"]).
  - reflexivity.
  - by repeat constructor.
  - reflexivity.
Defined.

(** ** The properties above on the concrete worlds *)

Lemma demo2_19 :
  __init__ (Demo.args "test" "s2" 19 false) Demo2.st0
  = (inr Demo2.ds_19, Demo2.st_19).
Proof. vm_cast_no_check (eq_refl (A := Result BigEarthNet * State)
                           (inr Demo2.ds_19, Demo2.st_19)). Qed.

Lemma demo2_43_late :
  __init__ (Demo.args "test" "s2" 43 false) Demo2.st_extended
  = (inr Demo2.ds_43_late, Demo2.st_43_late).
Proof. vm_cast_no_check (eq_refl (A := Result BigEarthNet * State)
                           (inr Demo2.ds_43_late, Demo2.st_43_late)). Qed.

Lemma demo_present_s2 :
  dataset_present (world Demo.st0) "data" "s2".
Proof.
  split; apply Forall_forall; by repeat constructor.
Qed.

(** X1 on the first world: four existence tests and nothing else. *)
Lemma verify_present_witness :
  _verify Demo.ds_s2 Demo.st0
  = (inr tt,
     mkState (Ext := Demo.ext) Demo.disk
       [EvExists "data/bigearthnet-train.csv";
        EvExists "data/bigearthnet-val.csv";
        EvExists "data/bigearthnet-test.csv";
        EvExists "data/sentinel-2"]
       class_sets_init).
Proof.
  rewrite (verify_present Demo.ds_s2 Demo.st0).
  - reflexivity.
  - apply (bool_decide_unpack _). by vm_compute.
  - exact demo_present_s2.
Defined.

(** X2 on the empty directory. *)
Lemma verify_missing_without_download_witness :
  ∃ msg,
    _verify Demo.ds_s2 Demo2.st_nothing
    = (inl (RuntimeError msg),
       mkState (Ext := Demo.ext) (Demo.mkDisk [] [] [] [])
         [EvExists "data/bigearthnet-train.csv";
          EvExists "data/bigearthnet-val.csv";
          EvExists "data/bigearthnet-test.csv";
          EvExists "data/sentinel-2";
          EvExists "data/BigEarthNet-S2-v1.0.tar.gz";
          EvExists "data/bigearthnet-train.csv";
          EvExists "data/bigearthnet-val.csv";
          EvExists "data/bigearthnet-test.csv"]
         class_sets_init).
Proof.
  destruct (verify_missing_without_download Demo.ds_s2 Demo2.st_nothing
              "data/sentinel-2") as [msg Hmsg].
  - apply (bool_decide_unpack _). by vm_compute.
  - apply (bool_decide_unpack _). by vm_compute.
  - reflexivity.
  - apply Forall_forall. by repeat constructor.
  - reflexivity.
  - exists msg. exact Hmsg.
Defined.

(** X4 on the first world. *)
Lemma init_on_present_dataset_witness :
  trace (__init__ (Demo.args "test" "s2" 19 false) Demo.st0).2
  = [EvExists "data/bigearthnet-train.csv";
     EvExists "data/bigearthnet-val.csv";
     EvExists "data/bigearthnet-test.csv";
     EvExists "data/sentinel-2";
     EvOpen "data/bigearthnet-test.csv"]
  ∧ __len__ (Demo.value Demo.blank
               (__init__ (Demo.args "test" "s2" 19 false) Demo.st0))
    = 3%nat.
Proof.
  rewrite (init_on_present_dataset (Demo.args "test" "s2" 19 false) Demo.st0
             (mkMeta "https://git.tu-berlin.de/rsim/BigEarthNet-MM_19-classes_models/-/raw/9a5be07346ab0884b2d9517475c27ef9db9b5104/splits/test.csv?inline=false"
                     "697fb90677e30571b9ac7699b7e5b432"
                     "bigearthnet-test.csv" "")
             Demo.test_manifest).
  - split; reflexivity.
  - reflexivity.
  - apply (bool_decide_unpack _). by vm_compute.
  - apply (bool_decide_unpack _). by vm_compute.
  - exact demo_present_s2.
  - reflexivity.
Defined.

(** X5 on the first world: index -1 is index 2 of three samples. *)
Lemma getitem_negative_index_witness :
  __getitem__ Demo.ds_s2 (-1) = __getitem__ Demo.ds_s2 2.
Proof.
  apply (getitem_negative_index Demo.ds_s2 2). cbn. lia.
Defined.

(** X6 on the first world: index 3 of three samples. *)
Lemma getitem_index_out_of_range_witness :
  __getitem__ Demo.ds_s2 3 Demo.st_s2 = (inl IndexError, Demo.st_s2).
Proof.
  apply getitem_index_out_of_range. right. cbn. lia.
Defined.

(** X7 on the first world: sample 1 has one band. *)
Lemma load_image_stacks_bands_in_path_order_witness :
  (_load_image Demo.ds_s2 1 Demo.st_s2).1
  = inr (mkTensor [1; 120; 120]%nat
           (to_float <$> concat [replicate (120 * 120) 0])).
Proof.
  apply (load_image_stacks_bands_in_path_order Demo.ds_s2 1 Demo.st_s2
           ["data/sentinel-2/S2A_p1/p1_B01.tif"]
           [replicate (120 * 120) 0]).
  - reflexivity.
  - done.
  - by repeat constructor.
Defined.

(** X8 on the first world: the s1 folder of sample 1 holds no band. *)
Lemma load_image_without_bands_witness :
  (_load_image (set_bands "s1" Demo.ds_s2) 1 Demo.st_s2).1 = inl ValueError.
Proof.
  apply (load_image_without_bands (set_bands "s1" Demo.ds_s2) 1 Demo.st_s2).
  reflexivity.
Defined.

(** X10 on the first world: sample 1 through the instance without
    transform. *)
Lemma getitem_without_transform_witness :
  returned_shape (__getitem__ Demo.ds_s2 1 Demo.st_s2)
  = Some [1; 120; 120]%nat.
Proof.
  pose (img := mkTensor [1; 120; 120]%nat (replicate (120 * 120) 0)
               : Tensor (float32 (Externals := Demo.ext))).
  pose (lbl := mkTensor [19%nat] (one_hot 19 18)).
  pose (st1 := (_load_image Demo.ds_s2 1 Demo.st_s2).2).
  pose (st2 := (_load_target Demo.ds_s2 1 st1).2).
  destruct (getitem_without_transform Demo.ds_s2 1 Demo.st_s2
              img st1 lbl st2) as (H & _ & _).
  - reflexivity.
  - vm_cast_no_check (eq_refl (A := Result (Tensor Z) * State) (inr img, st1)).
  - vm_cast_no_check (eq_refl (A := Result (Tensor Z) * State) (inr lbl, st2)).
  - rewrite H. reflexivity.
Defined.

Lemma demo2_label_file_p0 :
  label_file Demo2.ds_19 0 (world Demo2.st_19)
    ["Estuaries"; "Port areas"; "Sea and ocean"; "Estuaries"].
Proof.
  exists Demo.folder0, "data/sentinel-2/S2A_p0/p0_s2.json", [].
  split; [reflexivity|]. split; reflexivity.
Qed.

Lemma demo2_label_file_p1 :
  label_file Demo2.ds_19 1 (world Demo2.st_19)
    ["Port areas"; "Sea and ocean"; "Estuaries"].
Proof.
  exists (mkFolder "data/sentinel-1/S2A_p1" "data/sentinel-2/S2A_p1"),
         "data/sentinel-2/S2A_p1/p1_s2.json", [].
  split; [reflexivity|]. split; reflexivity.
Qed.

Lemma demo2_label_file_p2_late :
  label_file Demo2.ds_43_late 2 (world Demo2.st_43_late)
    ["Pastures"; "Other features"].
Proof.
  exists (mkFolder "data/sentinel-1/S2A_p2" "data/sentinel-2/S2A_p2"),
         "data/sentinel-2/S2A_p2/p2_s2.json", [].
  split; [reflexivity|]. split; reflexivity.
Qed.

(** X11 on the second world: samples 0 and 1 name the same three
    classes, sample 0 in another order and one of them twice. *)
Lemma target_ignores_order_and_repetition_witness :
  (_load_target Demo2.ds_19 0 Demo2.st_19).1
  = inr (mkTensor [19%nat] (one_hot 19 18))
  ∧ (_load_target Demo2.ds_19 1 Demo2.st_19).1
    = inr (mkTensor [19%nat] (one_hot 19 18)).
Proof.
  assert ((_load_target Demo2.ds_19 1 Demo2.st_19).1
          = inr (mkTensor [19%nat] (one_hot 19 18))) as H1 by by vm_compute.
  split; [|exact H1].
  apply (target_ignores_order_and_repetition Demo2.ds_19 0 1
           Demo2.st_19 Demo2.st_19 _ _
           demo2_label_file_p0 demo2_label_file_p1); [|exact H1].
  intros x. rewrite !elem_of_cons, !elem_of_nil. tauto.
Defined.

(** X12 on the first world: "Pastures" is at position 17. *)
Lemma class2idx_is_last_position_witness :
  class2idx Demo.ds_s2 !! "Pastures" = Some 17%nat.
Proof.
  apply (class2idx_is_last_position _ _ _ _ "Pastures" 17 demo_s2).
  split; [reflexivity|].
  intros j Hj Hc. apply list_elem_of_lookup_2 in Hc as Hin.
  cbn in Hc. do 18 (destruct j as [|j]; [lia|]).
  do 25 (destruct j as [|j]; [done|]). done.
Defined.

(** X13 on the first world: sample 1 through the instance with 43
    classes sets the positions 4, 41 and 42. *)
Lemma target_43_sets_the_positions_witness :
  ∃ t, (_load_target Demo.ds_s2_43 1 Demo.st_s2_43).1 = inr t
       ∧ ∀ j, data t !! j = Some 1 ↔ j = 4%nat ∨ j = 42%nat ∨ j = 41%nat.
Proof.
  destruct (target_43_sets_the_positions
              (Demo.args "test" "s2" 43 false) Demo.st0
              Demo.ds_s2_43 Demo.st_s2_43 1 Demo.st_s2_43
              ["Port areas"; "Sea and ocean"; "Estuaries"])
    as (t & Ht & _ & Hset).
  - reflexivity.
  - reflexivity.
  - exact demo_s2_43.
  - exists (mkFolder "data/sentinel-1/S2A_p1" "data/sentinel-2/S2A_p1"),
           "data/sentinel-2/S2A_p1/p1_s2.json", [].
    split; [reflexivity|]. split; reflexivity.
  - apply Forall_forall. repeat constructor; apply (bool_decide_unpack _);
      by vm_compute.
  - exists t. split; [exact Ht|]. intros j. rewrite Hset. split.
    + intros (name & Hname & Hj).
      rewrite !elem_of_cons, elem_of_nil in Hname.
      apply (dict_enumerate_NoDup class_sets_43) in Hj;
        [|apply (vocabulary_NoDup class_sets_init); by left].
      destruct Hname as [-> | [-> | [-> | []]]];
        vm_compute in Hj; injection Hj as <-; auto.
    + intros [-> | [-> | ->]];
        [exists "Port areas"|exists "Sea and ocean"|exists "Estuaries"];
        (split; [apply (bool_decide_unpack _); by vm_compute|reflexivity]).
Defined.

(** X14 on the second world: the instance with 43 classes built after
    the extension, on the sample that names "Other features". *)
Lemma other_features_name_is_out_of_range_witness :
  num_classes Demo2.ds_43_late = 43
  ∧ (_load_target Demo2.ds_43_late 2 Demo2.st_43_late).1 = inl IndexError.
Proof.
  apply (other_features_name_is_out_of_range
           (Demo.args "test" "s2" 43 false) Demo2.st_extended
           Demo2.ds_43_late Demo2.st_43_late 2 Demo2.st_43_late
           ["Pastures"; "Other features"]).
  - reflexivity.
  - reflexivity.
  - exact demo2_43_late.
  - exact demo2_label_file_p2_late.
  - apply (bool_decide_unpack _). by vm_compute.
  - intros name Hname. rewrite !elem_of_cons, elem_of_nil in Hname.
    destruct Hname as [-> | [-> | []]]; vm_compute; by eexists.
Defined.

(** X15 on the first world: the first instance with [other_features]
    counts 20 classes and entry 19 of the target of sample 1 is 0. *)
Lemma added_class_is_never_set_witness :
  ∃ t, (_load_target Demo.ds_other1 1 Demo.st_other1).1 = inr t
       ∧ length (data t) = 20%nat
       ∧ data t !! 19%nat = Some 0.
Proof.
  pose (t := mkTensor [20%nat] (one_hot 20 18)).
  pose (st3 := (_load_target Demo.ds_other1 1 Demo.st_other1).2).
  assert (_load_target Demo.ds_other1 1 Demo.st_other1 = (inr t, st3)) as Hrun.
  { vm_cast_no_check (eq_refl (A := Result (Tensor Z) * State (Ext := Demo.ext))
                        (inr t, st3)). }
  destruct (added_class_is_never_set
              (Demo.args "test" "s2" 19 true) Demo.st0
              Demo.ds_other1 Demo.st_other1 1 Demo.st_other1 t st3
              (or_introl eq_refl) demo_other1 eq_refl Hrun) as [Hlen H0].
  exists t. by rewrite Hrun.
Defined.

(** X16 on the first world: the names read back from the target of
    sample 1 are the names of its label file. *)
Lemma onehot_names_round_trip_witness :
  ∃ names t,
    (_load_target Demo.ds_s2_43 1 Demo.st_s2_43).1 = inr t
    ∧ _onehot_labels_to_names Demo.ds_s2_43 (mask_of t) Demo.st_s2_43
      = (inr names, Demo.st_s2_43)
    ∧ ∀ x, x ∈ names ↔ x ∈ ["Port areas"; "Sea and ocean"; "Estuaries"].
Proof.
  pose (t := mkTensor [43%nat]
               (<[4%nat := 1]> (<[41%nat := 1]> (one_hot 43 42)))).
  assert ((_load_target Demo.ds_s2_43 1 Demo.st_s2_43).1 = inr t) as Hrun
    by by vm_compute.
  destruct (onehot_names_round_trip
              (Demo.args "test" "s2" 43 false) Demo.st0
              Demo.ds_s2_43 Demo.st_s2_43 1 Demo.st_s2_43
              ["Port areas"; "Sea and ocean"; "Estuaries"] t Demo.st_s2_43)
    as (names & Hnames & Hsame).
  - reflexivity.
  - reflexivity.
  - reflexivity.
  - exact demo_s2_43.
  - exists (mkFolder "data/sentinel-1/S2A_p1" "data/sentinel-2/S2A_p1"),
           "data/sentinel-2/S2A_p1/p1_s2.json", [].
    split; [reflexivity|]. split; reflexivity.
  - apply Forall_forall. repeat constructor; apply (bool_decide_unpack _);
      by vm_compute.
  - exact Hrun.
  - by left.
  - by exists names, t.
Defined.

(** X17 on the first world: the instance that counts 20 classes. *)
Lemma onehot_names_key_error_witness :
  _onehot_labels_to_names Demo.ds_other1 [false; true] Demo.st_other1
  = (inl (KeyError "20"), Demo.st_other1).
Proof.
  apply (proj1 (onehot_names_key_error Demo.ds_other1 [false; true]
                  Demo.st_other1 ltac:(done) ltac:(done))).
  apply (bool_decide_unpack _). by vm_compute.
Defined.

(** X18 on the two worlds, which list the bands of sample 0 in
    different orders. *)
Lemma load_paths_ignores_listing_order_witness :
  (_load_paths Demo.ds_all 0 Demo.st0).1
  = (_load_paths Demo.ds_all 0 Demo2.st0).1.
Proof.
  apply (load_paths_ignores_listing_order Demo.ds_all 0 Demo.st0 Demo2.st0
           Demo.folder0).
  - reflexivity.
  - apply (bool_decide_unpack _). by vm_compute.
  - apply (bool_decide_unpack _). by vm_compute.
  - intros p q Hp Hq.
    change (glob_glob (world Demo.st0)
              (PyStr.join (s2 Demo.folder0) ["*.tif"]))
      with ["data/sentinel-2/S2A_p0/p0_B09.tif";
            "data/sentinel-2/S2A_p0/p0_B8A.tif";
            "data/sentinel-2/S2A_p0/p0_B02.tif";
            "data/sentinel-2/S2A_p0/p0_B01.tif"] in Hp, Hq.
    rewrite !elem_of_cons, elem_of_nil in Hp, Hq.
    destruct Hp as [-> | [-> | [-> | [-> | []]]]],
             Hq as [-> | [-> | [-> | [-> | []]]]];
      vm_compute; congruence.
Defined.

(** X19 on the two worlds: the second test manifest is the first with a
    line break before and a space and a line break after. *)
Lemma load_folders_ignores_surrounding_whitespace_witness :
  (_load_folders Demo.ds_s2 Demo.st0).1
  = (_load_folders Demo.ds_s2 Demo2.st0).1.
Proof.
  apply (load_folders_ignores_surrounding_whitespace
           Demo.ds_s2 Demo.st0 Demo2.st0
           (mkMeta "https://git.tu-berlin.de/rsim/BigEarthNet-MM_19-classes_models/-/raw/9a5be07346ab0884b2d9517475c27ef9db9b5104/splits/test.csv?inline=false"
                   "697fb90677e30571b9ac7699b7e5b432"
                   "bigearthnet-test.csv" "")
           Demo.test_manifest Demo.nl (" " +:+ Demo.nl));
    reflexivity.
Defined.

(** X20 on the first world: line 0 of the test manifest is
    "S2A_p0,S1A_p0". *)
Lemma load_folders_ignores_extra_tokens_witness :
  ∃ fs, (_load_folders Demo.ds_s2 Demo.st0).1 = inr fs
        ∧ fs !! 0%nat = Some Demo.folder0.
Proof.
  apply (load_folders_ignores_extra_tokens Demo.ds_s2 Demo.st0
           (mkMeta "https://git.tu-berlin.de/rsim/BigEarthNet-MM_19-classes_models/-/raw/9a5be07346ab0884b2d9517475c27ef9db9b5104/splits/test.csv?inline=false"
                   "697fb90677e30571b9ac7699b7e5b432"
                   "bigearthnet-test.csv" "")
           Demo.test_manifest 0 "S2A_p0" "S1A_p0");
    reflexivity.
Defined.
